(** * Complinist-OS document chunking engine: embedding and properties

    A shallow embedding of [scripts/chunking/token_utils.py],
    [scripts/chunking/metadata_enhancer.py] and [scripts/chunking/chunker.py],
    of the PDF and Markdown extractors of [scripts/chunking/file_processor.py]
    and of the preparation loop of [scripts/ingestion/ingest_compliance_docs.py],
    followed by the properties of the chunking pipeline.

    Conventions of the embedding.
    - A Python [str] is a [string] whose characters are code points below 256.
    - A Python [dict] with string keys is a [gmap string _]; the order of the
      keys plays no role in the code modelled here.
    - A Python [int] is a [Z]; [len(...)] results are [nat].
    - Code that can raise returns an [outcome]. *)

From Stdlib Require Import ZArith Ascii Floats.SpecFloat.
From stdpp Require Import gmap strings list pretty.

#[local] Open Scope Z_scope.
#[local] Set Warnings "-clear-no-such-hyp".

(** ** The Python runtime: strings, dynamic values, exceptions *)

Module Py.

Definition code (c : ascii) : N := N_of_ascii c.

(** [str.isspace] on one character below 256: TAB..CR, FS..US, space,
    NEL (0x85) and NBSP (0xA0). *)
Definition isspace (c : ascii) : bool :=
  let n := code c in
  ((9 <=? n) && (n <=? 13) || (28 <=? n) && (n <=? 32)
   || (n =? 133) || (n =? 160))%N.

(** [str.lower] on one character below 256: A..Z and the Latin-1 capitals
    (0xC0..0xDE without the multiplication sign 0xD7) move up by 32. *)
Definition lower_char (c : ascii) : ascii :=
  let n := code c in
  if ((65 <=? n) && (n <=? 90)
      || (192 <=? n) && (n <=? 222) && negb (n =? 215))%N
  then ascii_of_N (n + 32) else c.

Fixpoint lower (s : string) : string :=
  match s with
  | EmptyString => EmptyString
  | String c r => String (lower_char c) (lower r)
  end.

Definition is_empty (s : string) : bool :=
  match s with EmptyString => true | String _ _ => false end.

Fixpoint lstrip (s : string) : string :=
  match s with
  | EmptyString => EmptyString
  | String c r => if isspace c then lstrip r else s
  end.

Fixpoint rstrip (s : string) : string :=
  match s with
  | EmptyString => EmptyString
  | String c r =>
      let r' := rstrip r in
      if isspace c && is_empty r' then EmptyString else String c r'
  end.

(** [s.strip()] *)
Definition strip (s : string) : string := rstrip (lstrip s).

Fixpoint startswith (p s : string) : bool :=
  match p, s with
  | EmptyString, _ => true
  | String _ _, EmptyString => false
  | String a p', String b s' => Ascii.eqb a b && startswith p' s'
  end.

(** [needle in hay] on strings *)
Fixpoint contains (needle hay : string) : bool :=
  startswith needle hay
  || match hay with
     | EmptyString => false
     | String _ r => contains needle r
     end.

(** [s.split(sep)] for a one-character separator *)
Fixpoint split_char (sep : ascii) (s : string) : list string :=
  match s with
  | EmptyString => [EmptyString]
  | String c r =>
      if Ascii.eqb c sep then EmptyString :: split_char sep r
      else match split_char sep r with
           | h :: t => String c h :: t
           | [] => [String c EmptyString]
           end
  end.

(** [sep.join(l)] *)
Fixpoint join (sep : string) (l : list string) : string :=
  match l with
  | [] => EmptyString
  | [x] => x
  | x :: r => x +:+ sep +:+ join sep r
  end.

(** [l[:k]] *)
Definition slice_to {A} (k : Z) (l : list A) : list A :=
  if 0 <=? k then take (Z.to_nat k) l
  else take (length l - Z.to_nat (- k))%nat l.

(** [list(dict.fromkeys(l))]: the first occurrence of every string, in
    order. *)
Fixpoint fromkeys_from (seen l : list string) : list string :=
  match l with
  | [] => []
  | x :: r =>
      if bool_decide (x ∈ seen) then fromkeys_from seen r
      else x :: fromkeys_from (x :: seen) r
  end.

Definition fromkeys (l : list string) : list string := fromkeys_from [] l.

(** The values a metadata dictionary holds: [None], booleans, integers,
    strings and lists of strings. *)
Inductive value :=
  | VNone
  | VBool (b : bool)
  | VInt (n : Z)
  | VStr (s : string)
  | VList (l : list string).

(** Truth value of [if v:] *)
Definition truthy (v : value) : bool :=
  match v with
  | VNone => false
  | VBool b => b
  | VInt n => negb (n =? 0)
  | VStr s => negb (is_empty s)
  | VList l => match l with [] => false | _ => true end
  end.

(** [v == s] for a string literal [s] *)
Definition eq_str (v : value) (s : string) : bool :=
  match v with VStr t => String.eqb t s | _ => false end.

(** [d.get(k)] with [None] for a missing key, and [d.get(k, '')] *)
Definition get (d : gmap string value) (k : string) : value :=
  default VNone (d !! k).

Definition get_or_empty (d : gmap string value) (k : string) : value :=
  default (VStr EmptyString) (d !! k).

(** [x or s]: [x] when it is truthy, else the string [s] *)
Definition or_str (x : value) (s : string) : value :=
  if truthy x then x else VStr s.

Inductive exn := TypeError | AttributeError | OverflowError | ValueError.

Inductive outcome (A : Type) :=
  | Returned (a : A)
  | Raised (e : exn).
Arguments Returned {A} a.
Arguments Raised {A} e.

#[global] Instance outcome_ret : MRet outcome := @Returned.
#[global] Instance outcome_bind : MBind outcome := λ A B f m,
  match m with
  | Returned a => f a
  | Raised e => Raised e
  end.

(** [v.lower()]: only a [str] has the method. *)
Definition lower_of (v : value) : outcome string :=
  match v with
  | VStr s => Returned (lower s)
  | _ => Raised AttributeError
  end.

End Py.

Export Py.

(** ** External libraries

    The tokenizer ([tiktoken]), the text splitter ([langchain]'s
    [RecursiveCharacterTextSplitter]), the two regular expressions of
    [_extract_key_terms] ([re.findall]) and the [repr] of a list are not part
    of the repository; the embedding takes them as an interface. *)

Class External := {
  (** [len(tokenizer.encode(text, disallowed_special=()))] *)
  count_tokens : string → nat;
  (** [RecursiveCharacterTextSplitter(chunk_size, chunk_overlap,
      length_function).split_text(text)] *)
  split_text : Z → Z → string → list string;
  (** [re.findall(r'\b[A-Z][a-z]+(?:\s+[A-Z][a-z]+)+\b', text)] *)
  findall_capitalized : string → list string;
  (** [re.findall(r'\b[A-Z]{2,6}\b', text)] *)
  findall_acronyms : string → list string;
  (** [str(l)] of a list of strings *)
  repr_list : list string → string
}.

(** [f"{v}"] *)
Definition format `{External} (v : value) : string :=
  match v with
  | VNone => "None"
  | VBool true => "True"
  | VBool false => "False"
  | VInt n => pretty n
  | VStr s => s
  | VList l => repr_list l
  end.

(** ** token_utils.py *)

Module token_utils.

(** Python floats are IEEE 754 binary64. *)
Definition prec : Z := 53.
Definition emax : Z := 1024.

(** The literal [0.2], that is 0x1.999999999999ap-3. *)
Definition overlap_ratio_default : spec_float :=
  S754_finite false 7205759403792794 (-55).

(** Conversion of the [int] operand of [int * float]: correctly rounded,
    [OverflowError] when the integer is too large. *)
Definition float_of_int (n : Z) : outcome spec_float :=
  match binary_normalize prec emax n 0 false with
  | S754_infinity _ => Raised OverflowError
  | f => Returned f
  end.

(** [int(f)]: truncation towards zero. *)
Definition int_of_float (f : spec_float) : outcome Z :=
  match f with
  | S754_zero _ => Returned 0
  | S754_finite s m e =>
      let a := match e with
               | Z0 => Zpos m
               | Zpos p => Zpos m * 2 ^ Zpos p
               | Zneg p => Zpos m / 2 ^ Zpos p
               end in
      Returned (if s then - a else a)
  | S754_infinity _ => Raised OverflowError
  | S754_nan => Raised ValueError
  end.

(** [int(chunk_size_tokens * overlap_ratio)] *)
Definition int_of_product (chunk_size_tokens : Z) (overlap_ratio : spec_float)
    : outcome Z :=
  x ← float_of_int chunk_size_tokens;
  int_of_float (SFmul prec emax x overlap_ratio).

Definition calculate_adaptive_overlap
    (chunk_size_tokens : Z) (overlap_ratio : spec_float) : outcome Z :=
  t ← int_of_product chunk_size_tokens overlap_ratio;
  let overlap := Z.max 20 t in
  let max_overlap := chunk_size_tokens / 2 in
  Returned (Z.min overlap max_overlap).

End token_utils.


(** ** metadata_enhancer.py *)

Module metadata_enhancer.

Section with_external.
Context `{External}.

Definition _generate_control_questions
    (text : string) (metadata : gmap string value) : outcome (list string) :=
  let questions := [] in
  let control_id := get_or_empty metadata "control_id" in
  let control_name := get_or_empty metadata "control_name" in
  let family := get_or_empty metadata "family" in
  let enhancement_number := get_or_empty metadata "enhancement_number" in
  questions ←
    (if truthy control_id then
       let questions := questions ++
         ["What is the purpose of control " +:+ format control_id +:+ "?";
          "What are the requirements for " +:+ format control_id +:+ "?"] in
       let questions :=
         if truthy control_name then questions ++
           ["How do I implement " +:+ format control_name +:+ "?";
            "What does " +:+ format control_name +:+ " require?"]
         else questions in
       let questions :=
         if truthy enhancement_number then questions ++
           ["What does enhancement " +:+ format enhancement_number +:+ " of "
              +:+ format control_id +:+ " add?"]
         else questions in
       source_lower ← lower_of (get_or_empty metadata "source");
       Returned
         (if contains "assessment" source_lower then questions ++
            ["How do you assess " +:+ format control_id +:+ "?";
             "What are the assessment procedures for "
               +:+ format control_id +:+ "?"]
          else questions)
     else Returned questions);
  let questions :=
    if truthy family then questions ++
      ["What are the " +:+ format family +:+ " family requirements?"]
    else questions in
  let questions :=
    if contains "baseline" (lower text) then questions ++
      ["What baseline applies to "
         +:+ format (or_str control_id "this control") +:+ "?"]
    else questions in
  let questions :=
    if existsb (λ word, contains word (lower text)) ["shall"; "must"; "required"]
    then questions ++
      ["What are the mandatory requirements for "
         +:+ format (or_str control_id "this") +:+ "?"]
    else questions in
  Returned questions.

Definition pattern_terms : list string :=
  ["zero trust"; "dmz"; "defense in depth"; "segmentation";
   "micro-segmentation"; "network isolation"; "perimeter security";
   "firewall"; "intrusion detection"; "intrusion prevention";
   "load balancer"; "proxy"; "gateway"].

Definition _extract_key_terms (text : string) (pattern_type : bool)
    : list string :=
  let terms := [] in
  let terms :=
    if pattern_type then
      let text_lower := lower text in
      terms ++ filter (λ term, contains term text_lower = true) pattern_terms
    else terms in
  let capitalized := findall_capitalized text in
  let terms := terms ++ slice_to 3 capitalized in
  let acronyms := findall_acronyms text in
  let terms := terms ++ slice_to 3 acronyms in
  slice_to 5 terms.

Definition _generate_pattern_questions
    (text : string) (metadata : gmap string value) (document_type : string)
    : list string :=
  let questions := [] in
  let pattern_keywords := _extract_key_terms text true in
  if String.eqb document_type "security_pattern" then
    let questions := questions ++
      flat_map (λ keyword,
        ["How do I implement " +:+ keyword +:+ "?";
         "What are the best practices for " +:+ keyword +:+ "?"])
        (slice_to 2 pattern_keywords) in
    let questions := questions ++ ["What security patterns should I use?"] in
    let questions :=
      if contains "zero trust" (lower text)
      then questions ++ ["How do I implement zero trust architecture?"]
      else questions in
    let questions :=
      if contains "dmz" (lower text)
      then questions ++ ["How should I configure my DMZ?"]
      else questions in
    questions
  else if String.eqb document_type "positioning_guide" then
    questions ++ ["Where should I position security devices?";
                  "What are the best practices for device placement?"]
  else if String.eqb document_type "zone_guide" then
    questions ++ ["How should I segment network zones?";
                  "What are the security zone requirements?"]
  else if String.eqb document_type "grouping_guide" then
    questions ++ ["How should I group devices?";
                  "What are device grouping best practices?"]
  else if String.eqb document_type "segmentation_guide" then
    questions ++ ["How do I segment my network?";
                  "What are network segmentation strategies?"]
  else questions.

Definition _generate_framework_questions
    (text : string) (metadata : gmap string value) (document_type : string)
    : list string :=
  let questions := [] in
  if String.eqb document_type "800-37_rmf" then
    let task_id := get_or_empty metadata "task_id" in
    let step := get_or_empty metadata "step" in
    let questions :=
      if truthy task_id then questions ++
        ["What is task " +:+ format task_id +:+ " in the RMF?";
         "How do I complete task " +:+ format task_id +:+ "?"]
      else questions in
    let questions :=
      if truthy step then questions ++
        ["What are the requirements for RMF step " +:+ format step +:+ "?"]
      else questions in
    questions ++ ["What are the RMF steps?";
                  "How do I implement the Risk Management Framework?"]
  else if String.eqb document_type "csf_2.0" then
    let function := get_or_empty metadata "function" in
    let category := get_or_empty metadata "category" in
    let questions :=
      if truthy function then questions ++
        ["What is the " +:+ format function +:+ " function in the CSF?"]
      else questions in
    let questions :=
      if truthy category then questions ++
        ["What are the " +:+ format category +:+ " requirements?"]
      else questions in
    questions ++ ["What are the Cybersecurity Framework requirements?"]
  else questions.

Definition _generate_query_pattern_questions
    (text : string) (metadata : gmap string value) : list string :=
  if contains "?" text then
    let existing_questions :=
      map (λ q, strip q +:+ "?")
          (filter (λ q, is_empty (strip q) = false) (split_char "?" text)) in
    slice_to 3 existing_questions
  else
    ["What are common questions about compliance?";
     "What should I ask about security requirements?"].

Definition _generate_generic_questions
    (text : string) (metadata : gmap string value) : list string :=
  let questions := [] in
  let key_terms := _extract_key_terms text false in
  let questions :=
    match key_terms with
    | primary_term :: _ => questions ++
        ["What is " +:+ primary_term +:+ "?";
         "How does " +:+ primary_term +:+ " work?";
         "What are the requirements for " +:+ primary_term +:+ "?"]
    | [] => questions
    end in
  let questions :=
    if existsb (λ word, contains word (lower text))
         ["requirement"; "must"; "shall"]
    then questions ++ ["What are the requirements?"] else questions in
  let questions :=
    if existsb (λ word, contains word (lower text))
         ["implement"; "deploy"; "configure"]
    then questions ++ ["How do I implement this?"] else questions in
  let questions :=
    if contains "assess" (lower text) || contains "evaluate" (lower text)
    then questions ++ ["How do I assess this?"] else questions in
  let questions :=
    if truthy (get metadata "section_heading") then
      let section := get metadata "section_heading" in
      questions ++ ["What is covered in " +:+ format section +:+ "?"]
    else questions in
  questions.

Definition control_document_types : list string :=
  ["800-53_catalog"; "800-53a_assessment"; "800-171"; "fedramp"; "cmmc";
   "dod_srg"; "cnssi_1253"; "overlays"].

Definition pattern_document_types : list string :=
  ["security_pattern"; "positioning_guide"; "zone_guide"; "grouping_guide";
   "segmentation_guide"].

Definition framework_document_types : list string :=
  ["800-37_rmf"; "csf_2.0"].

(** [x in l] for a list of string literals *)
Definition in_list (x : string) (l : list string) : bool :=
  existsb (String.eqb x) l.

Definition generate_hypothetical_questions
    (text : string) (metadata : gmap string value) (document_type : string)
    (max_questions : Z) : outcome (list string) :=
  questions ←
    (if in_list document_type control_document_types then
       _generate_control_questions text metadata
     else if in_list document_type pattern_document_types then
       Returned (_generate_pattern_questions text metadata document_type)
     else if in_list document_type framework_document_types then
       Returned (_generate_framework_questions text metadata document_type)
     else if String.eqb document_type "query_patterns" then
       Returned (_generate_query_pattern_questions text metadata)
     else
       Returned (_generate_generic_questions text metadata));
  let questions := fromkeys questions in
  Returned (slice_to max_questions questions).

(** A chunk: [{'text': ..., 'metadata': {...}}] *)
Record chunk := Chunk { text : string; metadata : gmap string value }.

Definition enhance_chunk_metadata
    (c : chunk) (document_type : string) (enable_questions : bool)
    : outcome chunk :=
  if negb enable_questions then Returned c
  else
    let text := text c in
    let metadata := metadata c in
    questions ← generate_hypothetical_questions text metadata document_type 3;
    match questions with
    | _ :: _ =>
        let enhanced_metadata := metadata in
        let enhanced_metadata :=
          <["hypothetical_questions" := VList questions]> enhanced_metadata in
        let enhanced_metadata :=
          <["question_count" := VInt (Z.of_nat (length questions))]>
            enhanced_metadata in
        let enhanced_metadata :=
          <["questions_text" := VStr (join " " questions)]>
            enhanced_metadata in
        Returned {| text := text; metadata := enhanced_metadata |}
    | [] => Returned c
    end.

Definition batch_enhance_chunks
    (chunks : list chunk) (document_type : string) (enable_questions : bool)
    : outcome (list chunk) :=
  if negb enable_questions then Returned chunks
  else mapM (λ c, enhance_chunk_metadata c document_type enable_questions)
            chunks.

End with_external.

End metadata_enhancer.

(** ** chunker.py *)

Module chunker.

Import metadata_enhancer.

(** One entry of [CHUNKING_CONFIG]; a key the entry does not have is [None]. *)
Record config := Config {
  chunk_size_tokens : option Z;
  chunk_overlap_tokens : option Z;
  one_per_control : option bool;
  by_task : option bool;
  by_impact_level : option bool;
  use_small2big : option bool;
  small_chunk_size : option Z
}.

Definition control_config : config :=
  {| chunk_size_tokens := Some 384; chunk_overlap_tokens := Some 77;
     one_per_control := Some true; by_task := None; by_impact_level := None;
     use_small2big := Some true; small_chunk_size := Some 256 |}.

Definition rmf_config : config :=
  {| chunk_size_tokens := Some 400; chunk_overlap_tokens := Some 80;
     one_per_control := None; by_task := Some true; by_impact_level := None;
     use_small2big := Some true; small_chunk_size := Some 256 |}.

Definition csf_config : config :=
  {| chunk_size_tokens := Some 400; chunk_overlap_tokens := Some 80;
     one_per_control := None; by_task := None; by_impact_level := None;
     use_small2big := Some true; small_chunk_size := Some 256 |}.

Definition dod_srg_config : config :=
  {| chunk_size_tokens := Some 450; chunk_overlap_tokens := Some 90;
     one_per_control := None; by_task := None; by_impact_level := Some true;
     use_small2big := Some true; small_chunk_size := Some 300 |}.

Definition cmmc_config : config :=
  {| chunk_size_tokens := Some 384; chunk_overlap_tokens := Some 77;
     one_per_control := None; by_task := None; by_impact_level := None;
     use_small2big := Some true; small_chunk_size := Some 256 |}.

Definition guide_config : config :=
  {| chunk_size_tokens := Some 450; chunk_overlap_tokens := Some 90;
     one_per_control := None; by_task := None; by_impact_level := None;
     use_small2big := Some true; small_chunk_size := Some 300 |}.

Definition query_patterns_config : config :=
  {| chunk_size_tokens := Some 300; chunk_overlap_tokens := Some 60;
     one_per_control := None; by_task := None; by_impact_level := None;
     use_small2big := Some false; small_chunk_size := None |}.

Definition default_config : config :=
  {| chunk_size_tokens := Some 512; chunk_overlap_tokens := Some 102;
     one_per_control := None; by_task := None; by_impact_level := None;
     use_small2big := Some true; small_chunk_size := Some 256 |}.

Definition CHUNKING_CONFIG_items : list (string * config) :=
  [("800-53_catalog", control_config);
   ("800-53a_assessment", control_config);
   ("800-53_xml", control_config);
   ("800-37_rmf", rmf_config);
   ("csf_2.0", csf_config);
   ("800-171", control_config);
   ("fedramp", control_config);
   ("dod_srg", dod_srg_config);
   ("cmmc", cmmc_config);
   ("security_pattern", guide_config);
   ("positioning_guide", guide_config);
   ("zone_guide", guide_config);
   ("grouping_guide", guide_config);
   ("segmentation_guide", guide_config);
   ("query_patterns", query_patterns_config);
   ("default", default_config)].

Definition CHUNKING_CONFIG : gmap string config :=
  list_to_map CHUNKING_CONFIG_items.

Definition get_chunking_config (document_type : string) : config :=
  default default_config (CHUNKING_CONFIG !! document_type).
Arguments get_chunking_config : simpl never.

Definition detect_document_type
    (filename : value) (metadata : gmap string value) : outcome string :=
  filename_lower ← lower_of filename;
  let has s := contains s filename_lower in
  if has "800-53" && eq_str (get metadata "file_type") "xml" then
    Returned "800-53_xml"
  else if has "800-53" && has "catalog" then Returned "800-53_catalog"
  else if has "800-53a" || has "assessment" then Returned "800-53a_assessment"
  else if has "800-37" || has "rmf" then Returned "800-37_rmf"
  else if has "csf" || has "cybersecurity framework" then Returned "csf_2.0"
  else if has "800-171" then Returned "800-171"
  else if has "fedramp" then Returned "fedramp"
  else if has "cmmc" then Returned "cmmc"
  else if has "srg" || has "dod" then Returned "dod_srg"

  else if eq_str (get metadata "document_type") "800-53_xml" then
    Returned "800-53_xml"
  else if eq_str (get metadata "document_type") "security_pattern" then
    Returned "security_pattern"
  else if eq_str (get metadata "document_type") "positioning_guide" then
    Returned "positioning_guide"
  else if eq_str (get metadata "document_type") "zone_guide" then
    Returned "zone_guide"
  else if eq_str (get metadata "document_type") "grouping_guide" then
    Returned "grouping_guide"
  else if eq_str (get metadata "document_type") "segmentation_guide" then
    Returned "segmentation_guide"

  else if has "security_pattern" then Returned "security_pattern"
  else if has "positioning" then Returned "positioning_guide"
  else if has "zone" then Returned "zone_guide"
  else if has "grouping" then Returned "grouping_guide"
  else if has "segmentation" then Returned "segmentation_guide"
  else if has "query_pattern" || has "greeting" then Returned "query_patterns"

  else Returned "default".

Definition DOCUMENT_LABELS_items : list (string * string) :=
  [("800-53_catalog", "NIST SP 800-53 Rev. 5 Control Catalog");
   ("800-53_xml", "NIST SP 800-53 Rev. 5 Control Catalog (XML)");
   ("800-53a_assessment", "NIST SP 800-53A Rev. 5 Assessment Procedures");
   ("800-37_rmf", "NIST SP 800-37 Rev. 2 RMF Lifecycle");
   ("csf_2.0", "NIST Cybersecurity Framework 2.0");
   ("800-171", "NIST SP 800-171 Rev. 3 (CUI Requirements)");
   ("fedramp", "FedRAMP Security Baseline");
   ("dod_srg", "DoD Cloud SRG (IL2-IL6)");
   ("cmmc", "CMMC (Cybersecurity Maturity Model Certification)");
   ("security_pattern", "Security Pattern Documentation");
   ("positioning_guide", "Device Positioning Best Practices");
   ("zone_guide", "Security Zone Relationships");
   ("grouping_guide", "Device Grouping Patterns");
   ("segmentation_guide", "Network Segmentation Strategies");
   ("query_patterns", "Query Patterns and Common Greetings");
   ("default", "Source Document")].

Definition DOCUMENT_LABELS : gmap string string :=
  list_to_map DOCUMENT_LABELS_items.

Section with_external.
Context `{External}.

Definition _build_context_prefix
    (metadata : gmap string value) (document_type : string) : string :=
  let parts := [] in
  let parts :=
    match DOCUMENT_LABELS !! document_type with
    | Some label => if is_empty label then parts else parts ++ [label]
    | None => parts
    end in
  let field key render parts :=
    if truthy (get metadata key)
    then parts ++ [render (format (get metadata key))] else parts in
  let parts := field "section_heading" (λ v, "Section: " +:+ v) parts in
  let parts :=
    if truthy (get metadata "control_id") then
      let control_part := "Control " +:+ format (get metadata "control_id") in
      let control_part :=
        if truthy (get metadata "control_name")
        then control_part +:+ " - " +:+ format (get metadata "control_name")
        else control_part in
      let control_part :=
        if truthy (get metadata "family")
        then control_part +:+ " (Family "
               +:+ format (get metadata "family") +:+ ")"
        else control_part in
      let control_part :=
        if truthy (get metadata "enhancement_number")
        then control_part +:+ " Enhancement "
               +:+ format (get metadata "enhancement_number")
        else control_part in
      parts ++ [control_part]
    else parts in
  let parts := field "task_id" (λ v, "Task: " +:+ v) parts in
  let parts := field "step" (λ v, "Step: " +:+ v) parts in
  let parts := field "function" (λ v, "Function: " +:+ v) parts in
  let parts := field "category" (λ v, "Category: " +:+ v) parts in
  let parts := field "impact_level" (λ v, "Impact Level: " +:+ v) parts in
  let parts := field "baseline_level" (λ v, "Baseline: " +:+ v) parts in
  let parts := field "page" (λ v, "Page " +:+ v) parts in
  let parts := field "sheet" (λ v, "Sheet: " +:+ v) parts in
  join " | " parts.

(** The closure [prepend_context] of [chunk_text] *)
Definition prepend_context (context_prefix content : string) : string :=
  let content := strip content in
  if is_empty content then content
  else if negb (is_empty context_prefix)
       then context_prefix +:+ "

" +:+ content
       else content.

(** [enumerate(l)] *)
Definition enumerate {A} (l : list A) : list (nat * A) :=
  imap (λ i x, (i, x)) l.

(** [if context_prefix: d['context_prefix'] = context_prefix] *)
Definition record_prefix (context_prefix : string) (d : gmap string value)
    : gmap string value :=
  if negb (is_empty context_prefix)
  then <["context_prefix" := VStr context_prefix]> d else d.

(** The block [if document_type is None: ...] at the head of [chunk_text] *)
Definition resolve_document_type
    (metadata : gmap string value) (document_type : option string)
    : outcome string :=
  match document_type with
  | None =>
      let source := get_or_empty metadata "source" in
      detect_document_type source metadata
  | Some document_type => Returned document_type
  end.

(** The metadata of the single chunk of the [one_per_control] branch *)
Definition single_chunk_metadata
    (metadata : gmap string value) (document_type context_prefix : string)
    (text_token_count : nat) : gmap string value :=
  let chunk_metadata := metadata in
  let chunk_metadata := <["chunk_index" := VInt 0]> chunk_metadata in
  let chunk_metadata :=
    <["document_type" := VStr document_type]> chunk_metadata in
  let chunk_metadata :=
    <["token_count" := VInt (Z.of_nat text_token_count)]> chunk_metadata in
  let chunk_metadata := <["is_small_chunk" := VBool false]> chunk_metadata in
  record_prefix context_prefix chunk_metadata.

(** Body of [for small_idx, small_chunk in enumerate(small_chunks)] *)
Definition small_loop_body
    (chunk_metadata_base : gmap string value) (context_prefix : string)
    (parent_idx : nat) (parent_chunk parent_id : string)
    (parent_token_count : nat)
    (chunk_documents : list chunk) (item : nat * string) : list chunk :=
  let '(small_idx, small_chunk) := item in
  let small_token_count := count_tokens small_chunk in
  let chunk_meta :=
    <["parent_text" := VStr parent_chunk]>
    (<["parent_token_count" := VInt (Z.of_nat parent_token_count)]>
    (<["token_count" := VInt (Z.of_nat small_token_count)]>
    (<["is_small_chunk" := VBool true]>
    (<["small_chunk_index" := VInt (Z.of_nat small_idx)]>
    (<["parent_chunk_index" := VInt (Z.of_nat parent_idx)]>
    (<["parent_chunk_id" := VStr parent_id]>
    (<["chunk_index" := VInt (Z.of_nat (length chunk_documents))]>
       chunk_metadata_base))))))) in
  chunk_documents ++
    [ {| text := prepend_context context_prefix small_chunk;
         metadata := chunk_meta |} ].

(** Body of [for parent_idx, parent_chunk in enumerate(parent_chunks)] in the
    small-to-big branch *)
Definition parent_loop_body
    (chunk_metadata_base : gmap string value) (context_prefix : string)
    (small_chunk_size small_overlap : Z)
    (chunk_documents : list chunk) (item : nat * string) : list chunk :=
  let '(parent_idx, parent_chunk) := item in
  let parent_id := "parent_" +:+ pretty parent_idx in
  let parent_token_count := count_tokens parent_chunk in
  let small_chunks :=
    split_text small_chunk_size small_overlap parent_chunk in
  fold_left
    (small_loop_body chunk_metadata_base context_prefix
       parent_idx parent_chunk parent_id parent_token_count)
    (enumerate small_chunks) chunk_documents.

(** Body of [for idx, chunk in enumerate(parent_chunks)] in the branch that
    emits the parents directly *)
Definition direct_loop_body
    (chunk_metadata_base : gmap string value) (context_prefix : string)
    (chunk_documents : list chunk) (item : nat * string) : list chunk :=
  let '(idx, chunk) := item in
  let token_count := count_tokens chunk in
  let chunk_meta :=
    <["token_count" := VInt (Z.of_nat token_count)]>
    (<["is_small_chunk" := VBool false]>
    (<["chunk_index" := VInt (Z.of_nat idx)]>
       chunk_metadata_base)) in
  chunk_documents ++
    [ {| text := prepend_context context_prefix chunk;
         metadata := chunk_meta |} ].

Definition chunk_text
    (text : string) (metadata : gmap string value)
    (document_type : option string)
    (enable_small2big enable_questions : bool) : outcome (list chunk) :=
  document_type ← resolve_document_type metadata document_type;
  let config := get_chunking_config document_type in
  let chunk_size_tokens := default 512 (chunk_size_tokens config) in
  let chunk_overlap_tokens := default 102 (chunk_overlap_tokens config) in
  let use_small2big :=
    default false (use_small2big config) && enable_small2big in
  let small_chunk_size := default 256 (small_chunk_size config) in
  let context_prefix := _build_context_prefix metadata document_type in
  let text_token_count := count_tokens text in
  if default false (one_per_control config)
     && (Z.of_nat text_token_count <=? chunk_size_tokens) then
    let chunk_metadata :=
      single_chunk_metadata metadata document_type context_prefix
        text_token_count in
    let single_chunk :=
      [ {| text := prepend_context context_prefix text;
           metadata := chunk_metadata |} ] in
    if enable_questions
    then batch_enhance_chunks single_chunk document_type true
    else Returned single_chunk
  else
    let parent_chunks :=
      split_text chunk_size_tokens chunk_overlap_tokens text in
    let chunk_metadata_base := metadata in
    let chunk_metadata_base :=
      <["document_type" := VStr document_type]> chunk_metadata_base in
    let chunk_metadata_base :=
      record_prefix context_prefix chunk_metadata_base in
    chunk_documents ←
      (if use_small2big && bool_decide (1 < length parent_chunks)%nat then
         small_overlap ←
           token_utils.calculate_adaptive_overlap
             small_chunk_size token_utils.overlap_ratio_default;
         Returned (fold_left
           (parent_loop_body chunk_metadata_base context_prefix
              small_chunk_size small_overlap)
           (enumerate parent_chunks) [])
       else
         Returned (fold_left
           (direct_loop_body chunk_metadata_base context_prefix)
           (enumerate parent_chunks) []));
    if enable_questions
    then batch_enhance_chunks chunk_documents document_type true
    else Returned chunk_documents.

(** A document of a batch: [{'text': ..., 'metadata': {...}}]. The batch
    code reads [doc['text']] without looking at it, so it is a [value]. *)
Record document := Document {
  doc_text : value;
  doc_metadata : gmap string value
}.

(** A call [chunk_text(doc['text'], ...)] with an explicit document type:
    the first use of [text] is [count_tokens(text)], where the tokenizer
    rejects anything but a [str]. *)
Definition chunk_text_call
    (text : value) (metadata : gmap string value) (document_type : string)
    (enable_small2big enable_questions : bool) : outcome (list chunk) :=
  match text with
  | VStr s =>
      chunk_text s metadata (Some document_type)
                 enable_small2big enable_questions
  | _ => Raised TypeError
  end.

(** The sequential loop of [chunk_documents] *)
Fixpoint chunk_each
    (documents : list document) (enable_small2big enable_questions : bool)
    (all_chunks : list chunk) : outcome (list chunk) :=
  match documents with
  | [] => Returned all_chunks
  | doc :: rest =>
      let source := get_or_empty (doc_metadata doc) "source" in
      document_type ← detect_document_type source (doc_metadata doc);
      chunks ← chunk_text_call (doc_text doc) (doc_metadata doc)
                 document_type enable_small2big enable_questions;
      chunk_each rest enable_small2big enable_questions (all_chunks ++ chunks)
  end.

(** [chunk_documents]. A future holds the outcome of its call; the order in
    which [as_completed] hands the futures over is the argument
    [completion], a list of positions in [futures]. *)
Definition chunk_documents
    (completion : list nat) (documents : list document)
    (parallel enable_small2big enable_questions : bool)
    : outcome (list chunk) :=
  match documents with
  | [] => Returned []
  | [doc] =>
      let source := get_or_empty (doc_metadata doc) "source" in
      document_type ← detect_document_type source (doc_metadata doc);
      chunk_text_call (doc_text doc) (doc_metadata doc) document_type
                      enable_small2big enable_questions
  | _ =>
      if parallel && bool_decide (1 < length documents)%nat then
        futures ←
          mapM (λ doc,
                  let source := get_or_empty (doc_metadata doc) "source" in
                  document_type ←
                    detect_document_type source (doc_metadata doc);
                  Returned
                    (chunk_text_call (doc_text doc) (doc_metadata doc)
                       document_type enable_small2big enable_questions))
               documents;
        Returned (fold_left
          (λ all_chunks future,
             match futures !! future with
             | Some (Returned chunks) => all_chunks ++ chunks
             | Some (Raised e) => all_chunks
             | None => all_chunks
             end)
          completion [])
      else chunk_each documents enable_small2big enable_questions []
  end.

End with_external.

End chunker.

(** ** Auxiliary definitions for the properties *)

#[global] Instance value_eq_dec : EqDecision value.
Proof. solve_decision. Defined.

(** The three keys [enhance_chunk_metadata] writes *)
Definition question_keys : list string :=
  ["hypothetical_questions"; "question_count"; "questions_text"].

(** The [source] entry is a string, or is missing. *)
Definition str_source (metadata : gmap string value) : bool :=
  match get_or_empty metadata "source" with VStr _ => true | _ => false end.

(** The same interface with another splitter *)
Definition with_splitter (E : External) (f : Z → Z → string → list string)
    : External :=
  {| count_tokens := @count_tokens E;
     split_text := f;
     findall_capitalized := @findall_capitalized E;
     findall_acronyms := @findall_acronyms E;
     repr_list := @repr_list E |}.

(** An instance of the interface to run the model on examples: one token per
    character, spans of [chunk_size] characters, no key terms. *)
Module char_level.

Fixpoint string_take (n : nat) (s : string) : string :=
  match n, s with
  | S n', String c r => String c (string_take n' r)
  | _, _ => EmptyString
  end.

Fixpoint string_drop (n : nat) (s : string) : string :=
  match n, s with
  | S n', String _ r => string_drop n' r
  | _, _ => s
  end.

Fixpoint chop (fuel n : nat) (s : string) : list string :=
  match fuel with
  | O => []
  | S fuel' =>
      if is_empty s then []
      else string_take n s :: chop fuel' n (string_drop n s)
  end.

Fixpoint replicate_string (n : nat) (s : string) : string :=
  match n with
  | O => EmptyString
  | S n' => s +:+ replicate_string n' s
  end.

Definition external : External :=
  {| count_tokens := String.length;
     split_text := λ chunk_size _ s,
       chop (String.length s) (Z.to_nat chunk_size) s;
     findall_capitalized := λ _, [];
     findall_acronyms := λ _, [];
     repr_list := λ l, "[" +:+ join ", " l +:+ "]" |}.

End char_level.

(** The small-tier overlap in the words of the specification:
    clamp(max(20, round(S*0.2)), at most S/2). The product S*0.2 is never
    halfway between two integers, so rounding it is the floor of S/5 + 1/2. *)
Definition specified_round_fifth (S : Z) : Z := (2 * S + 5) / 10.

Definition specified_small_overlap (S : Z) : Z :=
  Z.min (Z.max 20 (specified_round_fifth S)) (S / 2).

(** [c'] is [c] with at most the question keys written. *)
Definition enhanced_from (c c' : metadata_enhancer.chunk) : Prop :=
  metadata_enhancer.text c' = metadata_enhancer.text c
  ∧ ∀ k, k ∉ question_keys →
      metadata_enhancer.metadata c' !! k = metadata_enhancer.metadata c !! k.

(** The keywords [_generate_control_questions] looks for in the text *)
Definition control_trigger_words : list string :=
  ["baseline"; "shall"; "must"; "required"].

(** A chunk that already carries a [question_count], as a chunk that went
    through enhancement before does. *)
Definition counted_chunk : metadata_enhancer.chunk :=
  {| metadata_enhancer.text := "The system enforces approved authorizations.";
     metadata_enhancer.metadata :=
       {[ "control_id" := VStr "AC-3"; "question_count" := VInt 7 ]} |}.

(** The small-tier overlap in integer arithmetic: the product is truncated. *)
Definition truncated_small_overlap (S : Z) : Z :=
  Z.min (Z.max 20 (S / 5)) (S / 2).

(** The largest budget for which [calculate_adaptive_overlap] is compared
    with [truncated_small_overlap] by evaluation; [validate_token_config]
    lets no chunk size above 2048 through. *)
Definition checked_budgets : nat := 4096.

Definition overlap_agrees (n : nat) : bool :=
  match token_utils.calculate_adaptive_overlap
          (Z.of_nat n) token_utils.overlap_ratio_default with
  | Returned o => o =? truncated_small_overlap (Z.of_nat n)
  | Raised _ => false
  end.

(** The three blocks of [detect_document_type], on the lowered filename:
    the filename rules that come before the metadata is looked at, the
    values of [metadata['document_type']] that are taken over, and the
    keyword rules that come after. *)
Definition filename_rules (filename_lower : string)
    (metadata : gmap string value) : option string :=
  let has s := contains s filename_lower in
  if has "800-53" && eq_str (get metadata "file_type") "xml" then
    Some "800-53_xml"
  else if has "800-53" && has "catalog" then Some "800-53_catalog"
  else if has "800-53a" || has "assessment" then Some "800-53a_assessment"
  else if has "800-37" || has "rmf" then Some "800-37_rmf"
  else if has "csf" || has "cybersecurity framework" then Some "csf_2.0"
  else if has "800-171" then Some "800-171"
  else if has "fedramp" then Some "fedramp"
  else if has "cmmc" then Some "cmmc"
  else if has "srg" || has "dod" then Some "dod_srg"
  else None.

Definition honoured_metadata_types : list string :=
  ["800-53_xml"; "security_pattern"; "positioning_guide"; "zone_guide";
   "grouping_guide"; "segmentation_guide"].

Definition keyword_rules (filename_lower : string) : string :=
  let has s := contains s filename_lower in
  if has "security_pattern" then "security_pattern"
  else if has "positioning" then "positioning_guide"
  else if has "zone" then "zone_guide"
  else if has "grouping" then "grouping_guide"
  else if has "segmentation" then "segmentation_guide"
  else if has "query_pattern" || has "greeting" then "query_patterns"
  else "default".

(** *** The chunks of [chunk_text] before enhancement, in closed form *)

Section emitted.
Context `{External}.
Import metadata_enhancer chunker.

(** [enumerate], started at [j] *)
Definition enumerate_from {A} (j : nat) (l : list A) : list (nat * A) :=
  imap (λ i x, ((j + i)%nat, x)) l.

(** The chunk the small-to-big loop appends when the list has [n] chunks *)
Definition small_chunk_of
    (base : gmap string value) (context_prefix : string)
    (parent_idx : nat) (parent_chunk : string)
    (n small_idx : nat) (small_chunk : string) : chunk :=
  {| text := prepend_context context_prefix small_chunk;
     metadata :=
       <["parent_text" := VStr parent_chunk]>
       (<["parent_token_count" :=
            VInt (Z.of_nat (count_tokens parent_chunk))]>
       (<["token_count" := VInt (Z.of_nat (count_tokens small_chunk))]>
       (<["is_small_chunk" := VBool true]>
       (<["small_chunk_index" := VInt (Z.of_nat small_idx)]>
       (<["parent_chunk_index" := VInt (Z.of_nat parent_idx)]>
       (<["parent_chunk_id" := VStr ("parent_" +:+ pretty parent_idx)]>
       (<["chunk_index" := VInt (Z.of_nat n)]> base))))))) |}.

Fixpoint small_chunks_from
    (base : gmap string value) (context_prefix : string)
    (parent_idx : nat) (parent_chunk : string)
    (n small_idx : nat) (small_chunks : list string) : list chunk :=
  match small_chunks with
  | [] => []
  | s :: rest =>
      small_chunk_of base context_prefix parent_idx parent_chunk n small_idx s
      :: small_chunks_from base context_prefix parent_idx parent_chunk
           (S n) (S small_idx) rest
  end.

Fixpoint hierarchy_chunks
    (base : gmap string value) (context_prefix : string)
    (small_chunk_size small_overlap : Z)
    (n parent_idx : nat) (parent_chunks : list string) : list chunk :=
  match parent_chunks with
  | [] => []
  | p :: rest =>
      let small_chunks := split_text small_chunk_size small_overlap p in
      small_chunks_from base context_prefix parent_idx p n 0 small_chunks
      ++ hierarchy_chunks base context_prefix small_chunk_size small_overlap
           (n + length small_chunks) (S parent_idx) rest
  end.

(** The chunk the direct loop appends for the span at position [idx] *)
Definition direct_chunk_of
    (base : gmap string value) (context_prefix : string)
    (idx : nat) (span : string) : chunk :=
  {| text := prepend_context context_prefix span;
     metadata :=
       <["token_count" := VInt (Z.of_nat (count_tokens span))]>
       (<["is_small_chunk" := VBool false]>
       (<["chunk_index" := VInt (Z.of_nat idx)]> base)) |}.

Fixpoint direct_chunks
    (base : gmap string value) (context_prefix : string)
    (idx : nat) (parent_chunks : list string) : list chunk :=
  match parent_chunks with
  | [] => []
  | p :: rest =>
      direct_chunk_of base context_prefix idx p
      :: direct_chunks base context_prefix (S idx) rest
  end.

(** The test of the [one_per_control] branch *)
Definition split_suppressed (dt text : string) : bool :=
  let config := get_chunking_config dt in
  default false (one_per_control config)
  && (Z.of_nat (count_tokens text)
      <=? default 512 (chunk_size_tokens config)).

(** [parent_chunks] of [chunk_text] *)
Definition parent_spans (dt text : string) : list string :=
  let config := get_chunking_config dt in
  split_text (default 512 (chunk_size_tokens config))
             (default 102 (chunk_overlap_tokens config)) text.

(** The small spans of one parent span *)
Definition small_spans (dt parent_chunk : string) : list string :=
  let small_chunk_size :=
    default 256 (small_chunk_size (get_chunking_config dt)) in
  split_text small_chunk_size (truncated_small_overlap small_chunk_size)
             parent_chunk.

(** The test of the small-to-big branch *)
Definition hierarchy_applies (dt text : string) (enable_small2big : bool)
    : bool :=
  default false (use_small2big (get_chunking_config dt)) && enable_small2big
  && bool_decide (1 < length (parent_spans dt text))%nat.

(** [chunk_metadata_base] of [chunk_text] *)
Definition metadata_base (md : gmap string value) (dt : string)
    : gmap string value :=
  record_prefix (_build_context_prefix md dt)
                (<["document_type" := VStr dt]> md).

Definition chunks_before_enhancement
    (text : string) (md : gmap string value) (dt : string)
    (enable_small2big : bool) : list chunk :=
  let context_prefix := _build_context_prefix md dt in
  if split_suppressed dt text then
    [ {| text := prepend_context context_prefix text;
         metadata :=
           single_chunk_metadata md dt context_prefix (count_tokens text) |} ]
  else if hierarchy_applies dt text enable_small2big then
    let small_chunk_size :=
      default 256 (small_chunk_size (get_chunking_config dt)) in
    hierarchy_chunks (metadata_base md dt) context_prefix small_chunk_size
      (truncated_small_overlap small_chunk_size) 0 0 (parent_spans dt text)
  else
    direct_chunks (metadata_base md dt) context_prefix 0 (parent_spans dt text).

(** The [small_chunk_index] values of the small chunks under parent
    [parent_idx], in the order of the list *)
Definition small_indices_under (parent_idx : nat) (chunks : list chunk)
    : list (option value) :=
  map (λ c, metadata c !! "small_chunk_index")
    (filter (λ c, metadata c !! "is_small_chunk" = Some (VBool true)
                  ∧ metadata c !! "parent_chunk_index"
                    = Some (VInt (Z.of_nat parent_idx)))
            chunks).

(** The [chunk_index] values of a chunk list, in the order of the list *)
Definition chunk_indices (chunks : list chunk) : list (option value) :=
  map (λ c, metadata c !! "chunk_index") chunks.

(** The values 0, 1, ..., n-1 as metadata entries *)
Definition counting_from (start n : nat) : list (option value) :=
  map (λ i, Some (VInt (Z.of_nat i))) (seq start n).


(** The pipeline of one document as [chunk_documents] runs it: the
    classification, then [chunk_text] *)
Definition document_pipeline (doc : document)
    (enable_small2big enable_questions : bool) : outcome (list chunk) :=
  let source := get_or_empty (doc_metadata doc) "source" in
  document_type ← detect_document_type source (doc_metadata doc);
  chunk_text_call (doc_text doc) (doc_metadata doc) document_type
    enable_small2big enable_questions.

End emitted.

(** *** Inputs of the worked examples *)

Module examples.

Definition ac3_metadata : gmap string value :=
  {[ "source" := VStr "fedramp_baseline.pdf";
     "control_id" := VStr "AC-3";
     "control_name" := VStr "Access Enforcement";
     "family" := VStr "AC" ]}.

Definition guide_metadata : gmap string value :=
  {[ "source" := VStr "cmmc_guide.pdf"; "page" := VInt 3 ]}.

Definition tagged_metadata : gmap string value :=
  {[ "document_type" := VStr "query_patterns" ]}.

(** 800 characters *)
Definition long_text : string :=
  char_level.replicate_string 100 "abcdefg ".

Definition plain_text : string :=
  "The system enforces approved authorizations.".

Definition batch_of_two : list chunker.document :=
  [ chunker.Document (VStr "hello") guide_metadata;
    chunker.Document VNone guide_metadata ].

End examples.

(** ** token_utils.py: estimates, validation and the table of optimal sizes *)

Module token_utils_config.

Definition estimate_tokens_from_chars (char_count : Z) : Z :=
  Z.max 1 (char_count / 4).

Definition estimate_chars_from_tokens (token_count : Z) : Z :=
  token_count * 4.

(** [validate_token_config]: the returned pair, and the lines it prints. *)
Definition validate_token_config (chunk_size chunk_overlap : Z)
    : Z * Z * list string :=
  let printed := [] in
  let '(chunk_size, printed) :=
    if chunk_size <? 50 then
      (50, printed ++ ["Warning: Chunk size " +:+ pretty chunk_size
                         +:+ " too small, setting to 50 tokens"])
    else (chunk_size, printed) in
  let '(chunk_size, printed) :=
    if 2048 <? chunk_size then
      (2048, printed ++ ["Warning: Chunk size " +:+ pretty chunk_size
                           +:+ " too large, setting to 2048 tokens"])
    else (chunk_size, printed) in
  let '(chunk_overlap, printed) :=
    if chunk_size <=? chunk_overlap then
      (chunk_size / 4,
       printed ++ ["Warning: Overlap " +:+ pretty chunk_overlap
                     +:+ " >= chunk size " +:+ pretty chunk_size
                     +:+ ", adjusting"])
    else (chunk_overlap, printed) in
  (chunk_size, chunk_overlap, printed).

Definition optimal_configs_items : list (string * (Z * Z)) :=
  [("800-53_catalog", (384, 77));
   ("800-53a_assessment", (384, 77));
   ("800-171", (384, 77));
   ("fedramp", (384, 77));
   ("cmmc", (384, 77));
   ("800-37_rmf", (400, 80));
   ("csf_2.0", (400, 80));
   ("dod_srg", (450, 90));
   ("cnssi_1253", (400, 80));
   ("overlays", (400, 80));
   ("parameters", (400, 80));
   ("security_pattern", (450, 90));
   ("positioning_guide", (450, 90));
   ("zone_guide", (450, 90));
   ("grouping_guide", (450, 90));
   ("segmentation_guide", (450, 90));
   ("query_patterns", (300, 60));
   ("default", (512, 102))].

Definition optimal_configs : gmap string (Z * Z) :=
  list_to_map optimal_configs_items.

Definition get_optimal_chunk_size (document_type : string) : Z * Z :=
  default (512, 102) (optimal_configs !! document_type).
Arguments get_optimal_chunk_size : simpl never.

(** The document types for which [get_optimal_chunk_size] and
    [CHUNKING_CONFIG] do not hold the same sizes *)
Definition sizes_differ_for : list string :=
  ["800-53_xml"; "cnssi_1253"; "overlays"; "parameters"].

(** Every document type that has an entry in one of the two tables *)
Definition all_type_names : list string :=
  chunker.CHUNKING_CONFIG_items.*1 ++ optimal_configs_items.*1.

End token_utils_config.

(** The document types [generate_hypothetical_questions] hands to
    [_generate_generic_questions]: those of its final [else] *)
Definition generic_question_type (document_type : string) : bool :=
  negb (metadata_enhancer.in_list document_type
          metadata_enhancer.control_document_types)
  && negb (metadata_enhancer.in_list document_type
             metadata_enhancer.pattern_document_types)
  && negb (metadata_enhancer.in_list document_type
             metadata_enhancer.framework_document_types)
  && negb (String.eqb document_type "query_patterns").


(** The keys [chunk_text] writes in the metadata of a chunk, with the three
    of enhancement *)
Definition written_keys : list string :=
  ["chunk_index"; "document_type"; "token_count"; "is_small_chunk";
   "context_prefix"; "parent_chunk_id"; "parent_chunk_index";
   "small_chunk_index"; "parent_token_count"; "parent_text";
   "hypothetical_questions"; "question_count"; "questions_text"].


Section carried.
Context `{External}.
Import metadata_enhancer chunker.

(** What a chunk carries of its document: the caller's metadata under the
    keys [chunk_text] does not write, the document type, and the context
    prefix when there is one *)
Definition carries_document_fields
    (md : gmap string value) (dt : string) (c : chunk) : Prop :=
  (∀ k, k ∉ written_keys → metadata c !! k = md !! k)
  ∧ metadata c !! "document_type" = Some (VStr dt)
  ∧ metadata c !! "context_prefix"
    = if is_empty (_build_context_prefix md dt) then md !! "context_prefix"
      else Some (VStr (_build_context_prefix md dt)).

(** The small spans of a text with their positions: the parent spans in
    order, and under each the small spans it is split into *)
Definition small_span_positions (dt text : string)
    : list ((nat * string) * (nat * string)) :=
  enumerate (parent_spans dt text) ≫= λ parent,
    (λ small, (parent, small)) <$> enumerate (small_spans dt parent.2).

End carried.


(** ** file_processor.py: the documents of a PDF and of a Markdown file

    Reading the file is not part of the embedding: the extractors take the
    base name of the file and the text that [pypdf], respectively [read],
    returned. *)

Module file_processor.

Import chunker.

(** The dictionary [metadata] of a page, up to the section heading *)
Definition pdf_page_metadata (filename : string) (page_num : Z)
    : gmap string value :=
  let metadata :=
    <["file_type" := VStr "pdf"]>
    (<["page" := VInt page_num]>
    (<["source" := VStr filename]> ∅)) in
  let filename_lower := lower filename in
  let has s := contains s filename_lower in
  if has "cmmc" then
    <["compliance_frameworks" := VStr "CMMC"]>
    (<["category" := VStr "CMMC"]> metadata)
  else if has "fedramp" then
    <["compliance_frameworks" := VStr "FedRAMP"]>
    (<["category" := VStr "FedRAMP"]> metadata)
  else if has "dod" || has "srg" then
    <["compliance_frameworks" := VStr "DoD SRG"]>
    (<["category" := VStr "DoD_SRG"]> metadata)
  else if has "nist" || has "800-" || has "fips" then
    let metadata := <["category" := VStr "NIST"]> metadata in
    if has "800-53" then
      <["document_type" := VStr "800-53_catalog"]> metadata
    else if has "800-171" then
      <["document_type" := VStr "800-171"]> metadata
    else if has "800-37" || has "rmf" then
      <["document_type" := VStr "800-37_rmf"]> metadata
    else metadata
  else metadata.

(** [if heading:] for an [Optional[str]] *)
Definition found (heading : option string) : bool :=
  match heading with
  | Some h => negb (is_empty h)
  | None => false
  end.

Section with_heading_detector.

(** [_detect_section_heading], which is built on [re.match] and
    [str.isupper] *)
Variable _detect_section_heading : string → option string.

(** Body of [for page_num, page in enumerate(reader.pages, start=1)]; the
    state is [current_section] and [pages], [text] is
    [page.extract_text()]. *)
Definition pdf_page_body (filename : string)
    (state : option string * list document) (item : nat * string)
    : option string * list document :=
  let '(current_section, pages) := state in
  let '(page_num, text) := item in
  if negb (is_empty text) && negb (is_empty (strip text)) then
    let metadata := pdf_page_metadata filename (Z.of_nat page_num) in
    let heading := _detect_section_heading text in
    let current_section :=
      if found heading then heading else current_section in
    let metadata :=
      match current_section with
      | Some section =>
          if negb (is_empty section)
          then <["section_heading" := VStr section]> metadata
          else metadata
      | None => metadata
      end in
    (current_section,
     pages ++ [ {| doc_text := VStr text; doc_metadata := metadata |} ])
  else state.

Definition extract_text_from_pdf (filename : string)
    (page_texts : list string) : list document :=
  (fold_left (pdf_page_body filename)
     (enumerate_from 1 page_texts) (None, [])).2.

End with_heading_detector.

Definition extract_text_from_markdown (filename text : string)
    : list document :=
  if negb (is_empty text) && negb (is_empty (strip text)) then
    let metadata :=
      <["file_type" := VStr "markdown"]>
      (<["source" := VStr filename]> ∅) in
    let filename_lower := lower filename in
    let has s := contains s filename_lower in
    let metadata :=
      if has "cmmc" then <["category" := VStr "CMMC"]> metadata
      else if has "fedramp" then <["category" := VStr "FedRAMP"]> metadata
      else if has "nist" || has "800-" then
        <["category" := VStr "NIST"]> metadata
      else if existsb has ["security_pattern"; "positioning"; "zone";
                           "grouping"; "segmentation"] then
        <["category" := VStr "Security_Patterns"]> metadata
      else metadata in
    let metadata :=
      if has "security_pattern" then
        <["document_type" := VStr "security_pattern"]> metadata
      else if has "positioning" then
        <["document_type" := VStr "positioning_guide"]> metadata
      else if has "zone" then
        <["document_type" := VStr "zone_guide"]> metadata
      else if has "grouping" then
        <["document_type" := VStr "grouping_guide"]> metadata
      else if has "segmentation" then
        <["document_type" := VStr "segmentation_guide"]> metadata
      else metadata in
    [ {| doc_text := VStr text; doc_metadata := metadata |} ]
  else [].

End file_processor.

(** ** ingest_compliance_docs.py: what [ingest_file] hands to the store *)

Module ingest_compliance_docs.

Section with_external.
Context `{External}.
Import metadata_enhancer.

(** The loop [for k, v in meta.items()] that fills [clean_meta] *)
Definition clean_meta (meta : gmap string value) : gmap string value :=
  omap (λ v,
          match v with
          | VStr _ | VInt _ | VBool _ => Some v
          | VList l => Some (VStr (repr_list l))
          | VNone => None
          end)
       meta.

(** Body of [for idx, chunk in enumerate(chunks)]; the state is [ids],
    [texts] and [metadatas]. *)
Definition prepare_body (stem name : string) (document_type : option string)
    (state : list string * list string * list (gmap string value))
    (item : nat * chunk)
    : list string * list string * list (gmap string value) :=
  let '(ids, texts, metadatas) := state in
  let '(idx, chunk) := item in
  let chunk_id := stem +:+ "_" +:+ pretty idx in
  let meta := metadata chunk in
  let meta :=
    match document_type with
    | Some document_type =>
        if negb (is_empty document_type)
        then <["document_type" := VStr document_type]> meta
        else meta
    | None => meta
    end in
  let meta :=
    if bool_decide (meta !! "source" = None)
    then <["source" := VStr name]> meta
    else meta in
  (ids ++ [chunk_id], texts ++ [text chunk], metadatas ++ [clean_meta meta]).

(** [ids], [texts] and [metadatas] of [ingest_file] for the file
    [stem + suffix = name] *)
Definition prepare_for_store (stem name : string)
    (document_type : option string) (chunks : list chunk)
    : list string * list string * list (gmap string value) :=
  fold_left (prepare_body stem name document_type)
    (chunker.enumerate chunks) ([], [], []).

End with_external.

End ingest_compliance_docs.

(** What a single chunk becomes in the store, and the values the store
    accepts *)
Definition stored_scalar (v : value) : bool :=
  match v with
  | VStr _ | VInt _ | VBool _ => true
  | VNone | VList _ => false
  end.

(** The documents [extract_text_from_pdf] emits from position [page_num]
    on with [current_section] as it stands *)
Fixpoint pdf_documents_from
    (_detect_section_heading : string → option string)
    (filename : string) (current_section : option string) (page_num : nat)
    (page_texts : list string) : list chunker.document :=
  match page_texts with
  | [] => []
  | text :: rest =>
      let state :=
        file_processor.pdf_page_body _detect_section_heading filename
          (current_section, []) (page_num, text) in
      state.2
      ++ pdf_documents_from _detect_section_heading filename state.1
           (S page_num) rest
  end.


(** *** Inputs of the further worked examples *)

Module more_examples.

(** The character-level instance with a search for acronyms that knows one
    acronym *)
Definition acronym_external : External :=
  {| count_tokens := String.length;
     split_text := λ chunk_size _ s,
       char_level.chop (String.length s) (Z.to_nat chunk_size) s;
     findall_capitalized := λ _, [];
     findall_acronyms := λ text, if contains "NIST" text then ["NIST"] else [];
     repr_list := λ l, "[" +:+ join ", " l +:+ "]" |}.

Definition acronym_text : string := "NIST publishes the catalog.".

Definition batch_of_good : list chunker.document :=
  [ chunker.Document (VStr "hello") examples.guide_metadata;
    chunker.Document (VStr "world") examples.guide_metadata ].

(** A heading detector that knows the task headings only *)
Definition task_heading (text : string) : option string :=
  if startswith "TASK" text then Some text else None.

(** The document [extract_text_from_xml] hands over for control AC-3: its
    metadata as the extractor writes it, with a short statement as text *)
Definition xml_ac3_metadata : gmap string value :=
  {[ "source" := VStr "sp800-53-controls.xml";
     "file_type" := VStr "xml";
     "category" := VStr "NIST";
     "control_id" := VStr "AC-3";
     "control_name" := VStr "Access Enforcement";
     "family" := VStr "AC";
     "document_type" := VStr "800-53_xml" ]}.

Definition xml_ac3_document : chunker.document :=
  chunker.Document
    (VStr "the system enforces approved authorizations for logical access.")
    xml_ac3_metadata.

(** The character-level instance with what the two searches of
    [_extract_key_terms] find in the text of the chunk of
    [xml_ac3_document], whose only capitals are those of its context
    prefix *)
Definition xml_sample_external : External :=
  {| count_tokens := String.length;
     split_text := λ chunk_size _ s,
       char_level.chop (String.length s) (Z.to_nat chunk_size) s;
     findall_capitalized := λ text,
       if contains
            "NIST SP 800-53 Rev. 5 Control Catalog (XML) | Control AC-3 - Access Enforcement (Family AC) | Category: NIST"
            text
       then ["Control Catalog"; "Access Enforcement"] else [];
     findall_acronyms := λ text,
       if contains
            "NIST SP 800-53 Rev. 5 Control Catalog (XML) | Control AC-3 - Access Enforcement (Family AC) | Category: NIST"
            text
       then ["NIST"; "SP"; "XML"; "AC"; "AC"; "NIST"] else [];
     repr_list := λ l, "[" +:+ join ", " l +:+ "]" |}.

End more_examples.

(** * Properties *)

(** A key that is not one of the question keys *)
Ltac not_question_key :=
  unfold question_keys;
  let Hin := fresh "Hin" in
  intros Hin;
  repeat (apply elem_of_cons in Hin as [Hin|Hin]; [discriminate Hin |]);
  by apply elem_of_nil in Hin.

(** ** The outcome monad *)

Lemma bind_Returned {A B} (f : A → outcome B) (m : outcome A) (b : B) :
  m ≫= f = Returned b ↔ ∃ a, m = Returned a ∧ f a = Returned b.
Proof.
  destruct m as [a|e]; simpl; split.
  - intros Hf. by exists a.
  - by intros (a' & [= <-] & Hf).
  - discriminate.
  - by intros (a' & [=] & _).
Qed.

Lemma mapM_Returned {A B} (f : A → outcome B) (l : list A) (k : list B) :
  mapM f l = Returned k ↔ Forall2 (λ x y, f x = Returned y) l k.
Proof.
  revert k. induction l as [|x l IH]; intros k; simpl.
  - split.
    + intros [= <-]. constructor.
    + by inversion 1.
  - split.
    + intros (y & Hy & Hrest)%bind_Returned.
      apply bind_Returned in Hrest as (k' & Hk' & [= <-]).
      constructor; [done | by apply IH].
    + inversion 1 as [|? y ? k' Hy Hrest]; subst.
      apply bind_Returned. exists y. split; [done |].
      apply bind_Returned. exists k'. split; [by apply IH | done].
Qed.

(** ** Deduplication by [dict.fromkeys] *)

Lemma fromkeys_from_spec (seen l : list string) :
  NoDup (fromkeys_from seen l)
  ∧ ∀ x, x ∈ fromkeys_from seen l ↔ x ∈ l ∧ x ∉ seen.
Proof.
  revert seen. induction l as [|y l IH]; intros seen; simpl.
  - split; [constructor | set_solver].
  - case_bool_decide as Hy.
    + destruct (IH seen) as [Hnd Hin]. split; [done |].
      intros x. rewrite Hin. set_solver.
    + destruct (IH (y :: seen)) as [Hnd Hin]. split.
      * constructor; [| done]. rewrite Hin. set_solver.
      * intros x. rewrite elem_of_cons, Hin.
        destruct (decide (x = y)) as [->|]; set_solver.
Qed.

Lemma fromkeys_NoDup (l : list string) : NoDup (fromkeys l).
Proof. apply fromkeys_from_spec. Qed.

Lemma fromkeys_elem_of (l : list string) (x : string) :
  x ∈ fromkeys l ↔ x ∈ l.
Proof.
  unfold fromkeys. rewrite (proj2 (fromkeys_from_spec [] l)). set_solver.
Qed.

Lemma fromkeys_from_ext (s1 s2 l : list string) :
  (∀ x, x ∈ s1 ↔ x ∈ s2) → fromkeys_from s1 l = fromkeys_from s2 l.
Proof.
  revert s1 s2. induction l as [|y l IH]; intros s1 s2 Hs; simpl; [done |].
  rewrite (bool_decide_ext (y ∈ s1) (y ∈ s2)) by apply Hs.
  case_bool_decide; [by apply IH |].
  f_equal. apply IH. intros x. rewrite !elem_of_cons, Hs. done.
Qed.

Lemma fromkeys_from_filter (x : string) (seen l : list string) :
  fromkeys_from (x :: seen) l = fromkeys_from seen (filter (λ y, y ≠ x) l).
Proof.
  revert seen. induction l as [|y l IH]; intros seen; [done |].
  rewrite filter_cons. simpl. destruct (decide (y ≠ x)) as [Hne|Heq].
  - simpl. rewrite (bool_decide_ext (y ∈ x :: seen) (y ∈ seen)) by set_solver.
    case_bool_decide; [apply IH |].
    f_equal. rewrite <- IH. apply fromkeys_from_ext. set_solver.
  - apply dec_stable in Heq as ->.
    rewrite bool_decide_eq_true_2 by set_solver. apply IH.
Qed.

(** The first occurrence wins: the head is kept, and dropped from the rest. *)
Lemma fromkeys_cons (x : string) (l : list string) :
  fromkeys (x :: l) = x :: fromkeys (filter (λ y, y ≠ x) l).
Proof.
  unfold fromkeys. cbn [fromkeys_from].
  rewrite bool_decide_eq_false_2 by set_solver.
  f_equal. apply fromkeys_from_filter.
Qed.

Lemma slice_to_length_le {A} (k : nat) (l : list A) :
  (length (slice_to (Z.of_nat k) l) ≤ k)%nat.
Proof.
  unfold slice_to. destruct (Z.leb_spec 0 (Z.of_nat k)); [| lia].
  rewrite length_take. lia.
Qed.

Lemma slice_to_sublist {A} (k : Z) (l : list A) : slice_to k l `sublist_of` l.
Proof. unfold slice_to. destruct (0 <=? k); apply sublist_take. Qed.

(** ** metadata_enhancer.py: question generation and enhancement *)

Section enhancer_properties.
Context `{External}.
Import metadata_enhancer.

(** The control generator raises only at [metadata.get('source', '').lower()],
    and only when the source is not a string. *)
Lemma control_questions_outcome (text : string) (md : gmap string value) :
  match _generate_control_questions text md with
  | Returned _ => True
  | Raised e => e = AttributeError ∧ str_source md = false
  end.
Proof.
  unfold _generate_control_questions, str_source.
  destruct (truthy (get_or_empty md "control_id")); simpl; [| done].
  destruct (get_or_empty md "source"); simpl; done.
Qed.

Lemma generate_questions_outcome
    (text : string) (md : gmap string value) (dt : string) (k : nat) :
  match generate_hypothetical_questions text md dt (Z.of_nat k) with
  | Returned qs => NoDup qs ∧ (length qs ≤ k)%nat
  | Raised e => e = AttributeError ∧ str_source md = false
  end.
Proof.
  unfold generate_hypothetical_questions.
  assert (∀ l, NoDup (slice_to (Z.of_nat k) (fromkeys l))
               ∧ (length (slice_to (Z.of_nat k) (fromkeys l)) ≤ k)%nat) as Hok.
  { intros l. split; [| apply slice_to_length_le].
    eapply sublist_NoDup; [apply fromkeys_NoDup | apply slice_to_sublist]. }
  destruct (in_list dt control_document_types).
  - pose proof (control_questions_outcome text md) as Hc.
    destruct (_generate_control_questions text md); simpl; [apply Hok | done].
  - repeat (match goal with |- context [if ?b then _ else _] => destruct b end);
      simpl; apply Hok.
Qed.

Lemma enhance_outcome (c : chunk) (dt : string) (q : bool) :
  match enhance_chunk_metadata c dt q with
  | Returned c' => enhanced_from c c'
  | Raised e => e = AttributeError ∧ str_source (metadata c) = false
  end.
Proof.
  unfold enhance_chunk_metadata. destruct q; simpl; [| by split].
  pose proof (generate_questions_outcome (text c) (metadata c) dt 3) as Hg.
  change (Z.of_nat 3) with 3 in Hg.
  destruct (generate_hypothetical_questions (text c) (metadata c) dt 3)
    as [qs|e]; simpl; [| done].
  destruct qs as [|q0 qs]; [by split |].
  split; [done |]. simpl. intros k Hk. unfold question_keys in Hk.
  rewrite !lookup_insert_ne; [done | set_solver..].
Qed.

Lemma batch_enhance_outcome (chunks : list chunk) (dt : string) (q : bool) :
  match batch_enhance_chunks chunks dt q with
  | Returned chunks' => Forall2 enhanced_from chunks chunks'
  | Raised e =>
      e = AttributeError ∧ ∃ c, c ∈ chunks ∧ str_source (metadata c) = false
  end.
Proof.
  unfold batch_enhance_chunks. destruct q; simpl.
  - induction chunks as [|c chunks IH]; simpl; [constructor |].
    pose proof (enhance_outcome c dt true) as Hc.
    destruct (enhance_chunk_metadata c dt true) as [c'|e]; simpl.
    + destruct (mapM _ chunks) as [chunks'|e]; simpl.
      * by constructor.
      * destruct IH as (-> & c0 & Hin & Hsrc). split; [done |].
        exists c0. split; [by right | done].
    + destruct Hc as [-> Hsrc]. split; [done |]. exists c. split; [by left | done].
  - apply Forall_Forall2_diag, Forall_forall. intros c _. by split.
Qed.

End enhancer_properties.

Section question_claims.
Context `{External}.
Import metadata_enhancer.

Lemma first_three_kept (a b c : string) (rest : list string) :
  a ≠ b → a ≠ c → b ≠ c → slice_to 3 (fromkeys (a :: b :: c :: rest)) = [a; b; c].
Proof.
  intros Hab Hac Hbc. unfold fromkeys. cbn [fromkeys_from].
  rewrite !bool_decide_eq_false_2 by set_solver. done.
Qed.

(** For the eight document types that [generate_hypothetical_questions]
    hands to [_generate_control_questions], a chunk whose metadata has
    control_id "AC-3", control_name "Access Enforcement" and family "AC" gets
    the question list below: one question contains "AC-3", one contains
    "Access Enforcement", there are at most 3 questions and no duplicates.
    The only way not to get a list is a [source] that is not a string. *)
Theorem control_questions_for_AC_3
    (text : string) (md : gmap string value) (dt : string) :
  in_list dt control_document_types = true →
  md !! "control_id" = Some (VStr "AC-3") →
  md !! "control_name" = Some (VStr "Access Enforcement") →
  md !! "family" = Some (VStr "AC") →
  match generate_hypothetical_questions text md dt 3 with
  | Returned qs =>
      qs = ["What is the purpose of control AC-3?";
            "What are the requirements for AC-3?";
            "How do I implement Access Enforcement?"]
      ∧ (∃ q, q ∈ qs ∧ contains "AC-3" q = true)
      ∧ (∃ q, q ∈ qs ∧ contains "Access Enforcement" q = true)
      ∧ (length qs ≤ 3)%nat
      ∧ NoDup qs
  | Raised e => e = AttributeError ∧ str_source md = false
  end.
Proof.
  intros Hdt Hid Hname Hfam.
  pose proof (generate_questions_outcome text md dt 3) as Hg.
  change (Z.of_nat 3) with 3 in Hg.
  destruct (generate_hypothetical_questions text md dt 3) as [qs|e] eqn:Hgen;
    [| done].
  destruct Hg as [Hnd Hlen].
  assert (qs = ["What is the purpose of control AC-3?";
                "What are the requirements for AC-3?";
                "How do I implement Access Enforcement?"]) as ->.
  { revert Hgen. unfold generate_hypothetical_questions. rewrite Hdt.
    unfold _generate_control_questions, get_or_empty.
    rewrite Hid, Hname, Hfam. simpl.
    destruct (default (VStr "") (md !! "source")); simpl; try discriminate.
    intros [= <-].
    repeat (match goal with
            | |- context [if ?b then _ else _] => destruct b
            end; simpl);
      by apply first_three_kept. }
  split; [done |]. split; [| split; [| done]].
  - exists "What is the purpose of control AC-3?". split; [set_solver | done].
  - exists "How do I implement Access Enforcement?". split; [set_solver | done].
Qed.

(** C7, as amended. Enhancement keeps the text and every metadata key other
    than the three question keys. With questions enabled the question keys
    are written, over whatever the input had there, exactly when the list
    [generate_hypothetical_questions] returns for the chunk is not empty:
    then they hold that list, its length and its questions joined by
    spaces; with an empty list, or with questions disabled, the chunk comes
    back as it is. The only way not to get a chunk back is that the
    generation raises, which takes a [source] that is not a string. *)
Theorem enhancement_frame (c : chunk) (dt : string) (q : bool) :
  match enhance_chunk_metadata c dt q with
  | Returned c' =>
      text c' = text c
      ∧ (∀ k, k ∉ question_keys → metadata c' !! k = metadata c !! k)
      ∧ (if q then
           ∃ qs,
             generate_hypothetical_questions (text c) (metadata c) dt 3
             = Returned qs
             ∧ (qs = [] → c' = c)
             ∧ (qs ≠ [] →
                metadata c' !! "hypothetical_questions" = Some (VList qs)
                ∧ metadata c' !! "question_count"
                  = Some (VInt (Z.of_nat (length qs)))
                ∧ metadata c' !! "questions_text"
                  = Some (VStr (join " " qs)))
         else c' = c)
  | Raised e =>
      e = AttributeError ∧ str_source (metadata c) = false
      ∧ q = true
      ∧ generate_hypothetical_questions (text c) (metadata c) dt 3
        = Raised e
  end.
Proof.
  pose proof (enhance_outcome c dt q) as Hc.
  destruct (enhance_chunk_metadata c dt q) as [c'|e] eqn:He.
  - destruct Hc as [Htext Hkeys]. split; [done |]. split; [done |].
    revert He. unfold enhance_chunk_metadata. destruct q; simpl.
    + destruct (generate_hypothetical_questions _ _ _ _) as [qs|]; simpl;
        [| discriminate].
      intros He. exists qs. split; [done |].
      destruct qs as [|q0 qs]; injection He as <-; [by split |].
      split; [done |]. intros _. simpl.
      rewrite lookup_insert_ne, lookup_insert_ne, lookup_insert_eq by done.
      rewrite lookup_insert_ne, lookup_insert_eq by done.
      by rewrite lookup_insert_eq.
    + by intros [= <-].
  - destruct Hc as [-> Hsrc]. split; [done |]. split; [done |].
    revert He. unfold enhance_chunk_metadata. destruct q; simpl;
      [| discriminate].
    destruct (generate_hypothetical_questions _ _ _ _) as [qs|e]; simpl.
    + by destruct qs.
    + by intros [= ->].
Qed.

(** C10. A control-type chunk without control_id and family whose text has
    none of the trigger words gets no question, and enhancement hands the
    chunk back as it is. *)
Theorem no_question_no_enhancement
    (t : string) (md : gmap string value) (dt : string) :
  in_list dt control_document_types = true →
  md !! "control_id" = None →
  md !! "family" = None →
  existsb (λ w, contains w (lower t)) control_trigger_words = false →
  generate_hypothetical_questions t md dt 3 = Returned []
  ∧ enhance_chunk_metadata {| text := t; metadata := md |} dt true
    = Returned {| text := t; metadata := md |}.
Proof.
  intros Hdt Hid Hfam Hwords.
  assert (generate_hypothetical_questions t md dt 3 = Returned []) as Hgen.
  { unfold generate_hypothetical_questions. rewrite Hdt.
    unfold _generate_control_questions, get_or_empty. rewrite Hid, Hfam.
    simpl in Hwords. apply orb_false_elim in Hwords as [Hbase Hmand].
    simpl. rewrite Hbase. simpl in Hmand |- *. rewrite Hmand. done. }
  split; [done |].
  unfold enhance_chunk_metadata. simpl. by rewrite Hgen.
Qed.

End question_claims.

(** C4. The claim fails on the control catalog in XML: the document of
    control AC-3 is classified '800-53_xml', a type the registry configures
    like the other control catalogs ([one_per_control]) and that the
    enhancer's list of control types leaves out, so its chunk, which
    carries control_id "AC-3", control_name "Access Enforcement" and family
    "AC", gets the generic questions about the first key term of its text,
    none of which contains "AC-3" or "Access Enforcement". *)
Theorem xml_control_chunk_gets_no_control_question :
  chunker.detect_document_type (VStr "sp800-53-controls.xml")
    more_examples.xml_ac3_metadata
  = Returned "800-53_xml"
  ∧ chunker.one_per_control (chunker.get_chunking_config "800-53_xml")
    = Some true
  ∧ metadata_enhancer.in_list "800-53_xml"
      metadata_enhancer.control_document_types
    = false
  ∧ ∃ c qs,
      chunker.chunk_documents (H := more_examples.xml_sample_external)
        [0%nat] [more_examples.xml_ac3_document] true true true
      = Returned [c]
      ∧ metadata_enhancer.metadata c !! "document_type"
        = Some (VStr "800-53_xml")
      ∧ metadata_enhancer.metadata c !! "control_id" = Some (VStr "AC-3")
      ∧ metadata_enhancer.metadata c !! "control_name"
        = Some (VStr "Access Enforcement")
      ∧ metadata_enhancer.metadata c !! "family" = Some (VStr "AC")
      ∧ metadata_enhancer.metadata c !! "hypothetical_questions"
        = Some (VList qs)
      ∧ qs = ["What is Control Catalog?";
              "How does Control Catalog work?";
              "What are the requirements for Control Catalog?"]
      ∧ existsb (contains "AC-3") qs = false
      ∧ existsb (contains "Access Enforcement") qs = false.
Proof.
  split; [vm_compute; reflexivity |]. split; [vm_compute; reflexivity |].
  split; [reflexivity |].
  eexists _, _. split; [vm_compute; reflexivity |].
  repeat split; vm_compute; reflexivity.
Qed.

(** C7 as stated fails: the chunk had [question_count] 7 before enhancement
    and has 2 after it. *)
Lemma enhancement_overwrites_question_count :
  ∃ c',
    metadata_enhancer.enhance_chunk_metadata (H := char_level.external)
      counted_chunk "800-53_catalog" true = Returned c'
    ∧ metadata_enhancer.metadata counted_chunk !! "question_count"
      = Some (VInt 7)
    ∧ metadata_enhancer.metadata c' !! "question_count" = Some (VInt 2).
Proof.
  eexists. split; [vm_compute; reflexivity |]. split; vm_compute; reflexivity.
Qed.

(** ** token_utils.py: the adaptive overlap *)

Lemma overlap_lt_budget (S : Z) (ratio : spec_float) (o : Z) :
  0 < S →
  token_utils.calculate_adaptive_overlap S ratio = Returned o → o < S.
Proof.
  intros HS. unfold token_utils.calculate_adaptive_overlap.
  intros (t & _ & [= <-])%bind_Returned.
  assert (S / 2 < S) by (apply Z.div_lt; lia). lia.
Qed.

Lemma overlap_agrees_checked :
  forallb overlap_agrees (seq 1 checked_budgets) = true.
Proof. vm_compute. reflexivity. Qed.

Lemma overlap_truncated (S : Z) :
  0 < S ≤ Z.of_nat checked_budgets →
  token_utils.calculate_adaptive_overlap S token_utils.overlap_ratio_default
  = Returned (truncated_small_overlap S).
Proof.
  intros HS. pose proof overlap_agrees_checked as Hall.
  rewrite forallb_forall in Hall.
  specialize (Hall (Z.to_nat S)). unfold overlap_agrees in Hall.
  rewrite Z2Nat.id in Hall by lia.
  destruct (token_utils.calculate_adaptive_overlap S _) as [o|e].
  - f_equal. apply Z.eqb_eq, Hall, in_seq. lia.
  - exfalso. enough (false = true) by done. apply Hall, in_seq. lia.
Qed.

(** C6, as amended. For every positive small budget S the small overlap,
    when the call returns, is min(max(20, t), S div 2) with t the product
    S*0.2 truncated by [int], not rounded, and is strictly less than S. For
    S up to 4096 the call returns and t is S div 5. *)
Theorem small_overlap_truncates (S : Z) :
  0 < S →
  (∀ o,
     token_utils.calculate_adaptive_overlap S
       token_utils.overlap_ratio_default = Returned o →
     (∃ t, token_utils.int_of_product S token_utils.overlap_ratio_default
           = Returned t
           ∧ o = Z.min (Z.max 20 t) (S / 2))
     ∧ o < S)
  ∧ (S ≤ 4096 →
     token_utils.calculate_adaptive_overlap S
       token_utils.overlap_ratio_default
     = Returned (Z.min (Z.max 20 (S / 5)) (S / 2))).
Proof.
  intros HS. split.
  - intros o Ho. split; [| by eapply overlap_lt_budget].
    unfold token_utils.calculate_adaptive_overlap in Ho.
    apply bind_Returned in Ho as (t & Ht & [= <-]). by exists t.
  - intros Hle. apply overlap_truncated. unfold checked_budgets. lia.
Qed.

(** C6 as stated fails at S = 103: S*0.2 is 20.6, which rounds to 21, and
    the code yields 20. *)
Lemma small_overlap_not_rounded :
  token_utils.calculate_adaptive_overlap 103 token_utils.overlap_ratio_default
  = Returned 20
  ∧ specified_small_overlap 103 = 21.
Proof. split; vm_compute; reflexivity. Qed.

(** ** chunker.py: the classifier *)

Section classifier.
Import chunker.

Lemma metadata_block (v : value) (k : outcome string) (t : string) :
  k = Returned t →
  (if eq_str v "800-53_xml" then Returned "800-53_xml"
   else if eq_str v "security_pattern" then Returned "security_pattern"
   else if eq_str v "positioning_guide" then Returned "positioning_guide"
   else if eq_str v "zone_guide" then Returned "zone_guide"
   else if eq_str v "grouping_guide" then Returned "grouping_guide"
   else if eq_str v "segmentation_guide" then Returned "segmentation_guide"
   else k)
  = Returned
      match v with
      | VStr s =>
          if metadata_enhancer.in_list s honoured_metadata_types then s else t
      | _ => t
      end.
Proof.
  intros ->. destruct v as [| | |s|]; simpl; try reflexivity.
  repeat (match goal with
          | |- context [String.eqb s ?lit] =>
              destruct (String.eqb_spec s lit) as [->|_]; simpl;
              try reflexivity
          end).
Qed.

Ltac case_head_condition :=
  match goal with
  | |- (if ?b then _ else _) = _ => destruct b; simpl; [reflexivity |]
  end.

Lemma detect_document_type_blocks (f : string) (md : gmap string value) :
  detect_document_type (VStr f) md
  = Returned
      match filename_rules (lower f) md with
      | Some t => t
      | None =>
          match get md "document_type" with
          | VStr s =>
              if metadata_enhancer.in_list s honoured_metadata_types then s
              else keyword_rules (lower f)
          | _ => keyword_rules (lower f)
          end
      end.
Proof.
  unfold detect_document_type, filename_rules. simpl.
  do 9 case_head_condition.
  apply metadata_block. unfold keyword_rules.
  repeat case_head_condition. reflexivity.
Qed.

(** C8. The classifier takes [metadata['document_type']] over only when no
    filename rule fired and the value is one of the six honoured strings;
    with any other value there the result is what the filename rules, the
    keyword rules and then 'default' give, and the field can be dropped
    without changing it. *)
Theorem metadata_type_honoured_for_six_values
    (f : string) (md : gmap string value) :
  (∀ s, s ∈ honoured_metadata_types → get md "document_type" ≠ VStr s) →
  detect_document_type (VStr f) md
  = Returned
      match filename_rules (lower f) md with
      | Some t => t
      | None => keyword_rules (lower f)
      end
  ∧ detect_document_type (VStr f) md
    = detect_document_type (VStr f) (delete "document_type" md).
Proof.
  intros Hother.
  assert (detect_document_type (VStr f) md
          = Returned match filename_rules (lower f) md with
                     | Some t => t
                     | None => keyword_rules (lower f)
                     end) as Hmd.
  { rewrite detect_document_type_blocks.
    destruct (filename_rules (lower f) md); [done |].
    destruct (get md "document_type") as [| | |s|] eqn:Hv; try done.
    destruct (metadata_enhancer.in_list s honoured_metadata_types) eqn:Hin;
      [| done].
    exfalso. apply (Hother s); [| done].
    unfold metadata_enhancer.in_list in Hin.
    apply existsb_exists in Hin as (s' & Hs' & ->%String.eqb_eq).
    by apply list_elem_of_In. }
  split; [done |].
  rewrite Hmd, detect_document_type_blocks.
  assert (filename_rules (lower f) (delete "document_type" md)
          = filename_rules (lower f) md) as ->.
  { unfold filename_rules, get. by rewrite lookup_delete_ne. }
  unfold get at 1. rewrite lookup_delete_eq. done.
Qed.

(** The honoured half of C8: one of the six values is taken over when no
    filename rule fired. *)
Lemma honoured_metadata_type_is_returned
    (f s : string) (md : gmap string value) :
  filename_rules (lower f) md = None →
  md !! "document_type" = Some (VStr s) →
  s ∈ honoured_metadata_types →
  detect_document_type (VStr f) md = Returned s.
Proof.
  intros Hrules Hmd Hs. rewrite detect_document_type_blocks, Hrules.
  unfold get. rewrite Hmd. simpl.
  unfold honoured_metadata_types in Hs.
  repeat (apply elem_of_cons in Hs as [->|Hs]; [done |]).
  by apply elem_of_nil in Hs.
Qed.

Example query_patterns_in_metadata_is_ignored :
  detect_document_type (VStr "notes.md")
    {[ "document_type" := VStr "query_patterns" ]} = Returned "default".
Proof. vm_compute. reflexivity. Qed.

Example csf_in_metadata_is_ignored :
  detect_document_type (VStr "zone_overview.md")
    {[ "document_type" := VStr "csf_2.0" ]} = Returned "zone_guide".
Proof. vm_compute. reflexivity. Qed.

End classifier.

(** ** chunker.py: the per-document pipeline *)

Section pipeline.
Context `{External}.
Import metadata_enhancer chunker.

Lemma enumerate_from_cons {A} (j : nat) (x : A) (l : list A) :
  enumerate_from j (x :: l) = (j, x) :: enumerate_from (S j) l.
Proof.
  unfold enumerate_from. simpl. rewrite Nat.add_0_r. f_equal.
  apply imap_ext. intros i y _. simpl. f_equal. lia.
Qed.

Lemma enumerate_from_0 {A} (l : list A) : enumerate l = enumerate_from 0 l.
Proof. reflexivity. Qed.

Lemma fold_small_loop base prefix pi p (l : list string) (j : nat) acc :
  fold_left
    (small_loop_body base prefix pi p ("parent_" +:+ pretty pi)
       (count_tokens p))
    (enumerate_from j l) acc
  = acc ++ small_chunks_from base prefix pi p (length acc) j l.
Proof.
  revert j acc. induction l as [|s l IH]; intros j acc.
  - simpl. by rewrite app_nil_r.
  - rewrite enumerate_from_cons. cbn [fold_left]. rewrite IH.
    unfold small_loop_body. rewrite <- app_assoc, length_app. simpl.
    by rewrite Nat.add_1_r.
Qed.

Lemma small_chunks_from_length base prefix pi p n j (l : list string) :
  length (small_chunks_from base prefix pi p n j l) = length l.
Proof.
  revert n j. induction l as [|s l IH]; intros n j; simpl; [done |].
  by rewrite IH.
Qed.

Lemma fold_parent_loop base prefix S O (ps : list string) (k : nat) acc :
  fold_left (parent_loop_body base prefix S O) (enumerate_from k ps) acc
  = acc ++ hierarchy_chunks base prefix S O (length acc) k ps.
Proof.
  revert k acc. induction ps as [|p ps IH]; intros k acc.
  - simpl. by rewrite app_nil_r.
  - rewrite enumerate_from_cons. cbn [fold_left]. rewrite IH.
    unfold parent_loop_body. rewrite enumerate_from_0, fold_small_loop.
    rewrite <- app_assoc, length_app, small_chunks_from_length. done.
Qed.

Lemma fold_direct_loop base prefix (ps : list string) (k : nat) acc :
  fold_left (direct_loop_body base prefix) (enumerate_from k ps) acc
  = acc ++ direct_chunks base prefix k ps.
Proof.
  revert k acc. induction ps as [|p ps IH]; intros k acc.
  - simpl. by rewrite app_nil_r.
  - rewrite enumerate_from_cons. cbn [fold_left]. rewrite IH.
    unfold direct_loop_body. by rewrite <- app_assoc.
Qed.

Lemma config_in_table (dt : string) :
  get_chunking_config dt ∈ CHUNKING_CONFIG_items.*2.
Proof.
  unfold get_chunking_config.
  destruct (CHUNKING_CONFIG !! dt) as [c|] eqn:Hc; simpl.
  - apply elem_of_list_to_map_2 in Hc.
    by apply (list_elem_of_fmap_2 snd) in Hc.
  - apply list_elem_of_In. simpl. tauto.
Qed.

Lemma small_chunk_size_checked (dt : string) :
  0 < default 256 (small_chunk_size (get_chunking_config dt))
    ≤ Z.of_nat checked_budgets.
Proof.
  pose proof (config_in_table dt) as Hin.
  apply list_elem_of_In in Hin. simpl in Hin. unfold checked_budgets.
  repeat (destruct Hin as [<-|Hin]; [simpl; lia |]). done.
Qed.

(** [chunk_text] resolves the document type, builds the chunks and, when
    asked to, enhances them. *)
Lemma chunk_text_eq (text : string) (md : gmap string value)
    (document_type : option string) (s2b q : bool) :
  chunk_text text md document_type s2b q
  = dt ← resolve_document_type md document_type;
    if q
    then batch_enhance_chunks (chunks_before_enhancement text md dt s2b)
           dt true
    else Returned (chunks_before_enhancement text md dt s2b).
Proof.
  unfold chunk_text.
  destruct (resolve_document_type md document_type) as [dt|e];
    [| reflexivity].
  cbn [mbind outcome_bind].
  unfold chunks_before_enhancement, split_suppressed, hierarchy_applies,
    parent_spans, metadata_base.
  destruct (default false (one_per_control (get_chunking_config dt))
            && _) eqn:Hsup; [reflexivity |].
  destruct (default false (use_small2big (get_chunking_config dt)) && s2b
            && _) eqn:Hhier.
  - rewrite (overlap_truncated _ (small_chunk_size_checked dt)).
    cbn [mbind outcome_bind].
    rewrite enumerate_from_0, fold_parent_loop. reflexivity.
  - cbn [mbind outcome_bind].
    rewrite enumerate_from_0, fold_direct_loop. reflexivity.
Qed.

(** *** Lookups in the emitted metadata *)

Lemma record_prefix_lookup (prefix k : string) (d : gmap string value) :
  k ≠ "context_prefix" → record_prefix prefix d !! k = d !! k.
Proof.
  intros Hk. unfold record_prefix.
  destruct (negb (is_empty prefix)); [| done]. by rewrite lookup_insert_ne.
Qed.

Ltac lookup_inserted :=
  cbn [metadata small_chunk_of direct_chunk_of];
  unfold single_chunk_metadata;
  repeat first
    [ rewrite lookup_insert_eq
    | rewrite lookup_insert_ne by done
    | rewrite record_prefix_lookup by done ];
  try reflexivity.

Lemma small_chunk_lookups base prefix pi p n si s :
  let md := metadata (small_chunk_of base prefix pi p n si s) in
  md !! "chunk_index" = Some (VInt (Z.of_nat n))
  ∧ md !! "is_small_chunk" = Some (VBool true)
  ∧ md !! "parent_chunk_index" = Some (VInt (Z.of_nat pi))
  ∧ md !! "small_chunk_index" = Some (VInt (Z.of_nat si))
  ∧ md !! "parent_text" = Some (VStr p)
  ∧ md !! "token_count" = Some (VInt (Z.of_nat (count_tokens s)))
  ∧ md !! "source" = base !! "source".
Proof. repeat split; lookup_inserted. Qed.

Lemma direct_chunk_lookups base prefix idx p :
  let md := metadata (direct_chunk_of base prefix idx p) in
  md !! "chunk_index" = Some (VInt (Z.of_nat idx))
  ∧ md !! "is_small_chunk" = Some (VBool false)
  ∧ md !! "token_count" = Some (VInt (Z.of_nat (count_tokens p)))
  ∧ md !! "source" = base !! "source".
Proof. repeat split; lookup_inserted. Qed.

Lemma single_chunk_lookups md dt prefix n :
  let md' := single_chunk_metadata md dt prefix n in
  md' !! "chunk_index" = Some (VInt 0)
  ∧ md' !! "is_small_chunk" = Some (VBool false)
  ∧ md' !! "token_count" = Some (VInt (Z.of_nat n))
  ∧ md' !! "source" = md !! "source".
Proof. repeat split; lookup_inserted. Qed.

Lemma metadata_base_source md dt :
  metadata_base md dt !! "source" = md !! "source".
Proof. unfold metadata_base. lookup_inserted. Qed.

(** *** What the closed forms consist of *)

Lemma small_chunks_from_Forall (P : chunk → Prop) base prefix pi p n j l :
  (∀ n' i s, l !! i = Some s →
     P (small_chunk_of base prefix pi p n' (j + i) s)) →
  Forall P (small_chunks_from base prefix pi p n j l).
Proof.
  revert n j. induction l as [|s l IH]; intros n j HP; simpl; [constructor |].
  constructor.
  - specialize (HP n 0%nat s eq_refl). by rewrite Nat.add_0_r in HP.
  - apply IH. intros n' i s' Hi.
    replace (S j + i)%nat with (j + S i)%nat by lia. by apply HP.
Qed.

Lemma hierarchy_chunks_Forall (P : chunk → Prop) base prefix S O n k ps :
  (∀ i p n' si s, ps !! i = Some p → split_text S O p !! si = Some s →
     P (small_chunk_of base prefix (k + i) p n' si s)) →
  Forall P (hierarchy_chunks base prefix S O n k ps).
Proof.
  revert n k. induction ps as [|p ps IH]; intros n k HP; simpl; [constructor |].
  apply Forall_app. split.
  - apply small_chunks_from_Forall. intros n' i s Hi.
    specialize (HP 0%nat p n' i s eq_refl Hi). by rewrite Nat.add_0_r in HP.
  - apply IH. intros i p' n' si s Hi Hs.
    replace (Datatypes.S k + i)%nat with (k + Datatypes.S i)%nat by lia.
    by apply HP.
Qed.

Lemma direct_chunks_Forall (P : chunk → Prop) base prefix k ps :
  (∀ i p, ps !! i = Some p → P (direct_chunk_of base prefix (k + i) p)) →
  Forall P (direct_chunks base prefix k ps).
Proof.
  revert k. induction ps as [|p ps IH]; intros k HP; simpl; [constructor |].
  constructor.
  - specialize (HP 0%nat p eq_refl). by rewrite Nat.add_0_r in HP.
  - apply IH. intros i p' Hi.
    replace (S k + i)%nat with (k + S i)%nat by lia. by apply HP.
Qed.

Lemma direct_chunks_length base prefix k ps :
  length (direct_chunks base prefix k ps) = length ps.
Proof. revert k. induction ps as [|p ps IH]; intros k; simpl; [done |]. by rewrite IH. Qed.

(** Every chunk carries the [source] of the document, so enhancement sees
    the same [source] as the caller. *)
Lemma chunks_before_enhancement_source text md dt s2b :
  Forall (λ c, metadata c !! "source" = md !! "source")
         (chunks_before_enhancement text md dt s2b).
Proof.
  unfold chunks_before_enhancement.
  destruct (split_suppressed dt text).
  - constructor; [| constructor]. apply single_chunk_lookups.
  - destruct (hierarchy_applies dt text s2b).
    + apply hierarchy_chunks_Forall. intros i p n' si s _ _.
      rewrite <- (metadata_base_source md dt). apply small_chunk_lookups.
    + apply direct_chunks_Forall. intros i p _.
      rewrite <- (metadata_base_source md dt). apply direct_chunk_lookups.
Qed.

Lemma resolve_document_type_outcome md document_type :
  match resolve_document_type md document_type with
  | Returned _ => True
  | Raised e => e = AttributeError ∧ str_source md = false
  end.
Proof.
  unfold resolve_document_type, str_source.
  destruct document_type as [dt|]; [done |].
  destruct (get_or_empty md "source") as [| | |f|]; try done.
  by rewrite detect_document_type_blocks.
Qed.

(** [chunk_text] returns the chunks built from the text, each with at most
    the question keys written by enhancement, unless [source] is not a
    string. *)
Lemma chunk_text_outcome text md document_type s2b q :
  match chunk_text text md document_type s2b q with
  | Returned chunks =>
      ∃ dt, resolve_document_type md document_type = Returned dt
            ∧ Forall2 enhanced_from
                (chunks_before_enhancement text md dt s2b) chunks
  | Raised e => e = AttributeError ∧ str_source md = false
  end.
Proof.
  rewrite chunk_text_eq.
  pose proof (resolve_document_type_outcome md document_type) as Hres.
  destruct (resolve_document_type md document_type) as [dt|e]; [| done].
  cbn [mbind outcome_bind]. destruct q.
  - pose proof (batch_enhance_outcome
                  (chunks_before_enhancement text md dt s2b) dt true) as Hb.
    destruct (batch_enhance_chunks _ dt true) as [chunks|e].
    + by exists dt.
    + destruct Hb as (-> & c & Hc & Hsrc). split; [done |].
      pose proof (chunks_before_enhancement_source text md dt s2b) as Hall.
      rewrite Forall_forall in Hall. specialize (Hall c Hc).
      unfold str_source, get_or_empty in *. by rewrite <- Hall.
  - exists dt. split; [done |].
    apply Forall_Forall2_diag, Forall_forall. intros c _. by split.
Qed.

(** *** Keys that enhancement leaves alone *)

Lemma enhanced_from_lookup (k : string) (pre chunks : list chunk) :
  k ∉ question_keys →
  Forall2 enhanced_from pre chunks →
  map (λ c, metadata c !! k) chunks = map (λ c, metadata c !! k) pre.
Proof.
  intros Hk. induction 1 as [|c c' pre chunks [_ Hc] _ IH]; simpl; [done |].
  by rewrite IH, Hc.
Qed.

Lemma small_indices_under_enhanced (pi : nat) (pre chunks : list chunk) :
  Forall2 enhanced_from pre chunks →
  small_indices_under pi chunks = small_indices_under pi pre.
Proof.
  unfold small_indices_under.
  induction 1 as [|c c' pre chunks [_ Hc] _ IH]; [done |].
  rewrite !filter_cons.
  rewrite !(Hc "is_small_chunk"), !(Hc "parent_chunk_index")
    by not_question_key.
  destruct (decide _); simpl; rewrite IH; [| done].
  rewrite Hc; [done |]. not_question_key.
Qed.

(** *** The chunk indices *)

Lemma counting_from_app (start a b : nat) :
  counting_from start (a + b)
  = counting_from start a ++ counting_from (start + a) b.
Proof. unfold counting_from. by rewrite seq_app, map_app. Qed.

Lemma small_chunks_from_indices base prefix pi p n j l :
  chunk_indices (small_chunks_from base prefix pi p n j l)
  = counting_from n (length l).
Proof.
  revert n j. induction l as [|s l IH]; intros n j; [done |].
  cbn [small_chunks_from chunk_indices map length].
  fold (chunk_indices (small_chunks_from base prefix pi p (S n) (S j) l)).
  rewrite IH. unfold counting_from. cbn [seq map]. f_equal.
  apply small_chunk_lookups.
Qed.

Lemma hierarchy_chunks_indices base prefix S O n k ps :
  chunk_indices (hierarchy_chunks base prefix S O n k ps)
  = counting_from n (length (hierarchy_chunks base prefix S O n k ps)).
Proof.
  revert n k. induction ps as [|p ps IH]; intros n k; [done |].
  cbn [hierarchy_chunks]. unfold chunk_indices in *.
  rewrite map_app, length_app, counting_from_app.
  rewrite small_chunks_from_length, IH. f_equal.
  apply small_chunks_from_indices.
Qed.

Lemma direct_chunks_indices base prefix k ps :
  chunk_indices (direct_chunks base prefix k ps)
  = counting_from k (length ps).
Proof.
  revert k. induction ps as [|p ps IH]; intros k; [done |].
  cbn [direct_chunks chunk_indices map length].
  fold (chunk_indices (direct_chunks base prefix (S k) ps)).
  rewrite IH. unfold counting_from. cbn [seq map]. f_equal.
  apply direct_chunk_lookups.
Qed.

Lemma chunks_before_enhancement_indices text md dt s2b :
  chunk_indices (chunks_before_enhancement text md dt s2b)
  = counting_from 0 (length (chunks_before_enhancement text md dt s2b)).
Proof.
  unfold chunks_before_enhancement.
  destruct (split_suppressed dt text).
  - unfold chunk_indices, counting_from. cbn [map length seq metadata].
    f_equal. apply single_chunk_lookups.
  - destruct (hierarchy_applies dt text s2b).
    + apply hierarchy_chunks_indices.
    + rewrite direct_chunks_length. apply direct_chunks_indices.
Qed.

(** C2. The chunk_index values of the chunks one document yields are
    0, 1, ..., n-1 in the order of emission, whichever branch built the
    chunks and whether or not they were enhanced. The only way not to get
    a chunk list is a [source] that is not a string. *)
Theorem chunk_index_contiguous text md document_type s2b q :
  match chunk_text text md document_type s2b q with
  | Returned chunks =>
      chunk_indices chunks = counting_from 0 (length chunks)
  | Raised e => e = AttributeError ∧ str_source md = false
  end.
Proof.
  pose proof (chunk_text_outcome text md document_type s2b q) as Hout.
  destruct (chunk_text text md document_type s2b q) as [chunks|e]; [| done].
  destruct Hout as (dt & _ & Hframe).
  unfold chunk_indices at 1.
  rewrite (enhanced_from_lookup "chunk_index" _ _) by
    (first [done | not_question_key]).
  rewrite <- (Forall2_length _ _ _ Hframe).
  apply chunks_before_enhancement_indices.
Qed.

(** *** The branch that does not split *)

Lemma chunk_text_suppressed text md document_type dt s2b q :
  resolve_document_type md document_type = Returned dt →
  split_suppressed dt text = true →
  chunk_text text md document_type s2b q
  = let single_chunk :=
      [ {| text := prepend_context (_build_context_prefix md dt) text;
           metadata :=
             single_chunk_metadata md dt (_build_context_prefix md dt)
               (count_tokens text) |} ] in
    if q then batch_enhance_chunks single_chunk dt true
    else Returned single_chunk.
Proof.
  intros Hres Hsup. rewrite chunk_text_eq, Hres. cbn [mbind outcome_bind].
  unfold chunks_before_enhancement. by rewrite Hsup.
Qed.

End pipeline.

Section suppressed_split.
Context `{E : External}.
Import metadata_enhancer chunker.

(** Neither the context prefix nor enhancement goes through the splitter. *)
Lemma with_splitter_prefix f md dt :
  _build_context_prefix (H := with_splitter E f) md dt
  = _build_context_prefix md dt.
Proof. reflexivity. Qed.

Lemma with_splitter_enhance f chunks dt q :
  batch_enhance_chunks (H := with_splitter E f) chunks dt q
  = batch_enhance_chunks chunks dt q.
Proof. reflexivity. Qed.

(** C5. When the configuration of the document type has one_per_control and
    the text has at most the target number of tokens, [chunk_text] emits
    exactly one chunk, with chunk_index 0, is_small_chunk false and the
    token count of the whole text, and the result is the same whatever the
    splitter is. The only way not to get the chunk is a [source] that is
    not a string. *)
Theorem one_per_control_emits_single_chunk
    (text : string) (md : gmap string value)
    (document_type : option string) (dt : string) (s2b q : bool) :
  resolve_document_type md document_type = Returned dt →
  one_per_control (get_chunking_config dt) = Some true →
  Z.of_nat (count_tokens text)
    ≤ default 512 (chunk_size_tokens (get_chunking_config dt)) →
  match chunk_text text md document_type s2b q with
  | Returned chunks =>
      (∃ c, chunks = [c]
            ∧ metadata c !! "chunk_index" = Some (VInt 0)
            ∧ metadata c !! "is_small_chunk" = Some (VBool false)
            ∧ metadata c !! "token_count"
              = Some (VInt (Z.of_nat (count_tokens text))))
      ∧ ∀ f, chunk_text (H := with_splitter E f) text md document_type s2b q
             = Returned chunks
  | Raised e => e = AttributeError ∧ str_source md = false
  end.
Proof.
  intros Hres Hflag Hfits.
  assert (split_suppressed dt text = true) as Hsup.
  { unfold split_suppressed. rewrite Hflag. cbn [default andb].
    by apply Z.leb_le. }
  pose proof (chunk_text_outcome text md document_type s2b q) as Hout.
  destruct (chunk_text text md document_type s2b q) as [chunks|e] eqn:Hrun;
    [| done].
  destruct Hout as (dt' & Hres' & Hframe).
  rewrite Hres in Hres'. injection Hres' as <-.
  unfold chunks_before_enhancement in Hframe. rewrite Hsup in Hframe.
  apply Forall2_cons_inv_l in Hframe as (c & rest & [_ Hc] & Hrest & ->).
  apply Forall2_nil_inv_l in Hrest as ->.
  split.
  - exists c. split; [done |]. cbn [metadata] in Hc.
    rewrite (Hc "chunk_index"), (Hc "is_small_chunk"), (Hc "token_count")
      by not_question_key.
    pose proof (single_chunk_lookups md dt (_build_context_prefix md dt)
                  (count_tokens text)) as (? & ? & ? & _).
    done.
  - intros f.
    pose proof (chunk_text_suppressed (H := with_splitter E f)
                  text md document_type dt s2b q Hres Hsup) as Hother.
    pose proof (chunk_text_suppressed text md document_type dt s2b q
                  Hres Hsup) as Hthis.
    cbv zeta in Hother, Hthis.
    rewrite !with_splitter_prefix, with_splitter_enhance in Hother.
    exact (eq_trans Hother (eq_trans (eq_sym Hthis) Hrun)).
Qed.

End suppressed_split.

Section pipeline_claims.
Context `{External}.
Import metadata_enhancer chunker.

(** *** Emitted text and recorded token count *)





(** *** Small chunks and their parents *)

Lemma small_indices_under_app (pi : nat) (l1 l2 : list chunk) :
  small_indices_under pi (l1 ++ l2)
  = small_indices_under pi l1 ++ small_indices_under pi l2.
Proof. unfold small_indices_under. by rewrite filter_app, map_app. Qed.

Lemma small_indices_same_parent base prefix pi p n j l :
  small_indices_under pi (small_chunks_from base prefix pi p n j l)
  = counting_from j (length l).
Proof.
  revert n j. induction l as [|s l IH]; intros n j; [done |].
  unfold small_indices_under in *. cbn [small_chunks_from length].
  rewrite filter_cons, decide_True by (split; apply small_chunk_lookups).
  cbn [map]. rewrite IH. unfold counting_from. cbn [seq map]. f_equal.
  apply small_chunk_lookups.
Qed.

Lemma small_indices_other_parent base prefix pi pi' p n j l :
  pi ≠ pi' →
  small_indices_under pi (small_chunks_from base prefix pi' p n j l) = [].
Proof.
  intros Hne. revert n j. induction l as [|s l IH]; intros n j; [done |].
  unfold small_indices_under in *. cbn [small_chunks_from].
  rewrite filter_cons, decide_False; [apply IH |].
  intros [_ Hpi].
  pose proof (small_chunk_lookups base prefix pi' p n j s)
    as (_ & _ & Hpi' & _).
  cbn zeta in Hpi'. rewrite Hpi' in Hpi. injection Hpi as Hpi. lia.
Qed.

Lemma hierarchy_small_indices base prefix S O ps n k pi :
  small_indices_under pi (hierarchy_chunks base prefix S O n k ps)
  = if decide (k ≤ pi)%nat
    then match ps !! (pi - k)%nat with
         | Some p => counting_from 0 (length (split_text S O p))
         | None => []
         end
    else [].
Proof.
  revert n k. induction ps as [|p ps IH]; intros n k.
  - by destruct (decide _).
  - cbn [hierarchy_chunks]. rewrite small_indices_under_app, IH.
    destruct (decide (pi = k)) as [->|Hne].
    + rewrite small_indices_same_parent, Nat.sub_diag.
      rewrite decide_False, decide_True by lia. by rewrite app_nil_r.
    + rewrite small_indices_other_parent by done. cbn [app].
      destruct (decide (k ≤ pi)%nat) as [Hle|Hgt].
      * rewrite decide_True by lia.
        by replace (pi - k)%nat with (Datatypes.S (pi - Datatypes.S k)) by lia.
      * by rewrite decide_False by lia.
Qed.

(** C1. In the small-to-big branch (the split is made, the hierarchy is
    enabled and there is more than one parent span) every emitted chunk is
    a small chunk whose parent_text is the parent span at its
    parent_chunk_index, untouched by the context prefix, which goes to the
    small chunk's own text only; and the small_chunk_index values under
    the parent at any position are 0, 1, ... up to the number of small spans
    of that parent. The only way not to get a chunk list is a [source] that
    is not a string. *)
Theorem small_chunks_carry_their_parent text md document_type dt s2b q :
  resolve_document_type md document_type = Returned dt →
  split_suppressed dt text = false →
  default false (use_small2big (get_chunking_config dt)) = true →
  s2b = true →
  (1 < length (parent_spans dt text))%nat →
  match chunk_text text md document_type s2b q with
  | Returned chunks =>
      Forall (λ c,
          metadata c !! "is_small_chunk" = Some (VBool true)
          ∧ ∃ pi p,
              metadata c !! "parent_chunk_index" = Some (VInt (Z.of_nat pi))
              ∧ parent_spans dt text !! pi = Some p
              ∧ metadata c !! "parent_text" = Some (VStr p)
              ∧ ∃ s, s ∈ small_spans dt p
                     ∧ metadata_enhancer.text c
                       = prepend_context (_build_context_prefix md dt) s)
        chunks
      ∧ ∀ pi p, parent_spans dt text !! pi = Some p →
          small_indices_under pi chunks
          = counting_from 0 (length (small_spans dt p))
  | Raised e => e = AttributeError ∧ str_source md = false
  end.
Proof.
  intros Hres Hsup Hflag -> Hmany.
  pose proof (chunk_text_outcome text md document_type true q) as Hout.
  destruct (chunk_text text md document_type true q) as [chunks|e]; [| done].
  destruct Hout as (dt' & Hres' & Hframe).
  rewrite Hres in Hres'. injection Hres' as <-.
  unfold chunks_before_enhancement in Hframe. rewrite Hsup in Hframe.
  assert (hierarchy_applies dt text true = true) as Hhier.
  { unfold hierarchy_applies. rewrite Hflag. by rewrite bool_decide_eq_true_2. }
  rewrite Hhier in Hframe. split.
  - match type of Hframe with
    | Forall2 _ ?pre _ =>
        assert (Forall (λ c,
          metadata c !! "is_small_chunk" = Some (VBool true)
          ∧ ∃ pi p,
              metadata c !! "parent_chunk_index" = Some (VInt (Z.of_nat pi))
              ∧ parent_spans dt text !! pi = Some p
              ∧ metadata c !! "parent_text" = Some (VStr p)
              ∧ ∃ s, s ∈ small_spans dt p
                     ∧ metadata_enhancer.text c
                       = prepend_context (_build_context_prefix md dt) s)
          pre) as Hpre
    end.
    { apply hierarchy_chunks_Forall. intros i p n' si s Hp Hs.
      pose proof (small_chunk_lookups (metadata_base md dt)
                    (_build_context_prefix md dt) (0 + i) p n' si s)
        as (_ & Hsmall & Hpi & _ & Hparent & _).
      split; [done |]. exists i, p. repeat split; try done.
      exists s. split; [| done]. by eapply list_elem_of_lookup_2. }
    induction Hframe as [|c c' pre chunks [Htext Hkeys] _ IH]; [constructor |].
    apply Forall_cons in Hpre as [(Hsmall & pi & p & Hpi & Hp & Hpt & Hs) Hpre].
    constructor; [| by apply IH].
    rewrite Htext, !Hkeys by not_question_key.
    split; [done |]. by exists pi, p.
  - intros pi p Hp.
    rewrite (small_indices_under_enhanced pi _ _ Hframe).
    rewrite hierarchy_small_indices, decide_True by lia.
    by rewrite Nat.sub_0_r, Hp.
Qed.

End pipeline_claims.


(** Under the character-level instance the recorded token count of this
    chunk is 5 and its emitted text has 65 characters. *)
Example recorded_count_differs_from_emitted_count :
  ∃ c,
    chunker.chunk_text (H := char_level.external)
      "hello" {[ "source" := VStr "cmmc_guide.pdf"; "page" := VInt 3 ]}
      None true true = Returned [c]
    ∧ metadata_enhancer.metadata c !! "token_count" = Some (VInt 5)
    ∧ count_tokens (External := char_level.external)
        (metadata_enhancer.text c) = 65%nat.
Proof.
  eexists. split; [vm_compute; reflexivity |]. split; vm_compute; reflexivity.
Qed.


(** ** chunker.py: the batch *)

Section batch.
Context `{External}.
Import metadata_enhancer chunker.

Lemma detect_document_type_returns (md : gmap string value) :
  str_source md = true →
  ∃ dt, detect_document_type (get_or_empty md "source") md = Returned dt.
Proof.
  unfold str_source.
  destruct (get_or_empty md "source") as [| | |f|]; try done.
  intros _. rewrite detect_document_type_blocks. eauto.
Qed.

(** The submission loop: with every source a string, each future holds the
    outcome of the pipeline of its document. *)
Lemma futures_hold_pipeline_outcomes (documents : list document) s2b q :
  Forall (λ doc, str_source (doc_metadata doc) = true) documents →
  mapM (λ doc,
          let source := get_or_empty (doc_metadata doc) "source" in
          document_type ← detect_document_type source (doc_metadata doc);
          Returned (chunk_text_call (doc_text doc) (doc_metadata doc)
                      document_type s2b q))
       documents
  = Returned (map (λ doc, document_pipeline doc s2b q) documents).
Proof.
  intros Hsrc. apply mapM_Returned, Forall2_fmap_r, Forall_Forall2_diag.
  eapply Forall_impl; [exact Hsrc |]. intros doc Hdoc. cbn beta zeta.
  unfold compose, document_pipeline. cbv beta zeta.
  destruct (detect_document_type_returns _ Hdoc) as [dt ->]. reflexivity.
Qed.

(** The collection loop appends what each completed future returned. *)
Lemma collection_loop (futures : list (outcome (list chunk)))
    (completion : list nat) (acc : list chunk) :
  fold_left
    (λ all_chunks future,
       match futures !! future with
       | Some (Returned chunks) => all_chunks ++ chunks
       | Some (Raised e) => all_chunks
       | None => all_chunks
       end)
    completion acc
  = acc ++ (completion ≫= λ i,
              match futures !! i with
              | Some (Returned chunks) => chunks
              | _ => []
              end).
Proof.
  revert acc. induction completion as [|i completion IH]; intros acc.
  - simpl. by rewrite app_nil_r.
  - cbn [fold_left]. rewrite IH, bind_cons.
    destruct (futures !! i) as [[chunks|e]|]; by rewrite <- ?app_assoc.
Qed.

Lemma bind_positions {A B} (l : list A) (h : option A → list B) :
  seq 0 (length l) ≫= (λ i, h (l !! i)) = l ≫= (λ x, h (Some x)).
Proof.
  revert h. induction l as [|x l IH]; intros h; [done |].
  cbn [length seq]. rewrite !bind_cons. cbn [lookup list_lookup].
  f_equal. rewrite <- fmap_S_seq, list_fmap_bind. apply IH.
Qed.

(** C3, as amended. In a batch of more than one document run in parallel,
    with every source a string or absent, the call returns whatever the
    completion order is: a document whose [chunk_text] raised contributes no
    chunk, and the chunks of every other document are in the result,
    document by document in completion order. *)
Theorem parallel_batch_isolates_failures
    (documents : list document) (completion : list nat) (s2b q : bool) :
  (1 < length documents)%nat →
  completion ≡ₚ seq 0 (length documents) →
  Forall (λ doc, str_source (doc_metadata doc) = true) documents →
  ∃ all_chunks,
    chunk_documents completion documents true s2b q = Returned all_chunks
    ∧ all_chunks
      = (completion ≫= λ i,
           match document_pipeline <$> documents !! i with
           | Some pipeline =>
               match pipeline s2b q with
               | Returned chunks => chunks
               | Raised _ => []
               end
           | None => []
           end)
    ∧ all_chunks
      ≡ₚ (documents ≫= λ doc,
            match document_pipeline doc s2b q with
            | Returned chunks => chunks
            | Raised _ => []
            end).
Proof.
  intros Hmany Hperm Hsrc.
  assert (chunk_documents completion documents true s2b q
          = Returned (completion ≫= λ i,
              match document_pipeline <$> documents !! i with
              | Some pipeline =>
                  match pipeline s2b q with
                  | Returned chunks => chunks
                  | Raised _ => []
                  end
              | None => []
              end)) as Hrun.
  { unfold chunk_documents.
    destruct documents as [|d1 [|d2 rest]]; [simpl in Hmany; lia.. |].
    rewrite bool_decide_eq_true_2 by done. cbn [andb].
    pose proof (futures_hold_pipeline_outcomes _ s2b q Hsrc) as Hfutures.
    cbv zeta in Hfutures. rewrite Hfutures.
    cbn [mbind outcome_bind]. rewrite collection_loop. cbn [app].
    f_equal. apply list_bind_ext; [| done]. intros i.
    rewrite list_lookup_fmap.
    by destruct (_ !! i) as [doc|]. }
  eexists. split; [exact Hrun |]. split; [done |].
  rewrite Hperm.
  rewrite (bind_positions documents
             (λ o, match document_pipeline <$> o with
                   | Some pipeline =>
                       match pipeline s2b q with
                       | Returned chunks => chunks
                       | Raised _ => []
                       end
                   | None => []
                   end)).
  done.
Qed.

End batch.

(** C3 as stated fails on a batch of one document, which is handed to
    [chunk_text] directly although the call asks for parallel execution, and
    on a batch in which a source is not a string, which is classified in
    the caller before the work is submitted: in both the first document's
    [chunk_text] raises [TypeError] for a text that is not a string, and an
    exception comes out of the call. *)
Lemma parallel_batch_lets_an_exception_out :
  document_pipeline (H := char_level.external)
    (chunker.Document VNone {[ "source" := VStr "notes.md" ]}) true true
  = Raised TypeError
  ∧ chunker.chunk_documents (H := char_level.external) [0%nat]
      [ chunker.Document VNone {[ "source" := VStr "notes.md" ]} ]
      true true true
    = Raised TypeError
  ∧ chunker.chunk_documents (H := char_level.external) [0%nat; 1%nat]
      [ chunker.Document VNone {[ "source" := VStr "notes.md" ]};
        chunker.Document (VStr "hello") {[ "source" := VInt 5 ]} ]
      true true true
    = Raised AttributeError.
Proof. repeat split; vm_compute; reflexivity. Qed.

(** The other two paths of [chunk_documents] let the exception out. *)
Example sequential_batch_raises :
  chunker.chunk_documents (H := char_level.external) []
    [ chunker.Document (VStr "hello") {[ "source" := VStr "notes.md" ]};
      chunker.Document VNone {[ "source" := VStr "notes.md" ]} ]
    false true true = Raised TypeError.
Proof. vm_compute. reflexivity. Qed.

Example single_document_raises :
  chunker.chunk_documents (H := char_level.external) [0%nat]
    [ chunker.Document VNone {[ "source" := VStr "notes.md" ]} ]
    true true true = Raised TypeError.
Proof. vm_compute. reflexivity. Qed.

(** The classification runs in the caller: a source that is not a string
    lets the exception out of the parallel path as well. *)
Example classification_failure_escapes :
  chunker.chunk_documents (H := char_level.external) [0%nat; 1%nat]
    [ chunker.Document (VStr "hello") {[ "source" := VStr "notes.md" ]};
      chunker.Document (VStr "hello") {[ "source" := VInt 5 ]} ]
    true true true = Raised AttributeError.
Proof. vm_compute. reflexivity. Qed.

(** ** Worked examples *)

Section worked_examples.
Import metadata_enhancer chunker examples.
#[local] Existing Instance char_level.external.

Lemma control_questions_for_AC_3_example :
  (in_list "fedramp" control_document_types = true
   ∧ ac3_metadata !! "control_id" = Some (VStr "AC-3")
   ∧ ac3_metadata !! "control_name" = Some (VStr "Access Enforcement")
   ∧ ac3_metadata !! "family" = Some (VStr "AC"))
  ∧ match generate_hypothetical_questions plain_text ac3_metadata
            "fedramp" 3 with
    | Returned qs =>
        qs = ["What is the purpose of control AC-3?";
              "What are the requirements for AC-3?";
              "How do I implement Access Enforcement?"]
        ∧ (∃ q, q ∈ qs ∧ contains "AC-3" q = true)
        ∧ (∃ q, q ∈ qs ∧ contains "Access Enforcement" q = true)
        ∧ (length qs ≤ 3)%nat
        ∧ NoDup qs
    | Raised e => e = AttributeError ∧ str_source ac3_metadata = false
    end.
Proof.
  assert (in_list "fedramp" control_document_types = true) as H1
    by reflexivity.
  assert (ac3_metadata !! "control_id" = Some (VStr "AC-3")) as H2
    by (vm_compute; reflexivity).
  assert (ac3_metadata !! "control_name" = Some (VStr "Access Enforcement"))
    as H3 by (vm_compute; reflexivity).
  assert (ac3_metadata !! "family" = Some (VStr "AC")) as H4
    by (vm_compute; reflexivity).
  split; [done |].
  exact (control_questions_for_AC_3 plain_text ac3_metadata "fedramp"
           H1 H2 H3 H4).
Defined.

Lemma no_question_no_enhancement_example :
  (in_list "cmmc" control_document_types = true
   ∧ guide_metadata !! "control_id" = None
   ∧ guide_metadata !! "family" = None
   ∧ existsb (λ w, contains w (lower plain_text)) control_trigger_words
     = false)
  ∧ generate_hypothetical_questions plain_text guide_metadata "cmmc" 3
    = Returned []
  ∧ enhance_chunk_metadata
      {| text := plain_text; metadata := guide_metadata |} "cmmc" true
    = Returned {| text := plain_text; metadata := guide_metadata |}.
Proof.
  assert (in_list "cmmc" control_document_types = true) as H1 by reflexivity.
  assert (guide_metadata !! "control_id" = None) as H2
    by (vm_compute; reflexivity).
  assert (guide_metadata !! "family" = None) as H3
    by (vm_compute; reflexivity).
  assert (existsb (λ w, contains w (lower plain_text)) control_trigger_words
          = false) as H4 by (vm_compute; reflexivity).
  split; [done |].
  exact (no_question_no_enhancement plain_text guide_metadata "cmmc"
           H1 H2 H3 H4).
Defined.

Lemma enhancement_frame_example :
  match enhance_chunk_metadata counted_chunk "800-53_catalog" true with
  | Returned c' =>
      text c' = text counted_chunk
      ∧ (∀ k, k ∉ question_keys →
           metadata c' !! k = metadata counted_chunk !! k)
      ∧ ∃ qs,
          generate_hypothetical_questions (text counted_chunk)
            (metadata counted_chunk) "800-53_catalog" 3
          = Returned qs
          ∧ (qs = [] → c' = counted_chunk)
          ∧ (qs ≠ [] →
             metadata c' !! "hypothetical_questions" = Some (VList qs)
             ∧ metadata c' !! "question_count"
               = Some (VInt (Z.of_nat (length qs)))
             ∧ metadata c' !! "questions_text"
               = Some (VStr (join " " qs)))
  | Raised e =>
      e = AttributeError ∧ str_source (metadata counted_chunk) = false
      ∧ true = true
      ∧ generate_hypothetical_questions (text counted_chunk)
          (metadata counted_chunk) "800-53_catalog" 3
        = Raised e
  end.
Proof.
  exact (enhancement_frame (H := char_level.external)
           counted_chunk "800-53_catalog" true).
Defined.

Lemma small_overlap_truncates_example :
  0 < 256
  ∧ (∀ o,
       token_utils.calculate_adaptive_overlap 256
         token_utils.overlap_ratio_default = Returned o →
       (∃ t, token_utils.int_of_product 256 token_utils.overlap_ratio_default
             = Returned t
             ∧ o = Z.min (Z.max 20 t) (256 / 2))
       ∧ o < 256)
  ∧ (256 ≤ 4096 →
     token_utils.calculate_adaptive_overlap 256
       token_utils.overlap_ratio_default
     = Returned (Z.min (Z.max 20 (256 / 5)) (256 / 2))).
Proof.
  assert (0 < 256) as H1 by lia.
  split; [done |]. exact (small_overlap_truncates 256 H1).
Defined.

(** The two small budgets of the configuration table *)
Example small_overlap_of_the_table :
  token_utils.calculate_adaptive_overlap 256 token_utils.overlap_ratio_default
  = Returned 51
  ∧ token_utils.calculate_adaptive_overlap 300
      token_utils.overlap_ratio_default = Returned 60.
Proof. split; vm_compute; reflexivity. Qed.

(** A chunk can come out of [chunk_text] without any question key although
    questions are enabled. *)
Example emitted_chunk_without_question_keys :
  ∃ c,
    chunk_text plain_text guide_metadata None true true = Returned [c]
    ∧ metadata c !! "hypothetical_questions" = None
    ∧ metadata c !! "question_count" = None
    ∧ metadata c !! "questions_text" = None.
Proof.
  eexists. split; [vm_compute; reflexivity |].
  repeat split; vm_compute; reflexivity.
Qed.

Lemma metadata_type_honoured_for_six_values_example :
  (∀ s, s ∈ honoured_metadata_types →
     get tagged_metadata "document_type" ≠ VStr s)
  ∧ detect_document_type (VStr "notes.md") tagged_metadata
    = Returned
        match filename_rules (lower "notes.md") tagged_metadata with
        | Some t => t
        | None => keyword_rules (lower "notes.md")
        end
  ∧ detect_document_type (VStr "notes.md") tagged_metadata
    = detect_document_type (VStr "notes.md")
        (delete "document_type" tagged_metadata).
Proof.
  assert (∀ s, s ∈ honoured_metadata_types →
            get tagged_metadata "document_type" ≠ VStr s) as H1.
  { intros s Hs. unfold honoured_metadata_types in Hs.
    change (get tagged_metadata "document_type")
      with (VStr "query_patterns").
    repeat (apply elem_of_cons in Hs as [->|Hs]; [discriminate |]).
    by apply elem_of_nil in Hs. }
  split; [done |].
  exact (metadata_type_honoured_for_six_values "notes.md" tagged_metadata H1).
Defined.

Lemma chunk_index_contiguous_example :
  match chunk_text long_text guide_metadata None true true with
  | Returned chunks =>
      chunk_indices chunks = counting_from 0 (length chunks)
  | Raised e => e = AttributeError ∧ str_source guide_metadata = false
  end.
Proof.
  exact (chunk_index_contiguous (H := char_level.external)
           long_text guide_metadata None true true).
Defined.

Lemma one_per_control_emits_single_chunk_example :
  (resolve_document_type ac3_metadata (Some "800-53_catalog")
   = Returned "800-53_catalog"
   ∧ one_per_control (get_chunking_config "800-53_catalog") = Some true
   ∧ Z.of_nat (count_tokens plain_text)
     ≤ default 512 (chunk_size_tokens (get_chunking_config "800-53_catalog")))
  ∧ match chunk_text plain_text ac3_metadata (Some "800-53_catalog")
            true true with
    | Returned chunks =>
        (∃ c, chunks = [c]
              ∧ metadata c !! "chunk_index" = Some (VInt 0)
              ∧ metadata c !! "is_small_chunk" = Some (VBool false)
              ∧ metadata c !! "token_count"
                = Some (VInt (Z.of_nat (count_tokens plain_text))))
        ∧ ∀ f, chunk_text (H := with_splitter char_level.external f)
                 plain_text ac3_metadata (Some "800-53_catalog") true true
               = Returned chunks
    | Raised e => e = AttributeError ∧ str_source ac3_metadata = false
    end.
Proof.
  assert (resolve_document_type ac3_metadata (Some "800-53_catalog")
          = Returned "800-53_catalog") as H1 by reflexivity.
  assert (one_per_control (get_chunking_config "800-53_catalog") = Some true)
    as H2 by (vm_compute; reflexivity).
  assert (Z.of_nat (count_tokens plain_text)
          ≤ default 512
              (chunk_size_tokens (get_chunking_config "800-53_catalog")))
    as H3 by (vm_compute; discriminate).
  split; [done |].
  exact (one_per_control_emits_single_chunk plain_text ac3_metadata
           (Some "800-53_catalog") "800-53_catalog" true true H1 H2 H3).
Defined.


Lemma small_chunks_carry_their_parent_example :
  (resolve_document_type guide_metadata None = Returned "cmmc"
   ∧ split_suppressed "cmmc" long_text = false
   ∧ default false (use_small2big (get_chunking_config "cmmc")) = true
   ∧ true = true
   ∧ (1 < length (parent_spans "cmmc" long_text))%nat)
  ∧ match chunk_text long_text guide_metadata None true true with
    | Returned chunks =>
        Forall (λ c,
            metadata c !! "is_small_chunk" = Some (VBool true)
            ∧ ∃ pi p,
                metadata c !! "parent_chunk_index"
                = Some (VInt (Z.of_nat pi))
                ∧ parent_spans "cmmc" long_text !! pi = Some p
                ∧ metadata c !! "parent_text" = Some (VStr p)
                ∧ ∃ s, s ∈ small_spans "cmmc" p
                       ∧ text c
                         = prepend_context
                             (_build_context_prefix guide_metadata "cmmc") s)
          chunks
        ∧ ∀ pi p, parent_spans "cmmc" long_text !! pi = Some p →
            small_indices_under pi chunks
            = counting_from 0 (length (small_spans "cmmc" p))
    | Raised e => e = AttributeError ∧ str_source guide_metadata = false
    end.
Proof.
  assert (resolve_document_type guide_metadata None = Returned "cmmc") as H1
    by (vm_compute; reflexivity).
  assert (split_suppressed "cmmc" long_text = false) as H2
    by (vm_compute; reflexivity).
  assert (default false (use_small2big (get_chunking_config "cmmc")) = true)
    as H3 by (vm_compute; reflexivity).
  assert (1 < length (parent_spans "cmmc" long_text))%nat as H5
    by (vm_compute; lia).
  split; [done |].
  exact (small_chunks_carry_their_parent long_text guide_metadata None
           "cmmc" true true H1 H2 H3 eq_refl H5).
Defined.

Lemma parallel_batch_isolates_failures_example :
  ((1 < length batch_of_two)%nat
   ∧ [1; 0]%nat ≡ₚ seq 0 (length batch_of_two)
   ∧ Forall (λ doc, str_source (doc_metadata doc) = true) batch_of_two)
  ∧ ∃ all_chunks,
      chunk_documents [1; 0]%nat batch_of_two true true true
      = Returned all_chunks
      ∧ all_chunks
        = ([1; 0]%nat ≫= λ i,
             match document_pipeline <$> batch_of_two !! i with
             | Some pipeline =>
                 match pipeline true true with
                 | Returned chunks => chunks
                 | Raised _ => []
                 end
             | None => []
             end)
      ∧ all_chunks
        ≡ₚ (batch_of_two ≫= λ doc,
              match document_pipeline doc true true with
              | Returned chunks => chunks
              | Raised _ => []
              end).
Proof.
  assert (1 < length batch_of_two)%nat as H1 by (simpl; lia).
  assert ([1; 0]%nat ≡ₚ seq 0 (length batch_of_two)) as H2
    by apply perm_swap.
  assert (Forall (λ doc, str_source (doc_metadata doc) = true) batch_of_two)
    as H3 by (repeat constructor).
  split; [done |].
  exact (parallel_batch_isolates_failures batch_of_two [1; 0]%nat
           true true H1 H2 H3).
Defined.

(** The second document of the batch raises, the first contributes its one
    chunk. *)
Example batch_of_two_outcome :
  document_pipeline (Document VNone guide_metadata) true true
  = Raised TypeError
  ∧ ∃ c, chunk_documents [1; 0]%nat batch_of_two true true true
         = Returned [c]
         ∧ document_pipeline (Document (VStr "hello") guide_metadata)
             true true = Returned [c].
Proof.
  split; [vm_compute; reflexivity |].
  eexists. split; vm_compute; reflexivity.
Qed.

End worked_examples.

(** * Further properties of the code *)

(** ** token_utils.py *)

Section token_utils_properties.
Import token_utils token_utils_config chunker.

Ltac case_tests :=
  repeat match goal with
         | |- context [if ?b then _ else _] =>
             let E := fresh "Htest" in destruct b eqn:E
         end;
  repeat match goal with
         | H : (_ <? _) = true |- _ => apply Z.ltb_lt in H
         | H : (_ <? _) = false |- _ => apply Z.ltb_ge in H
         | H : (_ <=? _) = true |- _ => apply Z.leb_le in H
         | H : (_ <=? _) = false |- _ => apply Z.leb_gt in H
         end.

(** X1. Whatever integers come in, [validate_token_config] hands back a
    chunk size between 50 and 2048 and an overlap strictly below it. *)
Theorem validate_token_config_bounds (chunk_size chunk_overlap : Z) :
  50 ≤ (validate_token_config chunk_size chunk_overlap).1.1 ≤ 2048
  ∧ (validate_token_config chunk_size chunk_overlap).1.2
    < (validate_token_config chunk_size chunk_overlap).1.1.
Proof.
  unfold validate_token_config.
  case_tests; cbn [fst snd]; Z.div_mod_to_equations; lia.
Qed.

Lemma validate_token_config_valid (chunk_size chunk_overlap : Z) :
  50 ≤ chunk_size ≤ 2048 → chunk_overlap < chunk_size →
  validate_token_config chunk_size chunk_overlap
  = (chunk_size, chunk_overlap, []).
Proof.
  intros Hsize Hoverlap. unfold validate_token_config.
  case_tests; first [lia | reflexivity].
Qed.

Lemma validate_token_config_silent (chunk_size chunk_overlap : Z) :
  (validate_token_config chunk_size chunk_overlap).2 = [] →
  50 ≤ chunk_size ≤ 2048 ∧ chunk_overlap < chunk_size.
Proof.
  unfold validate_token_config.
  case_tests; cbn [fst snd app]; first [discriminate | lia].
Qed.

(** X2. [validate_token_config] prints nothing exactly when the chunk size
    is between 50 and 2048 and the overlap is below it, and then returns
    its arguments; what it returns always passes a second validation
    unchanged and without a warning. *)
Theorem validate_token_config_silent_on_valid (chunk_size chunk_overlap : Z) :
  ((validate_token_config chunk_size chunk_overlap).2 = []
   ↔ 50 ≤ chunk_size ≤ 2048 ∧ chunk_overlap < chunk_size)
  ∧ ((validate_token_config chunk_size chunk_overlap).2 = [] →
     (validate_token_config chunk_size chunk_overlap).1
     = (chunk_size, chunk_overlap))
  ∧ validate_token_config
      (validate_token_config chunk_size chunk_overlap).1.1
      (validate_token_config chunk_size chunk_overlap).1.2
    = ((validate_token_config chunk_size chunk_overlap).1, []).
Proof.
  split; [split; [apply validate_token_config_silent |] |].
  - intros [Hsize Hoverlap]. by rewrite validate_token_config_valid.
  - split.
    + intros [Hsize Hoverlap]%validate_token_config_silent.
      by rewrite validate_token_config_valid.
    + assert (50 ≤ (validate_token_config chunk_size chunk_overlap).1.1
                   ≤ 2048
              ∧ (validate_token_config chunk_size chunk_overlap).1.2
                < (validate_token_config chunk_size chunk_overlap).1.1)
        as [Hsize Hoverlap].
      { unfold validate_token_config.
        case_tests; cbn [fst snd]; Z.div_mod_to_equations; lia. }
      rewrite validate_token_config_valid by done.
      by destruct (validate_token_config chunk_size chunk_overlap) as [[] ?].
Qed.

(** X3. For any overlap ratio, when [calculate_adaptive_overlap] returns,
    the overlap is at most half the chunk size; it is at least 20 for a
    chunk size of 40 or more, and exactly half the chunk size (rounded
    down) below 40, where the cap wins over the minimum of 20. *)
Theorem adaptive_overlap_floor_and_cap
    (chunk_size_tokens : Z) (overlap_ratio : spec_float) (o : Z) :
  calculate_adaptive_overlap chunk_size_tokens overlap_ratio = Returned o →
  o ≤ chunk_size_tokens / 2
  ∧ (40 ≤ chunk_size_tokens → 20 ≤ o)
  ∧ (chunk_size_tokens < 40 → o = chunk_size_tokens / 2).
Proof.
  unfold calculate_adaptive_overlap.
  intros (t & _ & [= <-])%bind_Returned.
  assert (40 ≤ chunk_size_tokens → 20 ≤ chunk_size_tokens / 2) as Hhigh.
  { intros Hs. apply Z.div_le_lower_bound; lia. }
  assert (chunk_size_tokens < 40 → chunk_size_tokens / 2 < 20) as Hlow.
  { intros Hs. apply Z.div_lt_upper_bound; lia. }
  lia.
Qed.

(** X4. For every chunk size that passes validation (50 to 2048) the
    adaptive overlap with the default ratio is computed without an error and
    the pair of chunk size and overlap passes [validate_token_config]
    unchanged and without a warning. *)
Theorem adaptive_overlap_is_valid (chunk_size_tokens : Z) :
  50 ≤ chunk_size_tokens ≤ 2048 →
  ∃ o, calculate_adaptive_overlap chunk_size_tokens overlap_ratio_default
       = Returned o
       ∧ validate_token_config chunk_size_tokens o
         = (chunk_size_tokens, o, []).
Proof.
  intros Hsize. exists (truncated_small_overlap chunk_size_tokens).
  split; [apply overlap_truncated; unfold checked_budgets; lia |].
  apply validate_token_config_valid; [done |].
  unfold truncated_small_overlap.
  assert (chunk_size_tokens / 2 < chunk_size_tokens)
    by (apply Z.div_lt; lia).
  lia.
Qed.

(** X5. The two estimates undo each other as far as rounding allows: a
    token count of at least 1 survives the trip through characters, and a
    character count of at least 4 comes back at most 3 short. An estimate of
    tokens is never below 1. *)
Theorem estimates_round_trip (token_count char_count : Z) :
  1 ≤ token_count → 4 ≤ char_count →
  estimate_tokens_from_chars (estimate_chars_from_tokens token_count)
  = token_count
  ∧ char_count - 3
    ≤ estimate_chars_from_tokens (estimate_tokens_from_chars char_count)
    ≤ char_count
  ∧ ∀ n, 1 ≤ estimate_tokens_from_chars n.
Proof.
  intros Htokens Hchars.
  unfold estimate_tokens_from_chars, estimate_chars_from_tokens.
  rewrite Z.div_mul by done. split; [lia |]. split; [| lia].
  pose proof (Z.div_mod char_count 4 ltac:(done)) as Hdiv.
  pose proof (Z.mod_pos_bound char_count 4 ltac:(done)) as Hmod.
  assert (1 ≤ char_count / 4) by (apply Z.div_le_lower_bound; lia).
  lia.
Qed.

Lemma unknown_type_has_no_entry (dt : string) :
  dt ∉ all_type_names →
  CHUNKING_CONFIG !! dt = None ∧ optimal_configs !! dt = None.
Proof.
  unfold all_type_names. rewrite not_elem_of_app. intros [Hc Ho].
  split; by apply not_elem_of_list_to_map_1.
Qed.

(** X6. [get_optimal_chunk_size] and [CHUNKING_CONFIG] give the same chunk
    size and overlap for every document type, known or not, except
    '800-53_xml', 'cnssi_1253', 'overlays' and 'parameters', for which they
    differ. *)
Theorem optimal_sizes_agree_with_config (dt : string) :
  get_optimal_chunk_size dt
  = (default 512 (chunk_size_tokens (get_chunking_config dt)),
     default 102 (chunk_overlap_tokens (get_chunking_config dt)))
  ↔ dt ∉ sizes_differ_for.
Proof.
  destruct (decide (dt ∈ all_type_names)) as [Hin|Hout].
  - unfold all_type_names in Hin. apply list_elem_of_In in Hin.
    cbn in Hin.
    repeat (destruct Hin as [<-|Hin];
            [vm_compute; split;
               [first [ discriminate
                      | intros _;
                        let H := fresh in
                        intros H; apply list_elem_of_In in H; cbn in H;
                        intuition discriminate ]
               | first [ reflexivity
                       | intros H; exfalso; apply H;
                         apply list_elem_of_In; cbn; tauto ] ] |]).
    done.
  - destruct (unknown_type_has_no_entry dt Hout) as [Hc Ho].
    unfold get_optimal_chunk_size, get_chunking_config. rewrite Hc, Ho.
    split; [| done]. intros _ Hin. apply Hout.
    unfold all_type_names, sizes_differ_for in *.
    apply list_elem_of_In in Hin. apply list_elem_of_In. cbn in *.
    intuition.
Qed.

(** X7. Every configuration the registry can return, for any document
    type, is a valid one: chunk size and overlap pass
    [validate_token_config] unchanged and without a warning, the overlap is
    not negative, and the small chunk size is below the chunk size. *)
Theorem every_config_is_valid (dt : string) :
  let config := get_chunking_config dt in
  validate_token_config (default 512 (chunk_size_tokens config))
                        (default 102 (chunk_overlap_tokens config))
  = (default 512 (chunk_size_tokens config),
     default 102 (chunk_overlap_tokens config), [])
  ∧ 0 ≤ default 102 (chunk_overlap_tokens config)
  ∧ 0 < default 256 (small_chunk_size config)
      < default 512 (chunk_size_tokens config).
Proof.
  pose proof (config_in_table dt) as Hin.
  apply list_elem_of_In in Hin. cbn in Hin. cbn zeta.
  repeat (destruct Hin as [<-|Hin]; [vm_compute; repeat split; congruence |]).
  done.
Qed.

End token_utils_properties.

(** ** metadata_enhancer.py *)

Section enhancer_more.
Context `{External}.
Import metadata_enhancer.

(** X8. After enhancement with questions enabled a chunk either is the
    input chunk or carries a question list without duplicates of one to
    three questions, a question_count equal to its length and a
    questions_text that joins the questions with single spaces. The only
    way not to get a chunk back is a [source] that is not a string. *)
Theorem enhanced_questions_are_few_and_distinct (c : chunk) (dt : string) :
  match enhance_chunk_metadata c dt true with
  | Returned c' =>
      c' = c
      ∨ ∃ qs, NoDup qs ∧ (1 ≤ length qs ≤ 3)%nat
          ∧ metadata c' !! "hypothetical_questions" = Some (VList qs)
          ∧ metadata c' !! "question_count"
            = Some (VInt (Z.of_nat (length qs)))
          ∧ metadata c' !! "questions_text" = Some (VStr (join " " qs))
  | Raised e => e = AttributeError ∧ str_source (metadata c) = false
  end.
Proof.
  unfold enhance_chunk_metadata. cbn [negb].
  pose proof (generate_questions_outcome (text c) (metadata c) dt 3) as Hg.
  change (Z.of_nat 3) with 3 in Hg.
  destruct (generate_hypothetical_questions (text c) (metadata c) dt 3)
    as [qs|e]; cbn [mbind outcome_bind]; [| done].
  destruct Hg as [Hnd Hlen].
  destruct qs as [|q0 qs]; [by left |].
  right. exists (q0 :: qs). cbn [metadata].
  split; [done |]. split; [simpl in *; lia |].
  rewrite lookup_insert_ne, lookup_insert_ne, lookup_insert_eq by done.
  rewrite lookup_insert_ne, lookup_insert_eq by done.
  by rewrite lookup_insert_eq.
Qed.

(** The generators read the metadata at keys other than the question
    keys only. *)
Lemma generate_ignores_question_keys
    (text : string) (md md' : gmap string value) (dt : string) (k : Z) :
  (∀ key, key ∉ question_keys → md' !! key = md !! key) →
  generate_hypothetical_questions text md' dt k
  = generate_hypothetical_questions text md dt k.
Proof.
  intros Hkeys.
  assert (∀ key, key ∉ question_keys →
            get_or_empty md' key = get_or_empty md key) as Hgoe.
  { intros key Hkey. unfold get_or_empty. by rewrite Hkeys. }
  assert (∀ key, key ∉ question_keys → get md' key = get md key) as Hget.
  { intros key Hkey. unfold get. by rewrite Hkeys. }
  unfold generate_hypothetical_questions, _generate_control_questions,
    _generate_pattern_questions, _generate_framework_questions,
    _generate_query_pattern_questions, _generate_generic_questions.
  rewrite ?Hgoe, ?Hget by not_question_key. reflexivity.
Qed.

(** X9. Enhancement is idempotent: enhancing a chunk that enhancement
    returned gives that chunk again. *)
Theorem enhancement_is_idempotent (c c' : chunk) (dt : string) (q : bool) :
  enhance_chunk_metadata c dt q = Returned c' →
  enhance_chunk_metadata c' dt q = Returned c'.
Proof.
  unfold enhance_chunk_metadata. destruct q; cbn [negb]; [| done].
  destruct (generate_hypothetical_questions (text c) (metadata c) dt 3)
    as [qs|e] eqn:Hgen; cbn [mbind outcome_bind]; [| discriminate].
  destruct qs as [|q0 qs].
  - intros [= <-]. by rewrite Hgen.
  - intros [= <-]. cbn [text metadata].
    rewrite (generate_ignores_question_keys _ (metadata c)), Hgen.
    + cbn [mbind outcome_bind]. do 2 f_equal.
      apply map_eq. intros i. rewrite !lookup_insert.
      repeat case_decide; done.
    + intros key Hkey. rewrite !lookup_insert_ne; [done | ..];
        intros <-; apply Hkey; unfold question_keys; set_solver.
Qed.

(** For the four guide types the questions are the two fixed questions of
    the type, whatever the text and the metadata are. *)
Lemma guide_questions_are_fixed (text : string) (md : gmap string value) :
  generate_hypothetical_questions text md "positioning_guide" 3
  = Returned ["Where should I position security devices?";
              "What are the best practices for device placement?"]
  ∧ generate_hypothetical_questions text md "zone_guide" 3
    = Returned ["How should I segment network zones?";
                "What are the security zone requirements?"]
  ∧ generate_hypothetical_questions text md "grouping_guide" 3
    = Returned ["How should I group devices?";
                "What are device grouping best practices?"]
  ∧ generate_hypothetical_questions text md "segmentation_guide" 3
    = Returned ["How do I segment my network?";
                "What are network segmentation strategies?"].
Proof. repeat split; reflexivity. Qed.

Lemma capped_questions_nonempty (l : list string) :
  l ≠ [] → ∃ q qs, slice_to 3 (fromkeys l) = q :: qs.
Proof.
  destruct l as [|x l]; [done |]. intros _.
  rewrite fromkeys_cons. by eexists _, _.
Qed.

Ltac list_nonempty :=
  let Heq := fresh in
  intros Heq; apply (f_equal length) in Heq;
  rewrite ?length_app in Heq; simpl in Heq; lia.

Lemma in_list_cases (dt : string) (l : list string) :
  in_list dt l = true → In dt l.
Proof.
  unfold in_list. intros (s & Hs & ->%String.eqb_eq)%existsb_exists. done.
Qed.

Lemma generate_for_pattern_type
    (text : string) (md : gmap string value) (dt : string) :
  in_list dt pattern_document_types = true →
  generate_hypothetical_questions text md dt 3
  = Returned (slice_to 3 (fromkeys (_generate_pattern_questions text md dt)))
  ∧ _generate_pattern_questions text md dt ≠ [].
Proof.
  intros Hdt%in_list_cases. cbn in Hdt.
  repeat (destruct Hdt as [<-|Hdt]; [split; [reflexivity |] |]);
    [.. | done].
  all: unfold _generate_pattern_questions;
    cbn [String.eqb Ascii.eqb Bool.eqb];
    repeat (match goal with
            | |- context [if ?b then _ else _] => destruct b
            end);
    list_nonempty.
Qed.

Lemma generate_for_framework_type
    (text : string) (md : gmap string value) (dt : string) :
  in_list dt framework_document_types = true →
  generate_hypothetical_questions text md dt 3
  = Returned
      (slice_to 3 (fromkeys (_generate_framework_questions text md dt)))
  ∧ _generate_framework_questions text md dt ≠ [].
Proof.
  intros Hdt%in_list_cases. cbn in Hdt.
  repeat (destruct Hdt as [<-|Hdt]; [split; [reflexivity |] |]);
    [.. | done].
  all: unfold _generate_framework_questions;
    cbn [String.eqb Ascii.eqb Bool.eqb];
    repeat (match goal with
            | |- context [if ?b then _ else _] => destruct b
            end);
    list_nonempty.
Qed.

(** X10. For the pattern and guide types and for the framework types the
    question list is never empty, so enhancement always writes the
    question keys for a chunk of such a document. *)
Theorem pattern_and_framework_always_get_questions
    (c : chunk) (dt : string) :
  in_list dt pattern_document_types || in_list dt framework_document_types
  = true →
  (∃ q qs,
     generate_hypothetical_questions (text c) (metadata c) dt 3
     = Returned (q :: qs))
  ∧ ∃ c' qs,
      enhance_chunk_metadata c dt true = Returned c'
      ∧ metadata c' !! "hypothetical_questions" = Some (VList qs)
      ∧ qs ≠ [].
Proof.
  intros Hdt.
  assert (∃ q qs,
            generate_hypothetical_questions (text c) (metadata c) dt 3
            = Returned (q :: qs)) as (q & qs & Hgen).
  { apply orb_true_iff in Hdt as [Hdt|Hdt].
    - destruct (generate_for_pattern_type (text c) (metadata c) dt Hdt)
        as [-> Hne].
      destruct (capped_questions_nonempty _ Hne) as (q & qs & ->).
      by exists q, qs.
    - destruct (generate_for_framework_type (text c) (metadata c) dt Hdt)
        as [-> Hne].
      destruct (capped_questions_nonempty _ Hne) as (q & qs & ->).
      by exists q, qs. }
  split; [by exists q, qs |].
  unfold enhance_chunk_metadata. cbn [negb]. rewrite Hgen.
  cbn [mbind outcome_bind]. eexists _, (q :: qs).
  split; [done |]. split; [| done]. cbn [metadata].
  by rewrite lookup_insert_ne, lookup_insert_ne, lookup_insert_eq.
Qed.

End enhancer_more.

Section enhancer_paths.
Context `{External}.
Import metadata_enhancer.

Lemma slice_to_elem_of {A} (k : Z) (l : list A) (x : A) :
  x ∈ slice_to k l → x ∈ l.
Proof. intros Hx. eapply elem_of_sublist, slice_to_sublist. exact Hx. Qed.

(** X11. For a query-pattern chunk whose text has a question mark, every
    generated question is a piece of the text between question marks,
    stripped, not blank, with the question mark put back, and there are at
    most three; without a question mark in the text the two fixed
    questions are generated. *)
Theorem query_pattern_questions_come_from_the_text
    (text : string) (md : gmap string value) :
  if contains "?" text then
    ∃ qs,
      generate_hypothetical_questions text md "query_patterns" 3
      = Returned qs
      ∧ (length qs ≤ 3)%nat
      ∧ ∀ q, q ∈ qs →
          ∃ piece, piece ∈ split_char "?" text
                   ∧ is_empty (strip piece) = false
                   ∧ q = strip piece +:+ "?"
  else
    generate_hypothetical_questions text md "query_patterns" 3
    = Returned ["What are common questions about compliance?";
                "What should I ask about security requirements?"].
Proof.
  unfold generate_hypothetical_questions, _generate_query_pattern_questions.
  cbn [mbind outcome_bind in_list existsb].
  change (in_list "query_patterns" control_document_types) with false.
  destruct (contains "?" text); [| reflexivity].
  eexists. split; [reflexivity |]. split.
  - apply (slice_to_length_le 3).
  - intros q Hq%slice_to_elem_of%fromkeys_elem_of%slice_to_elem_of.
    apply list_elem_of_fmap in Hq as (piece & -> & Hpiece).
    apply list_elem_of_filter in Hpiece as [Hblank Hpiece].
    by exists piece.
Qed.

Lemma generate_for_generic_type
    (text : string) (md : gmap string value) (dt : string) (k : Z) :
  generic_question_type dt = true →
  generate_hypothetical_questions text md dt k
  = Returned (slice_to k (fromkeys (_generate_generic_questions text md))).
Proof.
  unfold generic_question_type, generate_hypothetical_questions.
  intros (((Hc & Hp)%andb_true_iff & Hf)%andb_true_iff
          & Hq)%andb_true_iff.
  apply negb_true_iff in Hc, Hp, Hf, Hq. by rewrite Hc, Hp, Hf, Hq.
Qed.

(** X12. For a document type that gets the generic questions, as soon as
    the text has a key term the questions are the three questions about
    the first key term: the questions triggered by keywords or by a
    section heading are cut off by the limit of three. *)
Theorem first_key_term_takes_all_questions
    (text : string) (md : gmap string value) (dt term : string)
    (others : list string) :
  generic_question_type dt = true →
  _extract_key_terms text false = term :: others →
  generate_hypothetical_questions text md dt 3
  = Returned ["What is " +:+ term +:+ "?";
              "How does " +:+ term +:+ " work?";
              "What are the requirements for " +:+ term +:+ "?"].
Proof.
  intros Hdt Hterms. rewrite generate_for_generic_type by done.
  unfold _generate_generic_questions. rewrite Hterms. cbn [app].
  f_equal.
  repeat (match goal with
          | |- context [if ?b then _ else _] => destruct b
          end; cbn [app]);
    by apply first_three_kept.
Qed.

(** X13. For a document type that gets the generic questions, '800-53_xml'
    among them, the questions depend on the text and on the section
    heading only: two metadata dictionaries with the same section_heading
    give the same questions, whatever control_id, control_name and family
    they hold. *)
Theorem generic_questions_ignore_control_fields
    (text : string) (md md' : gmap string value) (dt : string) (k : Z) :
  generic_question_type dt = true →
  md !! "section_heading" = md' !! "section_heading" →
  generate_hypothetical_questions text md dt k
  = generate_hypothetical_questions text md' dt k.
Proof.
  intros Hdt Hheading. rewrite !generate_for_generic_type by done.
  unfold _generate_generic_questions, get. by rewrite Hheading.
Qed.

End enhancer_paths.

(** ** chunker.py: the classifier and the context prefix, continued *)

Section classifier_more.
Context `{External}.
Import metadata_enhancer chunker.

Ltac in_table := apply (bool_decide_unpack _); vm_compute; exact I.

Lemma type_name_in_tables (t : string) :
  t ∈ CHUNKING_CONFIG_items.*1 →
  is_Some (CHUNKING_CONFIG !! t) ∧ is_Some (DOCUMENT_LABELS !! t).
Proof.
  intros Ht. cbn [CHUNKING_CONFIG_items fmap list_fmap fst] in Ht.
  repeat (apply elem_of_cons in Ht as [->|Ht]; [split; in_table |]).
  by apply elem_of_nil in Ht.
Qed.

Lemma filename_rules_name (fl t : string) (md : gmap string value) :
  filename_rules fl md = Some t → t ∈ CHUNKING_CONFIG_items.*1.
Proof.
  unfold filename_rules.
  repeat (match goal with
          | |- context [if ?b then _ else _] => destruct b
          end; [intros [= <-]; in_table |]).
  discriminate.
Qed.

Lemma keyword_rules_name (fl : string) :
  keyword_rules fl ∈ CHUNKING_CONFIG_items.*1.
Proof.
  unfold keyword_rules.
  repeat (match goal with
          | |- context [if ?b then _ else _] => destruct b
          end; [in_table |]).
  in_table.
Qed.

Lemma honoured_type_name (s : string) :
  in_list s honoured_metadata_types = true → s ∈ CHUNKING_CONFIG_items.*1.
Proof.
  unfold in_list. intros (s' & Hs' & ->%String.eqb_eq)%existsb_exists.
  simpl in Hs'.
  repeat (destruct Hs' as [<-|Hs']; [in_table |]). done.
Qed.

(** X14. The classifier returns for every file name that is a string, and
    the type it returns has its own entry both in CHUNKING_CONFIG and in
    DOCUMENT_LABELS, so the fallback on the 'default' entry is never taken
    for a detected type. A file name that is not a string raises
    AttributeError. *)
Theorem classifier_returns_a_configured_type
    (filename : value) (md : gmap string value) :
  match detect_document_type filename md with
  | Returned t =>
      (∃ f, filename = VStr f)
      ∧ is_Some (CHUNKING_CONFIG !! t) ∧ is_Some (DOCUMENT_LABELS !! t)
  | Raised e => e = AttributeError ∧ ∀ f, filename ≠ VStr f
  end.
Proof.
  destruct filename as [| | |f|]; try (by split).
  rewrite detect_document_type_blocks.
  split; [by exists f |]. apply type_name_in_tables.
  destruct (filename_rules (lower f) md) as [t|] eqn:Hrules.
  - by eapply filename_rules_name.
  - destruct (get md "document_type") as [| | |s|];
      try apply keyword_rules_name.
    destruct (in_list s honoured_metadata_types) eqn:Hs.
    + by apply honoured_type_name.
    + apply keyword_rules_name.
Qed.

Lemma startswith_app (p r : string) : startswith p (p +:+ r) = true.
Proof.
  induction p as [|a p IH]; [done |].
  change (Ascii.eqb a a && startswith p (p +:+ r) = true).
  by rewrite Ascii.eqb_refl, IH.
Qed.

Lemma append_empty_r (s : string) : s +:+ EmptyString = s.
Proof.
  induction s as [|a s IH]; [done |].
  change (String a (s +:+ EmptyString) = String a s). by rewrite IH.
Qed.

Lemma join_headed (sep x : string) (l : list string) :
  ∃ r, join sep (x :: l) = x +:+ r.
Proof.
  destruct l as [|y l].
  - exists EmptyString. simpl. by rewrite append_empty_r.
  - by exists (sep +:+ join sep (y :: l)).
Qed.

Lemma headed_step (x y : string) (tl : list string) (b : bool) :
  ∃ tl', (if b then (x :: tl) ++ [y] else x :: tl) = x :: tl'.
Proof. destruct b; simpl; eauto. Qed.

Lemma label_not_empty (dt label : string) :
  DOCUMENT_LABELS !! dt = Some label → is_empty label = false.
Proof.
  intros Hl%elem_of_list_to_map_2. apply list_elem_of_In in Hl. simpl in Hl.
  repeat (destruct Hl as [[= <- <-]|Hl]; [done |]). done.
Qed.

(** X15. For a document type that has a label, the context prefix is not
    empty and begins with the label, whatever the metadata holds. *)
Theorem context_prefix_begins_with_label
    (md : gmap string value) (dt label : string) :
  DOCUMENT_LABELS !! dt = Some label →
  startswith label (_build_context_prefix md dt) = true
  ∧ is_empty (_build_context_prefix md dt) = false.
Proof.
  intros Hlabel. pose proof (label_not_empty _ _ Hlabel) as Hne.
  assert (∃ tl, _build_context_prefix md dt = join " | " (label :: tl))
    as [tl ->].
  { set (P := λ s, ∃ tl, s = join " | " (label :: tl)).
    change (P (_build_context_prefix md dt)).
    cbv beta delta [_build_context_prefix].
    repeat lazymatch goal with
           | |- P (let x := (if ?c then ?new else label :: ?t) in @?b x) =>
               let tl' := fresh "tl" in
               let Heq := fresh "Heq" in
               assert (∃ tl', (if c then new else label :: t) = label :: tl')
                 as [tl' Heq] by (cbv zeta; apply headed_step);
               refine (eq_ind_r (λ l, P (b l)) _ Heq); clear Heq; cbv beta
           | |- P (let x := ?a in @?b x) =>
               first
                 [ let Heq := fresh "Heq" in
                   assert (a = [label]) as Heq
                     by (rewrite Hlabel; cbv beta iota; by rewrite Hne);
                   refine (eq_ind_r (λ l, P (b l)) _ Heq); clear Heq;
                   cbv beta
                 | change (P (b a)); cbv beta ]
           end.
    unfold P. eauto. }
  destruct (join_headed " | " label tl) as [r ->].
  split; [apply startswith_app |]. by destruct label.
Qed.

End classifier_more.

(** ** chunker.py: what the chunks of a document look like, continued *)

Section pipeline_more.
Context `{External}.
Import metadata_enhancer chunker.

Ltac not_written Hk :=
  unfold written_keys in Hk;
  repeat (apply not_elem_of_cons in Hk as [? Hk]).

Ltac lookup_step :=
  cbn [metadata small_chunk_of direct_chunk_of];
  unfold single_chunk_metadata, metadata_base;
  repeat first
    [ rewrite lookup_insert_eq
    | rewrite lookup_insert_ne by done
    | rewrite record_prefix_lookup by done ];
  try reflexivity.

Lemma record_prefix_own (prefix : string) (d : gmap string value) :
  record_prefix prefix d !! "context_prefix"
  = if is_empty prefix then d !! "context_prefix" else Some (VStr prefix).
Proof.
  unfold record_prefix. destruct (is_empty prefix); simpl; [done |].
  by rewrite lookup_insert_eq.
Qed.

Lemma small_chunk_carries md dt pi p n si s :
  carries_document_fields md dt
    (small_chunk_of (metadata_base md dt) (_build_context_prefix md dt)
       pi p n si s).
Proof.
  split; [| split].
  - intros k Hk. not_written Hk. lookup_step.
  - lookup_step.
  - lookup_step. rewrite record_prefix_own. by rewrite lookup_insert_ne.
Qed.

Lemma direct_chunk_carries md dt idx p :
  carries_document_fields md dt
    (direct_chunk_of (metadata_base md dt) (_build_context_prefix md dt)
       idx p).
Proof.
  split; [| split].
  - intros k Hk. not_written Hk. lookup_step.
  - lookup_step.
  - lookup_step. rewrite record_prefix_own. by rewrite lookup_insert_ne.
Qed.

Lemma single_chunk_carries md dt (content : string) n :
  carries_document_fields md dt
    {| text := content;
       metadata :=
         single_chunk_metadata md dt (_build_context_prefix md dt) n |}.
Proof.
  split; [| split].
  - intros k Hk. not_written Hk. lookup_step.
  - lookup_step.
  - cbn [metadata]. unfold single_chunk_metadata.
    rewrite record_prefix_own. by rewrite !lookup_insert_ne.
Qed.

Lemma chunks_before_enhancement_carry text md dt s2b :
  Forall (carries_document_fields md dt)
         (chunks_before_enhancement text md dt s2b).
Proof.
  unfold chunks_before_enhancement.
  destruct (split_suppressed dt text).
  - constructor; [| constructor]. apply single_chunk_carries.
  - destruct (hierarchy_applies dt text s2b).
    + apply hierarchy_chunks_Forall. intros. apply small_chunk_carries.
    + apply direct_chunks_Forall. intros. apply direct_chunk_carries.
Qed.

Lemma enhanced_carries md dt (c c' : chunk) :
  enhanced_from c c' →
  carries_document_fields md dt c → carries_document_fields md dt c'.
Proof.
  intros [_ Hkeys] (Hframe & Htype & Hprefix). split; [| split].
  - intros k Hk. rewrite Hkeys; [by apply Hframe |].
    unfold written_keys in Hk. unfold question_keys.
    repeat (apply not_elem_of_cons in Hk as [? Hk]).
    repeat (apply not_elem_of_cons; split; [done |]). apply not_elem_of_nil.
  - rewrite Hkeys; [done | not_question_key].
  - rewrite Hkeys; [done | not_question_key].
Qed.

(** X16. Every chunk [chunk_text] returns holds the caller's metadata
    unchanged under every key outside the thirteen the chunker and
    enhancement write, holds the resolved document type under
    document_type, whatever the caller had there, and holds the context
    prefix under context_prefix whenever the prefix is not empty. The only
    way not to get a chunk list is a [source] that is not a string. *)
Theorem chunks_carry_the_document_metadata text md document_type s2b q :
  match chunk_text text md document_type s2b q with
  | Returned chunks =>
      ∃ dt, resolve_document_type md document_type = Returned dt
            ∧ Forall (carries_document_fields md dt) chunks
  | Raised e => e = AttributeError ∧ str_source md = false
  end.
Proof.
  pose proof (chunk_text_outcome text md document_type s2b q) as Hout.
  destruct (chunk_text text md document_type s2b q) as [chunks|e]; [| done].
  destruct Hout as (dt & Hres & Hframe). exists dt. split; [done |].
  pose proof (chunks_before_enhancement_carry text md dt s2b) as Hpre.
  induction Hframe as [|c c' pre chunks Hc _ IH]; [constructor |].
  apply Forall_cons in Hpre as [Hhead Hpre].
  constructor; [by eapply enhanced_carries | by apply IH].
Qed.

Lemma Forall2_chain {A B C} (R : A → B → Prop) (S : B → C → Prop)
    (T : A → C → Prop) (l : list A) (k : list B) (m : list C) :
  (∀ a b c, R a b → S b c → T a c) →
  Forall2 R l k → Forall2 S k m → Forall2 T l m.
Proof.
  intros Hstep Hlk. revert m.
  induction Hlk as [|a b l k Hab _ IH]; intros m Hkm.
  - inversion Hkm. constructor.
  - inversion Hkm as [|? c ? m' Hbc Hrest]; subst.
    constructor; [by eapply Hstep | by apply IH].
Qed.

Lemma direct_chunks_Forall2 base prefix k ps :
  Forall2 (λ span c, ∃ idx, c = direct_chunk_of base prefix idx span)
          ps (direct_chunks base prefix k ps).
Proof.
  revert k. induction ps as [|p ps IH]; intros k; simpl; constructor; eauto.
Qed.

(** X17. When the text is split and the small-to-big hierarchy does not
    apply (it is switched off in the call or for the type, or the text
    gives at most one parent span), the chunks are the parent spans, one
    chunk per span and in the order of the spans: each has the span with the
    context prefix as text, the token count of the span, is_small_chunk
    false, and no parent field written. An empty split gives no chunk. The
    only way not to get a chunk list is a [source] that is not a string. *)
Theorem direct_path_emits_one_chunk_per_span
    text md document_type dt s2b q :
  resolve_document_type md document_type = Returned dt →
  split_suppressed dt text = false →
  hierarchy_applies dt text s2b = false →
  match chunk_text text md document_type s2b q with
  | Returned chunks =>
      Forall2 (λ span c,
          metadata_enhancer.text c
          = prepend_context (_build_context_prefix md dt) span
          ∧ metadata c !! "token_count"
            = Some (VInt (Z.of_nat (count_tokens span)))
          ∧ metadata c !! "is_small_chunk" = Some (VBool false)
          ∧ metadata c !! "parent_text" = md !! "parent_text"
          ∧ metadata c !! "parent_chunk_id" = md !! "parent_chunk_id"
          ∧ metadata c !! "parent_chunk_index" = md !! "parent_chunk_index")
        (parent_spans dt text) chunks
  | Raised e => e = AttributeError ∧ str_source md = false
  end.
Proof.
  intros Hres Hsup Hhier.
  pose proof (chunk_text_outcome text md document_type s2b q) as Hout.
  destruct (chunk_text text md document_type s2b q) as [chunks|e]; [| done].
  destruct Hout as (dt' & Hres' & Hframe).
  rewrite Hres in Hres'. injection Hres' as <-.
  unfold chunks_before_enhancement in Hframe.
  rewrite Hsup, Hhier in Hframe.
  eapply Forall2_chain; [| apply direct_chunks_Forall2 | exact Hframe].
  intros span c c' [idx ->] [Htext Hkeys]. cbv beta.
  rewrite Htext, !Hkeys by not_question_key.
  repeat split; lookup_step.
Qed.

Lemma small_chunks_from_Forall2 base prefix pi p n j l :
  Forall2 (λ small c,
             ∃ n', c = small_chunk_of base prefix pi p n' small.1 small.2)
          (enumerate_from j l) (small_chunks_from base prefix pi p n j l).
Proof.
  revert n j. induction l as [|s l IH]; intros n j; [constructor |].
  rewrite enumerate_from_cons. cbn [small_chunks_from].
  constructor; [by exists n | apply IH].
Qed.

Lemma hierarchy_chunks_Forall2 base prefix S O n k ps :
  Forall2 (λ position c,
             ∃ n', c = small_chunk_of base prefix position.1.1 position.1.2
                         n' position.2.1 position.2.2)
          (enumerate_from k ps ≫= λ parent,
             (λ small, (parent, small))
             <$> enumerate (split_text S O parent.2))
          (hierarchy_chunks base prefix S O n k ps).
Proof.
  revert n k. induction ps as [|p ps IH]; intros n k; [constructor |].
  rewrite enumerate_from_cons, bind_cons. cbn [hierarchy_chunks].
  apply Forall2_app; [| apply IH].
  apply Forall2_fmap_l. rewrite enumerate_from_0.
  eapply Forall2_impl; [apply small_chunks_from_Forall2 |].
  intros small c [n' ->]. by exists n'.
Qed.

(** X18. When the small-to-big hierarchy applies, the chunks are, in order,
    the small spans of the first parent span, then those of the second, and
    so on, one chunk per small span: each has the small span with the
    context prefix as text and names its parent by position
    (parent_chunk_index), by the id 'parent_' followed by that position, by
    the parent's full text and by the token count of that text, next to its
    own position under the parent. The only way not to get a chunk list is
    a [source] that is not a string. *)
Theorem hierarchy_path_emits_small_spans_in_order
    text md document_type dt q :
  resolve_document_type md document_type = Returned dt →
  split_suppressed dt text = false →
  hierarchy_applies dt text true = true →
  match chunk_text text md document_type true q with
  | Returned chunks =>
      Forall2 (λ position c,
          let '((parent_idx, parent), (small_idx, small)) := position in
          metadata_enhancer.text c
          = prepend_context (_build_context_prefix md dt) small
          ∧ metadata c !! "parent_chunk_id"
            = Some (VStr ("parent_" +:+ pretty parent_idx))
          ∧ metadata c !! "parent_chunk_index"
            = Some (VInt (Z.of_nat parent_idx))
          ∧ metadata c !! "small_chunk_index"
            = Some (VInt (Z.of_nat small_idx))
          ∧ metadata c !! "parent_text" = Some (VStr parent)
          ∧ metadata c !! "parent_token_count"
            = Some (VInt (Z.of_nat (count_tokens parent))))
        (small_span_positions dt text) chunks
  | Raised e => e = AttributeError ∧ str_source md = false
  end.
Proof.
  intros Hres Hsup Hhier.
  pose proof (chunk_text_outcome text md document_type true q) as Hout.
  destruct (chunk_text text md document_type true q) as [chunks|e]; [| done].
  destruct Hout as (dt' & Hres' & Hframe).
  rewrite Hres in Hres'. injection Hres' as <-.
  unfold chunks_before_enhancement in Hframe.
  rewrite Hsup, Hhier in Hframe.
  unfold small_span_positions, small_spans. rewrite enumerate_from_0.
  refine (Forall2_chain _ _ _ _ _ _ _
            (hierarchy_chunks_Forall2 _ _ _ _ 0%nat 0%nat _) Hframe).
  intros [[pi p] [si s]] c c' [n' ->] [Htext Hkeys].
  cbn [fst snd]. rewrite Htext, !Hkeys by not_question_key.
  repeat split; lookup_step.
Qed.

End pipeline_more.

(** ** chunker.py: the batch, continued *)

Section batch_more.
Context `{External}.
Import metadata_enhancer chunker.

Lemma pipeline_is_chunk_text (doc : document) (s : string) (s2b q : bool) :
  doc_text doc = VStr s →
  document_pipeline doc s2b q
  = chunk_text s (doc_metadata doc) None s2b q.
Proof.
  intros Htext. unfold document_pipeline, chunk_text_call. rewrite Htext.
  rewrite chunk_text_eq. unfold resolve_document_type.
  destruct (detect_document_type _ (doc_metadata doc)) as [dt|e];
    [| reflexivity].
  cbn [mbind outcome_bind]. by rewrite chunk_text_eq.
Qed.

(** X19. A batch of one document returns what [chunk_text] returns for the
    text and the metadata of that document when it is left to detect the
    type itself, raising included, whatever the parallel flag and the
    completion order are. *)
Theorem single_document_batch_is_chunk_text
    (doc : document) (s : string) (completion : list nat)
    (parallel s2b q : bool) :
  doc_text doc = VStr s →
  chunk_documents completion [doc] parallel s2b q
  = chunk_text s (doc_metadata doc) None s2b q.
Proof.
  intros Htext. rewrite <- (pipeline_is_chunk_text doc s) by done.
  reflexivity.
Qed.

Lemma chunk_each_eq (documents : list document) (s2b q : bool)
    (acc : list chunk) :
  chunk_each documents s2b q acc
  = per_document ← mapM (λ doc, document_pipeline doc s2b q) documents;
    Returned (acc ++ concat per_document).
Proof.
  revert acc. induction documents as [|doc documents IH]; intros acc.
  - simpl. by rewrite app_nil_r.
  - cbn [chunk_each mapM].
    set (others := mapM _ documents) in *. unfold document_pipeline.
    destruct (detect_document_type _ (doc_metadata doc)) as [dt|e];
      [| reflexivity].
    cbn [mbind outcome_bind].
    destruct (chunk_text_call _ _ dt s2b q) as [chunks|e]; [| reflexivity].
    cbn [mbind outcome_bind]. rewrite IH.
    destruct others as [per_document|e]; [| reflexivity].
    cbn [mbind outcome_bind mret outcome_ret concat].
    by rewrite app_assoc.
Qed.

Lemma sequential_batch_eq (documents : list document)
    (completion : list nat) (s2b q : bool) :
  chunk_documents completion documents false s2b q
  = per_document ← mapM (λ doc, document_pipeline doc s2b q) documents;
    Returned (concat per_document).
Proof.
  destruct documents as [|d1 [|d2 rest]].
  - reflexivity.
  - cbn [chunk_documents mapM]. fold (document_pipeline d1 s2b q).
    destruct (document_pipeline d1 s2b q) as [chunks|e]; [| reflexivity].
    cbn [mbind outcome_bind mret outcome_ret concat].
    by rewrite app_nil_r.
  - unfold chunk_documents. cbn [andb]. apply chunk_each_eq.
Qed.

(** X20. Run sequentially, a batch in which every document goes through
    returns the chunks of the documents one after the other, in the order
    of the documents. *)
Theorem sequential_batch_concatenates
    (documents : list document) (per_document : list (list chunk))
    (completion : list nat) (s2b q : bool) :
  Forall2 (λ doc chunks, document_pipeline doc s2b q = Returned chunks)
          documents per_document →
  chunk_documents completion documents false s2b q
  = Returned (concat per_document).
Proof.
  intros Hall. rewrite sequential_batch_eq.
  by rewrite (proj2 (mapM_Returned _ _ _) Hall).
Qed.

Lemma mapM_first_failure {A B} (f : A → outcome B)
    (before : list A) (x : A) (after : list A) (e : exn) :
  Forall (λ a, ∃ b, f a = Returned b) before →
  f x = Raised e →
  mapM f (before ++ x :: after) = Raised e.
Proof.
  intros Hbefore Hx.
  induction Hbefore as [|a before [b Hb] _ IH]; simpl.
  - by rewrite Hx.
  - by rewrite Hb, IH.
Qed.

(** X21. Run sequentially, a batch stops at the first document that
    raises: the exception of that document is the outcome of the batch, and
    the chunks of the documents before it are lost, whatever comes after
    it. *)
Theorem sequential_batch_stops_at_first_failure
    (before : list document) (doc : document) (after : list document)
    (e : exn) (completion : list nat) (s2b q : bool) :
  Forall (λ d, ∃ chunks, document_pipeline d s2b q = Returned chunks)
         before →
  document_pipeline doc s2b q = Raised e →
  chunk_documents completion (before ++ doc :: after) false s2b q
  = Raised e.
Proof.
  intros Hbefore Hdoc. rewrite sequential_batch_eq.
  by rewrite (mapM_first_failure _ before doc after e).
Qed.

Lemma pipeline_returned_source (doc : document) (s2b q : bool)
    (chunks : list chunk) :
  document_pipeline doc s2b q = Returned chunks →
  str_source (doc_metadata doc) = true.
Proof.
  unfold document_pipeline, str_source.
  by destruct (get_or_empty (doc_metadata doc) "source").
Qed.

Lemma parallel_batch_eq (documents : list document)
    (per_document : list (list chunk)) (completion : list nat)
    (s2b q : bool) :
  Forall2 (λ doc chunks, document_pipeline doc s2b q = Returned chunks)
          documents per_document →
  (1 < length documents)%nat →
  chunk_documents completion documents true s2b q
  = Returned (completion ≫= λ i, default [] (per_document !! i)).
Proof.
  intros Hall Hmany.
  assert (Forall (λ doc, str_source (doc_metadata doc) = true) documents)
    as Hsrc.
  { clear Hmany. induction Hall as [|doc chunks ? ? Hdoc _ IH];
      constructor; [by eapply pipeline_returned_source | done]. }
  assert (map (λ doc, document_pipeline doc s2b q) documents
          = Returned <$> per_document) as Hfutures.
  { clear Hmany Hsrc. induction Hall as [|doc chunks ? ? Hdoc _ IH];
      [done |]. simpl. by rewrite Hdoc, IH. }
  unfold chunk_documents.
  destruct documents as [|d1 [|d2 rest]]; [simpl in Hmany; lia.. |].
  rewrite bool_decide_eq_true_2 by done. cbn [andb].
  pose proof (futures_hold_pipeline_outcomes _ s2b q Hsrc) as Hsubmitted.
  cbv zeta in Hsubmitted. rewrite Hsubmitted, Hfutures.
  cbn [mbind outcome_bind]. rewrite collection_loop. cbn [app].
  f_equal. apply list_bind_ext; [| done]. intros i.
  rewrite list_lookup_fmap. by destruct (per_document !! i).
Qed.

(** X22. When the sequential run of a batch goes through, the parallel run
    goes through as well and returns the same chunks, up to their order
    whatever the order in which the documents complete, and in the very
    same order when they complete in the order of submission. *)
Theorem parallel_batch_agrees_with_sequential
    (documents : list document) (completion : list nat) (s2b q : bool)
    (all_chunks : list chunk) :
  chunk_documents completion documents false s2b q = Returned all_chunks →
  completion ≡ₚ seq 0 (length documents) →
  ∃ collected,
    chunk_documents completion documents true s2b q = Returned collected
    ∧ collected ≡ₚ all_chunks
    ∧ (completion = seq 0 (length documents) → collected = all_chunks).
Proof.
  intros Hseq Hperm.
  destruct (decide (1 < length documents)%nat) as [Hmany|Hfew].
  - rewrite sequential_batch_eq in Hseq.
    apply bind_Returned in Hseq as (per_document & Hall & [= <-]).
    apply mapM_Returned in Hall.
    rewrite (parallel_batch_eq _ per_document) by done.
    eexists. split; [reflexivity |].
    pose proof (bind_positions per_document (default [])) as Hpos.
    rewrite <- (Forall2_length _ _ _ Hall) in Hpos.
    assert (per_document ≫= (λ x, default [] (Some x))
            = concat per_document) as Hconcat.
    { clear. induction per_document as [|x l IH]; [done |].
      by rewrite bind_cons, IH. }
    rewrite Hconcat in Hpos. split.
    + by rewrite Hperm, Hpos.
    + intros ->. exact Hpos.
  - exists all_chunks. split; [| done].
    destruct documents as [|d1 [|d2 rest]];
      [exact Hseq.. | simpl in Hfew; lia].
Qed.

End batch_more.

(** ** file_processor.py: the extracted documents and their chunks *)

Section extracted_documents.
Context `{External}.
Variable _detect_section_heading : string → option string.
Import metadata_enhancer chunker file_processor.

Ltac lookup_built :=
  repeat first
    [ rewrite lookup_insert_eq
    | rewrite lookup_insert_ne by done
    | rewrite lookup_empty ];
  try reflexivity.

(** The classifier looks at the metadata for two things only: whether the
    file type is 'xml', and whether the document type is one of the six
    values it takes over. *)
Lemma classified_by_file_name (f : string) (md : gmap string value) :
  eq_str (get md "file_type") "xml" = false →
  match get md "document_type" with
  | VStr s =>
      in_list s honoured_metadata_types = true → s = keyword_rules (lower f)
  | _ => True
  end →
  detect_document_type (VStr f) md = detect_document_type (VStr f) ∅.
Proof.
  intros Hxml Htag. rewrite !detect_document_type_blocks.
  assert (filename_rules (lower f) md = filename_rules (lower f) ∅) as ->.
  { unfold filename_rules. by rewrite Hxml, !andb_false_r. }
  destruct (filename_rules (lower f) ∅); [done |].
  unfold get at 2. rewrite lookup_empty. cbn [from_option id].
  destruct (get md "document_type") as [| | |s|]; try done.
  destruct (in_list s honoured_metadata_types); [| done].
  f_equal. by apply Htag.
Qed.

Lemma pdf_page_metadata_lookups (filename : string) (page_num : Z) :
  let md := pdf_page_metadata filename page_num in
  md !! "source" = Some (VStr filename)
  ∧ md !! "file_type" = Some (VStr "pdf")
  ∧ md !! "page" = Some (VInt page_num)
  ∧ md !! "section_heading" = None
  ∧ (md !! "document_type" = None
     ∨ md !! "document_type" = Some (VStr "800-53_catalog")
     ∨ md !! "document_type" = Some (VStr "800-171")
     ∨ md !! "document_type" = Some (VStr "800-37_rmf")).
Proof.
  cbv zeta. unfold pdf_page_metadata. cbv zeta.
  repeat (match goal with
          | |- context [if ?b then _ else _] => destruct b
          end);
    repeat split; lookup_built; auto.
Qed.

(** What the page loop appends for one page *)
Lemma pdf_page_body_acc filename current_section acc page_num text :
  pdf_page_body _detect_section_heading filename (current_section, acc)
    (page_num, text)
  = let state :=
      pdf_page_body _detect_section_heading filename (current_section, [])
        (page_num, text) in
    (state.1, acc ++ state.2).
Proof.
  unfold pdf_page_body.
  destruct (negb (is_empty text) && negb (is_empty (strip text))); simpl;
    [done | by rewrite app_nil_r].
Qed.

Lemma fold_pdf_pages filename page_texts page_num current_section acc :
  (fold_left (pdf_page_body _detect_section_heading filename)
     (enumerate_from page_num page_texts) (current_section, acc)).2
  = acc ++ pdf_documents_from _detect_section_heading filename
             current_section page_num page_texts.
Proof.
  revert page_num current_section acc.
  induction page_texts as [|text rest IH]; intros page_num current_section acc.
  - simpl. by rewrite app_nil_r.
  - rewrite enumerate_from_cons. cbn [fold_left pdf_documents_from].
    rewrite pdf_page_body_acc. cbv zeta. rewrite IH.
    by rewrite <- app_assoc.
Qed.

Lemma extract_text_from_pdf_eq filename page_texts :
  extract_text_from_pdf _detect_section_heading filename page_texts
  = pdf_documents_from _detect_section_heading filename None 1 page_texts.
Proof. unfold extract_text_from_pdf. by rewrite fold_pdf_pages. Qed.

Lemma strip_not_blank (text : string) :
  is_empty (strip text) = false → is_empty text = false.
Proof. by destruct text. Qed.

(** One page gives no document when it is blank, and else one document
    whose metadata is the page metadata, with the section heading in force
    when there is one. *)
Lemma pdf_page_body_cases filename current_section page_num text :
  let state :=
    pdf_page_body _detect_section_heading filename (current_section, [])
      (page_num, text) in
  if is_empty (strip text) then
    state = (current_section, [])
  else
    let section :=
      if found (_detect_section_heading text)
      then _detect_section_heading text else current_section in
    state.1 = section
    ∧ ∃ md,
        state.2 = [ {| doc_text := VStr text; doc_metadata := md |} ]
        ∧ (md = pdf_page_metadata filename (Z.of_nat page_num)
             ∧ found section = false
           ∨ ∃ h, section = Some h ∧ is_empty h = false
                  ∧ md = <["section_heading" := VStr h]>
                           (pdf_page_metadata filename (Z.of_nat page_num))).
Proof.
  cbv zeta. unfold pdf_page_body.
  destruct (is_empty (strip text)) eqn:Hblank.
  - by rewrite andb_false_r.
  - rewrite (strip_not_blank _ Hblank). cbn [negb andb fst snd app].
    split; [done |]. eexists. split; [reflexivity |].
    destruct (if found _ then _ else _) as [h|]; [| by left].
    cbn [found]. destruct (is_empty h) eqn:Hh; simpl; [by left |].
    right. by exists h.
Qed.

Lemma pdf_documents_from_Forall (P : document → Prop)
    filename current_section page_num page_texts :
  (∀ text n md,
     text ∈ page_texts → is_empty (strip text) = false →
     (md = pdf_page_metadata filename n
      ∨ ∃ h, md = <["section_heading" := VStr h]>
                    (pdf_page_metadata filename n)) →
     P {| doc_text := VStr text; doc_metadata := md |}) →
  Forall P (pdf_documents_from _detect_section_heading filename
              current_section page_num page_texts).
Proof.
  revert current_section page_num.
  induction page_texts as [|text rest IH]; intros current_section page_num HP;
    [constructor |].
  cbn [pdf_documents_from]. cbv zeta. apply Forall_app. split.
  - pose proof (pdf_page_body_cases filename current_section page_num text)
      as Hpage.
    cbv zeta in Hpage. destruct (is_empty (strip text)) eqn:Hblank.
    + rewrite Hpage. constructor.
    + destruct Hpage as (_ & md & -> & Hmd). constructor; [| constructor].
      apply (HP text (Z.of_nat page_num)); [by left | done |].
      destruct Hmd as [[-> _]|(h & _ & _ & ->)]; eauto.
  - apply IH. intros text' n md Hin. apply HP. by right.
Qed.

Lemma pdf_metadata_classified filename n (md : gmap string value) :
  md = pdf_page_metadata filename n
  ∨ (∃ h, md = <["section_heading" := VStr h]>
                 (pdf_page_metadata filename n)) →
  md !! "source" = Some (VStr filename)
  ∧ detect_document_type (VStr filename) md
    = detect_document_type (VStr filename) ∅.
Proof.
  intros Hmd.
  pose proof (pdf_page_metadata_lookups filename n)
    as (Hsource & Htype & _ & _ & Htag).
  cbv zeta in *.
  assert (∀ k, k ≠ "section_heading" →
               md !! k = pdf_page_metadata filename n !! k) as Hsame.
  { intros k Hk. destruct Hmd as [->|[h ->]]; [done |].
    by rewrite lookup_insert_ne. }
  split; [by rewrite Hsame |].
  apply classified_by_file_name; unfold get.
  - by rewrite Hsame, Htype.
  - rewrite Hsame by done.
    destruct Htag as [-> | [-> | [-> | ->]]]; simpl; done.
Qed.

(** X23. Every document [extract_text_from_pdf] emits holds the text of a
    page that is not blank and the file name as source, and the classifier
    gives it the type it gives the bare file name: the document_type that
    the extractor writes ('800-53_catalog', '800-171', '800-37_rmf') is never
    taken over, and nothing else in the page metadata is looked at. *)
Theorem pdf_documents_are_classified_by_file_name
    (filename : string) (page_texts : list string) :
  Forall (λ doc,
      (∃ text, doc_text doc = VStr text ∧ text ∈ page_texts
               ∧ is_empty (strip text) = false)
      ∧ doc_metadata doc !! "source" = Some (VStr filename)
      ∧ detect_document_type (get_or_empty (doc_metadata doc) "source")
          (doc_metadata doc)
        = detect_document_type (VStr filename) ∅)
    (extract_text_from_pdf _detect_section_heading filename page_texts).
Proof.
  rewrite extract_text_from_pdf_eq. apply pdf_documents_from_Forall.
  intros text n md Hin Hblank Hmd. cbn [doc_text doc_metadata].
  destruct (pdf_metadata_classified filename n md Hmd) as [Hsource Hclass].
  split; [by exists text |]. split; [done |].
  unfold get_or_empty. by rewrite Hsource.
Qed.

Lemma Forall_choose {A B} (R : A → B → Prop) (P : B → Prop) (l : list A) :
  Forall (λ a, ∃ b, R a b ∧ P b) l →
  ∃ k, Forall2 R l k ∧ Forall P k.
Proof.
  induction 1 as [|a l (b & Hab & Hb) _ (k & Hlk & Hk)].
  - exists []. by split; constructor.
  - exists (b :: k). by split; constructor.
Qed.

(** A document with a string as text and as source goes through the
    pipeline, and its chunks carry the detected type and the metadata of
    the document. *)
Lemma pipeline_returns (doc : document) (text : string) (dt : string)
    (s2b q : bool) :
  doc_text doc = VStr text →
  detect_document_type (get_or_empty (doc_metadata doc) "source")
    (doc_metadata doc) = Returned dt →
  ∃ chunks,
    document_pipeline doc s2b q = Returned chunks
    ∧ Forall (carries_document_fields (doc_metadata doc) dt) chunks.
Proof.
  intros Htext Hdt. rewrite (pipeline_is_chunk_text doc text) by done.
  rewrite chunk_text_eq. unfold resolve_document_type. rewrite Hdt.
  cbn [mbind outcome_bind].
  pose proof (chunks_before_enhancement_carry text (doc_metadata doc) dt s2b)
    as Hpre.
  destruct q; [| by eexists].
  pose proof (batch_enhance_outcome
                (chunks_before_enhancement text (doc_metadata doc) dt s2b)
                dt true) as Hb.
  destruct (batch_enhance_chunks _ dt true) as [chunks|e].
  - exists chunks. split; [done |].
    induction Hb as [|c c' pre chunks Hc _ IH]; [constructor |].
    apply Forall_cons in Hpre as [Hhead Hpre].
    constructor; [by eapply enhanced_carries | by apply IH].
  - exfalso. destruct Hb as (_ & c & Hc & Hsrc).
    pose proof (chunks_before_enhancement_source text (doc_metadata doc)
                  dt s2b) as Hall.
    rewrite Forall_forall in Hall. specialize (Hall c Hc).
    unfold str_source, get_or_empty in Hsrc. rewrite Hall in Hsrc.
    fold (get_or_empty (doc_metadata doc) "source") in Hsrc.
    destruct (get_or_empty (doc_metadata doc) "source"); done.
Qed.

(** X24. Chunking the documents of a PDF in parallel, as
    [process_document] and [ingest_file] do, never raises, whatever the
    pages hold and in whatever order the documents complete; and every
    chunk is labelled with the document type of the bare file name, and
    keeps the file name as source and 'pdf' as file type. *)
Theorem pdf_chunks_are_typed_by_file_name
    (filename : string) (page_texts : list string) (completion : list nat)
    (s2b q : bool) :
  ∃ name_type chunks,
    detect_document_type (VStr filename) ∅ = Returned name_type
    ∧ chunk_documents completion
        (extract_text_from_pdf _detect_section_heading filename page_texts)
        true s2b q
      = Returned chunks
    ∧ Forall (λ c,
          metadata c !! "document_type" = Some (VStr name_type)
          ∧ metadata c !! "source" = Some (VStr filename)
          ∧ metadata c !! "file_type" = Some (VStr "pdf"))
        chunks.
Proof.
  destruct (detect_document_type (VStr filename) ∅) as [name_type|e] eqn:Hname;
    [| by rewrite detect_document_type_blocks in Hname].
  exists name_type.
  set (labelled := λ c : chunk,
         metadata c !! "document_type" = Some (VStr name_type)
         ∧ metadata c !! "source" = Some (VStr filename)
         ∧ metadata c !! "file_type" = Some (VStr "pdf")).
  assert (Forall (λ doc, ∃ chunks,
                    document_pipeline doc s2b q = Returned chunks
                    ∧ Forall labelled chunks)
            (extract_text_from_pdf _detect_section_heading filename
               page_texts)) as Hdocs.
  { rewrite extract_text_from_pdf_eq. apply pdf_documents_from_Forall.
    intros text n md _ _ Hmd.
    destruct (pdf_metadata_classified filename n md Hmd) as [Hsource Hclass].
    assert (md !! "file_type" = Some (VStr "pdf")) as Hpdf.
    { pose proof (pdf_page_metadata_lookups filename n) as (_ & Htype & _).
      cbv zeta in Htype.
      destruct Hmd as [->|[h ->]]; [done | by rewrite lookup_insert_ne]. }
    destruct (pipeline_returns
                {| doc_text := VStr text; doc_metadata := md |}
                text name_type s2b q) as (chunks & Hrun & Hcarry).
    { done. }
    { cbn [doc_metadata]. unfold get_or_empty. rewrite Hsource.
      change (detect_document_type (VStr filename) md = Returned name_type).
      by rewrite Hclass. }
    exists chunks. split; [done |].
    eapply Forall_impl; [exact Hcarry |].
    intros c (Hframe & Htype & _). cbn [doc_metadata] in Hframe.
    split; [done |].
    split; (rewrite Hframe; [done |]); unfold written_keys;
      repeat (apply not_elem_of_cons; split; [done |]); apply not_elem_of_nil. }
  apply Forall_choose in Hdocs as (per_document & Hall & Hlabelled).
  destruct (decide (1 < length (extract_text_from_pdf _detect_section_heading
                                  filename page_texts))%nat) as [Hmany|Hfew].
  - rewrite (parallel_batch_eq _ per_document) by done.
    eexists. split; [reflexivity |]. split; [reflexivity |].
    apply Forall_bind, Forall_forall. intros i _. unfold compose.
    destruct (per_document !! i) as [chunks|] eqn:Hi; cbn [from_option id];
      [| constructor].
    rewrite Forall_forall in Hlabelled. apply Hlabelled.
    by eapply list_elem_of_lookup_2.
  - destruct Hall as [|doc chunks docs per Hdoc Hrest];
      [by exists [] |].
    destruct Hrest; [| simpl in Hfew; lia].
    exists chunks. split; [done |]. split; [exact Hdoc |].
    by apply Forall_cons in Hlabelled as [? _].
Qed.

Lemma pdf_documents_from_app filename current_section page_num
    (first rest : list string) :
  ∃ section,
    pdf_documents_from _detect_section_heading filename current_section
      page_num (first ++ rest)
    = pdf_documents_from _detect_section_heading filename current_section
        page_num first
      ++ pdf_documents_from _detect_section_heading filename section
           (page_num + length first) rest.
Proof.
  revert current_section page_num.
  induction first as [|text first IH]; intros current_section page_num.
  - exists current_section. simpl. by rewrite Nat.add_0_r.
  - cbn [app pdf_documents_from length]. cbv zeta.
    destruct (IH (pdf_page_body _detect_section_heading filename
                    (current_section, []) (page_num, text)).1 (S page_num))
      as [section ->].
    exists section. rewrite <- app_assoc. do 3 f_equal. lia.
Qed.

Lemma pdf_documents_under_section filename current_section page_num
    (page_texts : list string) :
  found current_section = true →
  Forall (λ doc, ∃ h, doc_metadata doc !! "section_heading" = Some (VStr h)
                      ∧ is_empty h = false)
         (pdf_documents_from _detect_section_heading filename
            current_section page_num page_texts).
Proof.
  revert current_section page_num.
  induction page_texts as [|text rest IH]; intros current_section page_num Hin;
    [constructor |].
  cbn [pdf_documents_from]. cbv zeta.
  pose proof (pdf_page_body_cases filename current_section page_num text)
    as Hpage.
  cbv zeta in Hpage. apply Forall_app.
  destruct (is_empty (strip text)).
  - rewrite Hpage. split; [constructor | by apply IH].
  - destruct Hpage as (Hsection & md & -> & Hmd).
    assert (found (pdf_page_body _detect_section_heading filename
                     (current_section, []) (page_num, text)).1 = true)
      as Hfound.
    { rewrite Hsection.
      by destruct (found (_detect_section_heading text)) eqn:Hd. }
    split; [| by apply IH].
    constructor; [| constructor]. cbn [doc_metadata].
    destruct Hmd as [[_ Hnone]|(h & _ & Hh & ->)].
    + rewrite <- Hsection, Hfound in Hnone. discriminate.
    + exists h. by rewrite lookup_insert_eq.
Qed.

(** X25. A section heading found on a page that is not blank is recorded
    for that page and stays in force: the document of the page holds it as
    section_heading, every document of a later page holds a section_heading
    that is not empty, and the documents of the pages before are what they
    are without the page. *)
Theorem section_heading_is_carried_forward
    (filename : string) (before : list string) (text : string)
    (after : list string) (h : string) :
  is_empty (strip text) = false →
  _detect_section_heading text = Some h →
  is_empty h = false →
  ∃ doc later,
    extract_text_from_pdf _detect_section_heading filename
      (before ++ text :: after)
    = extract_text_from_pdf _detect_section_heading filename before
      ++ doc :: later
    ∧ doc_text doc = VStr text
    ∧ doc_metadata doc !! "section_heading" = Some (VStr h)
    ∧ Forall (λ doc', ∃ h', doc_metadata doc' !! "section_heading"
                            = Some (VStr h')
                            ∧ is_empty h' = false)
             later.
Proof.
  intros Hblank Hheading Hh. rewrite !extract_text_from_pdf_eq.
  destruct (pdf_documents_from_app filename None 1 before (text :: after))
    as [section ->].
  cbn [pdf_documents_from]. cbv zeta.
  pose proof (pdf_page_body_cases filename section (1 + length before) text)
    as Hpage.
  cbv zeta in Hpage. rewrite Hblank, Hheading in Hpage.
  cbn [found] in Hpage. rewrite Hh in Hpage. cbn [negb] in Hpage.
  destruct Hpage as (Hsection & md & -> & Hmd).
  eexists _, _. split; [reflexivity |]. split; [done |].
  cbn [doc_metadata]. split.
  - destruct Hmd as [[_ Hnone]|(h' & [= <-] & _ & ->)].
    + cbn [found] in Hnone. by rewrite Hh in Hnone.
    + by rewrite lookup_insert_eq.
  - apply pdf_documents_under_section. rewrite Hsection.
    cbn [found]. by rewrite Hh.
Qed.

(** X26. [extract_text_from_markdown] gives no document for a blank text
    and one document for any other; the classifier gives that document the
    type it gives the bare file name, so the document_type the extractor
    writes never changes the classification. *)
Theorem markdown_document_is_classified_by_file_name
    (filename text : string) :
  match extract_text_from_markdown filename text with
  | [] => is_empty (strip text) = true
  | [doc] =>
      is_empty (strip text) = false
      ∧ doc_text doc = VStr text
      ∧ doc_metadata doc !! "source" = Some (VStr filename)
      ∧ detect_document_type (get_or_empty (doc_metadata doc) "source")
          (doc_metadata doc)
        = detect_document_type (VStr filename) ∅
  | _ => False
  end.
Proof.
  unfold extract_text_from_markdown.
  destruct (is_empty (strip text)) eqn:Hblank;
    [by rewrite andb_false_r |].
  rewrite (strip_not_blank _ Hblank). cbn [negb andb]. cbv zeta.
  cbn [doc_text doc_metadata]. split; [done |]. split; [done |].
  match goal with
  | |- ?md !! "source" = _ ∧ _ =>
      assert (md !! "source" = Some (VStr filename)
              ∧ md !! "file_type" = Some (VStr "markdown")) as [Hsource Htype]
  end.
  { repeat (match goal with
            | |- context [if ?b then _ else _] => destruct b
            end);
      split; lookup_built. }
  split; [exact Hsource |].
  unfold get_or_empty at 1. rewrite Hsource. cbn [from_option id].
  apply classified_by_file_name; unfold get at 1; [by rewrite Htype |].
  unfold keyword_rules. cbn [existsb]. cbv beta.
  repeat (match goal with
          | |- context [if contains ?s ?l then _ else _] =>
              destruct (contains s l)
          end; cbn [orb]; lookup_built; cbn [from_option id]; try done).
  repeat (match goal with
          | |- context [if ?b then _ else _] => destruct b
          end; lookup_built; cbn [from_option id]; try done).
Qed.

End extracted_documents.

(** ** ingest_compliance_docs.py: what goes to the store *)

Section store.
Context `{External}.
Import metadata_enhancer ingest_compliance_docs.

Lemma enumerate_snoc {A} (l : list A) (x : A) :
  chunker.enumerate (l ++ [x]) = chunker.enumerate l ++ [(length l, x)].
Proof.
  unfold chunker.enumerate. rewrite imap_app. simpl.
  by rewrite Nat.add_0_r.
Qed.

Lemma prepare_for_store_snoc stem name dt (chunks : list chunk) (c : chunk) :
  prepare_for_store stem name dt (chunks ++ [c])
  = prepare_body stem name dt (prepare_for_store stem name dt chunks)
      (length chunks, c).
Proof.
  unfold prepare_for_store. by rewrite enumerate_snoc, fold_left_app.
Qed.

Lemma chunk_id_inj (stem : string) :
  Inj (=) (=) (λ idx : nat, stem +:+ "_" +:+ pretty idx).
Proof.
  intros i j Hij. apply (inj (String.app stem)) in Hij.
  apply (inj (String.app "_")) in Hij. by apply (inj pretty) in Hij.
Qed.

(** X27. The ids [ingest_file] hands to the store are the stem of the file
    name, an underscore and the position of the chunk, so they are pairwise
    distinct within a file; and the three lists it hands over are aligned
    with the chunks: one id, one text (the text of the chunk, unchanged)
    and one metadata dictionary per chunk. *)
Theorem store_ids_are_distinct
    (stem name : string) (document_type : option string)
    (chunks : list chunk) :
  let '(ids, texts, metadatas) :=
    prepare_for_store stem name document_type chunks in
  ids = (λ idx : nat, stem +:+ "_" +:+ pretty idx)
        <$> seq 0 (length chunks)
  ∧ NoDup ids
  ∧ texts = text <$> chunks
  ∧ length metadatas = length chunks.
Proof.
  assert (let '(ids, texts, metadatas) :=
            prepare_for_store stem name document_type chunks in
          ids = (λ idx : nat, stem +:+ "_" +:+ pretty idx)
                <$> seq 0 (length chunks)
          ∧ texts = text <$> chunks
          ∧ length metadatas = length chunks) as Hshape.
  { induction chunks as [|c chunks IH] using rev_ind; [done |].
    rewrite prepare_for_store_snoc.
    destruct (prepare_for_store stem name document_type chunks)
      as [[ids texts] metadatas].
    destruct IH as (-> & -> & Hlen). cbn [prepare_body].
    rewrite !length_app, seq_app, !fmap_app, Hlen. by cbn. }
  destruct (prepare_for_store stem name document_type chunks)
    as [[ids texts] metadatas].
  destruct Hshape as (-> & -> & Hlen). repeat split; [| done].
  apply (NoDup_fmap_2 _), NoDup_seq.
Qed.

Lemma clean_meta_lookup (meta : gmap string value) (k : string) :
  clean_meta meta !! k
  = match meta !! k with
    | Some (VList l) => Some (VStr (repr_list l))
    | Some VNone | None => None
    | Some v => Some v
    end.
Proof.
  unfold clean_meta. rewrite lookup_omap.
  by destruct (meta !! k) as [[]|].
Qed.

(** X28. Each metadata dictionary [ingest_file] hands to the store holds
    strings, integers and booleans only: an entry of the chunk with such a
    value is kept as it is, a list (the hypothetical questions) is stored
    as the string [str] makes of it, and an entry that is None is dropped.
    A chunk without source gets the file name as source, and a document
    type given to [ingest_file] replaces the one the chunker recorded. *)
Theorem stored_metadata_is_flat
    (stem name : string) (document_type : option string)
    (chunks : list chunk) :
  Forall2 (λ c m,
      (∀ k v, m !! k = Some v → stored_scalar v = true)
      ∧ (∀ k v, k ≠ "document_type" →
           metadata c !! k = Some v → stored_scalar v = true →
           m !! k = Some v)
      ∧ (∀ k l, k ≠ "document_type" →
           metadata c !! k = Some (VList l) →
           m !! k = Some (VStr (repr_list l)))
      ∧ (∀ k, k ≠ "document_type" →
           metadata c !! k = Some VNone → m !! k = None)
      ∧ (metadata c !! "source" = None → m !! "source" = Some (VStr name))
      ∧ (∀ t, document_type = Some t → is_empty t = false →
           m !! "document_type" = Some (VStr t)))
    chunks (prepare_for_store stem name document_type chunks).2.
Proof.
  induction chunks as [|c chunks IH] using rev_ind; [constructor |].
  rewrite prepare_for_store_snoc.
  destruct (prepare_for_store stem name document_type chunks)
    as [[ids texts] metadatas].
  cbn [prepare_body snd] in *.
  apply Forall2_app; [exact IH |]. constructor; [| constructor].
  set (typed := match document_type with
                | Some t =>
                    if negb (is_empty t)
                    then <["document_type" := VStr t]> (metadata c)
                    else metadata c
                | None => metadata c
                end).
  assert (∀ k, k ≠ "document_type" → typed !! k = metadata c !! k) as Htyped.
  { intros k Hk. unfold typed. destruct document_type as [t|]; [| done].
    destruct (negb (is_empty t)); [| done]. by rewrite lookup_insert_ne. }
  set (sourced := if bool_decide (typed !! "source" = None)
                  then <["source" := VStr name]> typed else typed).
  assert (∀ k v, typed !! k = Some v → sourced !! k = Some v) as Hkept.
  { intros k v Hk. unfold sourced. case_bool_decide as Hsrc; [| done].
    destruct (decide (k = "source")) as [->|Hne]; [congruence |].
    by rewrite lookup_insert_ne. }
  repeat split.
  - intros k v. rewrite clean_meta_lookup.
    destruct (sourced !! k) as [[]|]; by intros [= <-].
  - intros k v Hk Hv Hscalar. rewrite clean_meta_lookup.
    rewrite (Hkept k v) by (by rewrite Htyped). by destruct v.
  - intros k l Hk Hl. rewrite clean_meta_lookup.
    by rewrite (Hkept k (VList l)) by (by rewrite Htyped).
  - intros k Hk Hnone. rewrite clean_meta_lookup.
    by rewrite (Hkept k VNone) by (by rewrite Htyped).
  - intros Hnone. rewrite clean_meta_lookup. unfold sourced.
    rewrite bool_decide_eq_true_2 by (by rewrite Htyped).
    by rewrite lookup_insert_eq.
  - intros t -> Ht. rewrite clean_meta_lookup.
    rewrite (Hkept "document_type" (VStr t)); [done |].
    unfold typed. rewrite Ht. cbn [negb]. by rewrite lookup_insert_eq.
Qed.

End store.

(** ** Further worked examples *)

Section further_examples.
Import token_utils token_utils_config metadata_enhancer chunker.
Import file_processor examples more_examples.
#[local] Existing Instance char_level.external.

Lemma adaptive_overlap_floor_and_cap_example :
  calculate_adaptive_overlap 256 overlap_ratio_default = Returned 51
  ∧ (51 ≤ 256 / 2 ∧ (40 ≤ 256 → 20 ≤ 51) ∧ (256 < 40 → 51 = 256 / 2)).
Proof.
  assert (calculate_adaptive_overlap 256 overlap_ratio_default = Returned 51)
    as H1 by (vm_compute; reflexivity).
  split; [done |].
  exact (adaptive_overlap_floor_and_cap 256 overlap_ratio_default 51 H1).
Defined.

Lemma adaptive_overlap_is_valid_example :
  50 ≤ 384 ≤ 2048
  ∧ ∃ o, calculate_adaptive_overlap 384 overlap_ratio_default = Returned o
         ∧ validate_token_config 384 o = (384, o, []).
Proof.
  assert (50 ≤ 384 ≤ 2048) as H1 by lia.
  split; [done |]. exact (adaptive_overlap_is_valid 384 H1).
Defined.

Lemma estimates_round_trip_example :
  (1 ≤ 100 ∧ 4 ≤ 403)
  ∧ estimate_tokens_from_chars (estimate_chars_from_tokens 100) = 100
  ∧ 403 - 3
    ≤ estimate_chars_from_tokens (estimate_tokens_from_chars 403)
    ≤ 403
  ∧ ∀ n, 1 ≤ estimate_tokens_from_chars n.
Proof.
  assert (1 ≤ 100) as H1 by lia.
  assert (4 ≤ 403) as H2 by lia.
  split; [done |]. exact (estimates_round_trip 100 403 H1 H2).
Defined.

Lemma enhancement_is_idempotent_example :
  ∃ c',
    enhance_chunk_metadata counted_chunk "800-53_catalog" true = Returned c'
    ∧ enhance_chunk_metadata c' "800-53_catalog" true = Returned c'.
Proof.
  assert (∃ c', enhance_chunk_metadata counted_chunk "800-53_catalog" true
                = Returned c') as [c' H1]
    by (eexists; vm_compute; reflexivity).
  exists c'. split; [exact H1 |].
  exact (enhancement_is_idempotent (H := char_level.external)
           counted_chunk c' "800-53_catalog" true H1).
Defined.

Lemma pattern_and_framework_always_get_questions_example :
  in_list "zone_guide" pattern_document_types
  || in_list "zone_guide" framework_document_types = true
  ∧ (∃ q qs,
       generate_hypothetical_questions plain_text guide_metadata
         "zone_guide" 3
       = Returned (q :: qs))
  ∧ ∃ c' qs,
      enhance_chunk_metadata
        {| text := plain_text; metadata := guide_metadata |} "zone_guide" true
      = Returned c'
      ∧ metadata c' !! "hypothetical_questions" = Some (VList qs)
      ∧ qs ≠ [].
Proof.
  assert (in_list "zone_guide" pattern_document_types
          || in_list "zone_guide" framework_document_types = true) as H1
    by reflexivity.
  split; [done |].
  exact (pattern_and_framework_always_get_questions
           (H := char_level.external)
           {| text := plain_text; metadata := guide_metadata |}
           "zone_guide" H1).
Defined.

Lemma first_key_term_takes_all_questions_example :
  (generic_question_type "default" = true
   ∧ _extract_key_terms (H := acronym_external) acronym_text false
     = ["NIST"])
  ∧ generate_hypothetical_questions (H := acronym_external)
      acronym_text ∅ "default" 3
    = Returned ["What is " +:+ "NIST" +:+ "?";
                "How does " +:+ "NIST" +:+ " work?";
                "What are the requirements for " +:+ "NIST" +:+ "?"].
Proof.
  assert (generic_question_type "default" = true) as H1 by reflexivity.
  assert (_extract_key_terms (H := acronym_external) acronym_text false
          = ["NIST"]) as H2 by (vm_compute; reflexivity).
  split; [done |].
  exact (first_key_term_takes_all_questions (H := acronym_external)
           acronym_text ∅ "default" "NIST" [] H1 H2).
Defined.

Lemma generic_questions_ignore_control_fields_example :
  (generic_question_type "800-53_xml" = true
   ∧ ac3_metadata !! "section_heading" = guide_metadata !! "section_heading")
  ∧ generate_hypothetical_questions plain_text ac3_metadata "800-53_xml" 3
    = generate_hypothetical_questions plain_text guide_metadata
        "800-53_xml" 3.
Proof.
  assert (generic_question_type "800-53_xml" = true) as H1 by reflexivity.
  assert (ac3_metadata !! "section_heading"
          = guide_metadata !! "section_heading") as H2
    by (vm_compute; reflexivity).
  split; [done |].
  exact (generic_questions_ignore_control_fields (H := char_level.external)
           plain_text ac3_metadata guide_metadata "800-53_xml" 3 H1 H2).
Defined.

Lemma context_prefix_begins_with_label_example :
  DOCUMENT_LABELS !! "fedramp" = Some "FedRAMP Security Baseline"
  ∧ startswith "FedRAMP Security Baseline"
      (_build_context_prefix ac3_metadata "fedramp") = true
  ∧ is_empty (_build_context_prefix ac3_metadata "fedramp") = false.
Proof.
  assert (DOCUMENT_LABELS !! "fedramp" = Some "FedRAMP Security Baseline")
    as H1 by (vm_compute; reflexivity).
  split; [done |].
  exact (context_prefix_begins_with_label (H := char_level.external)
           ac3_metadata "fedramp" "FedRAMP Security Baseline" H1).
Defined.

Lemma direct_path_emits_one_chunk_per_span_example :
  (resolve_document_type guide_metadata None = Returned "cmmc"
   ∧ split_suppressed "cmmc" long_text = false
   ∧ hierarchy_applies "cmmc" long_text false = false)
  ∧ match chunk_text long_text guide_metadata None false true with
    | Returned chunks =>
        Forall2 (λ span c,
            text c
            = prepend_context (_build_context_prefix guide_metadata "cmmc")
                span
            ∧ metadata c !! "token_count"
              = Some (VInt (Z.of_nat (count_tokens span)))
            ∧ metadata c !! "is_small_chunk" = Some (VBool false)
            ∧ metadata c !! "parent_text" = guide_metadata !! "parent_text"
            ∧ metadata c !! "parent_chunk_id"
              = guide_metadata !! "parent_chunk_id"
            ∧ metadata c !! "parent_chunk_index"
              = guide_metadata !! "parent_chunk_index")
          (parent_spans "cmmc" long_text) chunks
    | Raised e => e = AttributeError ∧ str_source guide_metadata = false
    end.
Proof.
  assert (resolve_document_type guide_metadata None = Returned "cmmc") as H1
    by (vm_compute; reflexivity).
  assert (split_suppressed "cmmc" long_text = false) as H2
    by (vm_compute; reflexivity).
  assert (hierarchy_applies "cmmc" long_text false = false) as H3
    by (vm_compute; reflexivity).
  split; [done |].
  exact (direct_path_emits_one_chunk_per_span (H := char_level.external)
           long_text guide_metadata None "cmmc" false true H1 H2 H3).
Defined.

Lemma hierarchy_path_emits_small_spans_in_order_example :
  (resolve_document_type guide_metadata None = Returned "cmmc"
   ∧ split_suppressed "cmmc" long_text = false
   ∧ hierarchy_applies "cmmc" long_text true = true)
  ∧ match chunk_text long_text guide_metadata None true true with
    | Returned chunks =>
        Forall2 (λ position c,
            let '((parent_idx, parent), (small_idx, small)) := position in
            text c
            = prepend_context (_build_context_prefix guide_metadata "cmmc")
                small
            ∧ metadata c !! "parent_chunk_id"
              = Some (VStr ("parent_" +:+ pretty parent_idx))
            ∧ metadata c !! "parent_chunk_index"
              = Some (VInt (Z.of_nat parent_idx))
            ∧ metadata c !! "small_chunk_index"
              = Some (VInt (Z.of_nat small_idx))
            ∧ metadata c !! "parent_text" = Some (VStr parent)
            ∧ metadata c !! "parent_token_count"
              = Some (VInt (Z.of_nat (count_tokens parent))))
          (small_span_positions "cmmc" long_text) chunks
    | Raised e => e = AttributeError ∧ str_source guide_metadata = false
    end.
Proof.
  assert (resolve_document_type guide_metadata None = Returned "cmmc") as H1
    by (vm_compute; reflexivity).
  assert (split_suppressed "cmmc" long_text = false) as H2
    by (vm_compute; reflexivity).
  assert (hierarchy_applies "cmmc" long_text true = true) as H3
    by (vm_compute; reflexivity).
  split; [done |].
  exact (hierarchy_path_emits_small_spans_in_order (H := char_level.external)
           long_text guide_metadata None "cmmc" true H1 H2 H3).
Defined.

Lemma single_document_batch_is_chunk_text_example :
  doc_text (Document (VStr "hello") guide_metadata) = VStr "hello"
  ∧ chunk_documents [0%nat] [Document (VStr "hello") guide_metadata]
      true true true
    = chunk_text "hello"
        (doc_metadata (Document (VStr "hello") guide_metadata))
        None true true.
Proof.
  assert (doc_text (Document (VStr "hello") guide_metadata) = VStr "hello")
    as H1 by reflexivity.
  split; [done |].
  exact (single_document_batch_is_chunk_text (H := char_level.external)
           (Document (VStr "hello") guide_metadata) "hello" [0%nat]
           true true true H1).
Defined.

Lemma sequential_batch_concatenates_example :
  ∃ per_document,
    Forall2 (λ doc chunks, document_pipeline doc true true = Returned chunks)
            batch_of_good per_document
    ∧ chunk_documents [] batch_of_good false true true
      = Returned (concat per_document).
Proof.
  assert (∃ per_document,
            Forall2 (λ doc chunks,
                       document_pipeline doc true true = Returned chunks)
                    batch_of_good per_document) as [per_document H1].
  { eexists. unfold batch_of_good.
    constructor; [vm_compute; reflexivity |].
    constructor; [vm_compute; reflexivity |]. constructor. }
  exists per_document. split; [exact H1 |].
  exact (sequential_batch_concatenates (H := char_level.external)
           batch_of_good per_document [] true true H1).
Defined.

Lemma sequential_batch_stops_at_first_failure_example :
  (Forall (λ d, ∃ chunks, document_pipeline d true true = Returned chunks)
          [Document (VStr "hello") guide_metadata]
   ∧ document_pipeline (Document VNone guide_metadata) true true
     = Raised TypeError)
  ∧ chunk_documents []
      ([Document (VStr "hello") guide_metadata]
       ++ Document VNone guide_metadata :: [])
      false true true
    = Raised TypeError.
Proof.
  assert (Forall (λ d, ∃ chunks,
                    document_pipeline d true true = Returned chunks)
                 [Document (VStr "hello") guide_metadata]) as H1.
  { constructor; [| constructor]. eexists. vm_compute. reflexivity. }
  assert (document_pipeline (Document VNone guide_metadata) true true
          = Raised TypeError) as H2 by (vm_compute; reflexivity).
  split; [done |].
  exact (sequential_batch_stops_at_first_failure (H := char_level.external)
           [Document (VStr "hello") guide_metadata]
           (Document VNone guide_metadata) [] TypeError [] true true H1 H2).
Defined.

Lemma parallel_batch_agrees_with_sequential_example :
  ∃ all_chunks,
    (chunk_documents [1%nat; 0%nat] batch_of_good false true true
     = Returned all_chunks
     ∧ [1%nat; 0%nat] ≡ₚ seq 0 (length batch_of_good))
    ∧ ∃ collected,
        chunk_documents [1%nat; 0%nat] batch_of_good true true true
        = Returned collected
        ∧ collected ≡ₚ all_chunks
        ∧ ([1%nat; 0%nat] = seq 0 (length batch_of_good) →
           collected = all_chunks).
Proof.
  assert (∃ all_chunks,
            chunk_documents [1%nat; 0%nat] batch_of_good false true true
            = Returned all_chunks) as [all_chunks H1]
    by (eexists; vm_compute; reflexivity).
  assert ([1%nat; 0%nat] ≡ₚ seq 0 (length batch_of_good)) as H2
    by apply perm_swap.
  exists all_chunks. split; [exact (conj H1 H2) |].
  exact (parallel_batch_agrees_with_sequential (H := char_level.external)
           batch_of_good [1%nat; 0%nat] true true all_chunks H1 H2).
Defined.

Lemma section_heading_is_carried_forward_example :
  (is_empty (strip "TASK P-1") = false
   ∧ task_heading "TASK P-1" = Some "TASK P-1"
   ∧ is_empty "TASK P-1" = false)
  ∧ ∃ doc later,
      extract_text_from_pdf task_heading "rmf_guide.pdf"
        (["Introduction"] ++ "TASK P-1" :: ["Assign roles."])
      = extract_text_from_pdf task_heading "rmf_guide.pdf" ["Introduction"]
        ++ doc :: later
      ∧ doc_text doc = VStr "TASK P-1"
      ∧ doc_metadata doc !! "section_heading" = Some (VStr "TASK P-1")
      ∧ Forall (λ doc', ∃ h', doc_metadata doc' !! "section_heading"
                              = Some (VStr h')
                              ∧ is_empty h' = false)
               later.
Proof.
  assert (is_empty (strip "TASK P-1") = false) as H1 by reflexivity.
  assert (task_heading "TASK P-1" = Some "TASK P-1") as H2 by reflexivity.
  assert (is_empty "TASK P-1" = false) as H3 by reflexivity.
  split; [done |].
  exact (section_heading_is_carried_forward task_heading "rmf_guide.pdf"
           ["Introduction"] "TASK P-1" ["Assign roles."] "TASK P-1"
           H1 H2 H3).
Defined.

End further_examples.
